(** * USB CDC device controller of the nRF52840 (src/machine/usb_nrf52840.go)

    A shallow embedding of the interrupt handler, the control-transfer
    handlers, the endpoint I/O helpers and the easyDMA critical section,
    followed by the properties of the specification that concern them.
    The GPIO and SPI drivers of the FE310, which the sources hold too, have
    a module of their own. *)

From Stdlib Require Import ZArith List Bool Lia RelationClasses.
From Stdlib Require String.
Import ListNotations.
Local Open Scope Z_scope.

(** ** Fixed-width integers

    Go's [uint8], [uint16], [uint32] are integers modulo a power of two; [int]
    is 32 bits wide on the Cortex-M4 of the nRF52840. *)

Definition uint8 (x : Z) : Z := x mod 2 ^ 8.
Definition uint16 (x : Z) : Z := x mod 2 ^ 16.
Definition uint32 (x : Z) : Z := x mod 2 ^ 32.
Definition int32 (x : Z) : Z := (x + 2 ^ 31) mod 2 ^ 32 - 2 ^ 31.

(** [x << n] on uint32 operands. *)
Definition shl32 (x n : Z) : Z := uint32 (Z.shiftl x n).

(** A byte is a [Z] in [0, 256). *)
Definition is_byte (b : Z) : Prop := 0 <= b < 256.

(** volatile.Register8: [HasBits], [SetBits], [ClearBits]. *)
Definition HasBits (r v : Z) : bool := negb (Z.land r v =? 0).
Definition SetBits (r v : Z) : Z := uint8 (Z.lor r v).
Definition ClearBits (r v : Z) : Z := uint8 (Z.land r (Z.lnot v)).

(** ** Constants of the USB 2.0 and CDC 1.1 standards *)

Module usb.

(** The constants of this module are declared in usb.go, which is missing
    here.  Section 6 of the specification fixes the wire protocol as the
    standard USB 2.0 control transfer protocol plus the CDC-ACM class
    requests, so their values are those of the two standards. *)

(** Modelled from the spec: the standard request codes of usb.go (bRequest,
    USB 2.0 table 9-4). *)
Definition usb_GET_STATUS : Z := 0.
Definition usb_CLEAR_FEATURE : Z := 1.
Definition usb_SET_FEATURE : Z := 3.
Definition usb_SET_ADDRESS : Z := 5.
Definition usb_GET_DESCRIPTOR : Z := 6.
Definition usb_SET_DESCRIPTOR : Z := 7.
Definition usb_GET_CONFIGURATION : Z := 8.
Definition usb_SET_CONFIGURATION : Z := 9.
Definition usb_GET_INTERFACE : Z := 10.
Definition usb_SET_INTERFACE : Z := 11.

(** Modelled from the spec: the masks and values of bmRequestType in usb.go
    (USB 2.0 table 9-2): type in bits 5 and 6, recipient in bits 0 to 4,
    direction in bit 7; the two class-interface request types of CDC. *)
Definition usb_REQUEST_STANDARD : Z := 0x00.
Definition usb_REQUEST_TYPE : Z := 0x60.
Definition usb_REQUEST_DEVICE : Z := 0x00.
Definition usb_REQUEST_INTERFACE : Z := 0x01.
Definition usb_REQUEST_ENDPOINT : Z := 0x02.
Definition usb_REQUEST_RECIPIENT : Z := 0x1F.
Definition usb_REQUEST_DEVICETOHOST : Z := 0x80.
Definition usb_REQUEST_DEVICETOHOST_CLASS_INTERFACE : Z := 0xA1.
Definition usb_REQUEST_HOSTTODEVICE_CLASS_INTERFACE : Z := 0x21.

(** Modelled from the spec: the descriptor types of usb.go (USB 2.0
    table 9-5). *)
Definition usb_DEVICE_DESCRIPTOR_TYPE : Z := 1.
Definition usb_CONFIGURATION_DESCRIPTOR_TYPE : Z := 2.
Definition usb_STRING_DESCRIPTOR_TYPE : Z := 3.

(** Modelled from the spec: the class request codes of usb.go (CDC 1.1
    table 46). *)
Definition usb_CDC_SET_LINE_CODING : Z := 0x20.
Definition usb_CDC_GET_LINE_CODING : Z := 0x21.
Definition usb_CDC_SET_CONTROL_LINE_STATE : Z := 0x22.
Definition usb_CDC_SEND_BREAK : Z := 0x23.

(** Modelled from the spec: the bits of the control line state in usb.go
    (CDC 1.1 table 51): DTR is bit 0, RTS is bit 1. *)
Definition usb_CDC_LINESTATE_DTR : Z := 0x01.
Definition usb_CDC_LINESTATE_RTS : Z := 0x02.

(** Modelled from the spec: the transfer types and the direction bit of an
    endpoint in usb.go (USB 2.0 table 9-13). *)
Definition usb_ENDPOINT_TYPE_CONTROL : Z := 0x00.
Definition usb_ENDPOINT_TYPE_BULK : Z := 0x02.
Definition usb_ENDPOINT_TYPE_INTERRUPT : Z := 0x03.
Definition usbEndpointOut : Z := 0x00.
Definition usbEndpointIn : Z := 0x80.

(** Modelled from the spec: the maximum packet size of the control and bulk
    endpoints (usb.go) is 64 bytes, sections 3 and 4.3. *)
Definition usbEndpointPacketSize : Z := 64.

(** Modelled from the spec: the endpoint numbers (usb.go) follow the endpoint
    table, section 3: control, interrupt IN, bulk OUT, bulk IN; they are the
    indices of [endPoints] below. *)
Definition usb_CDC_ENDPOINT_ACM : Z := 1.
Definition usb_CDC_ENDPOINT_OUT : Z := 2.
Definition usb_CDC_ENDPOINT_IN : Z := 3.

(** Modelled from the spec: the standard device descriptor (usb.go), whose
    layout section 4.4 fixes as that of USB 2.0 table 9-8, 18 bytes, multi-byte
    fields little endian. *)
Definition deviceDescriptorSize : Z := 18.

Record DeviceDescriptor := {
  bLength : Z;
  bDescriptorType : Z;
  bcdUSB : Z;
  bDeviceClass : Z;
  bDeviceSubClass : Z;
  bDeviceProtocol : Z;
  bMaxPacketSize0 : Z;
  idVendor : Z;
  idProduct : Z;
  bcdDevice : Z;
  iManufacturer : Z;
  iProduct : Z;
  iSerialNumber : Z;
  bNumConfigurations : Z
}.

(** Modelled from the spec: [NewDeviceDescriptor] of usb.go; length 18, type 1
    (device), USB release 2.00. *)
Definition NewDeviceDescriptor
    (class subClass proto packetSize0 vid pid version im ip is_ configs : Z)
    : DeviceDescriptor :=
  {| bLength := deviceDescriptorSize; bDescriptorType := 1; bcdUSB := 0x200;
     bDeviceClass := class; bDeviceSubClass := subClass;
     bDeviceProtocol := proto; bMaxPacketSize0 := packetSize0;
     idVendor := vid; idProduct := pid; bcdDevice := version;
     iManufacturer := im; iProduct := ip; iSerialNumber := is_;
     bNumConfigurations := configs |}.

Definition le16 (x : Z) : list Z := [uint8 x; uint8 (Z.shiftr (uint16 x) 8)].

(** Modelled from the spec: [DeviceDescriptor.Bytes] of usb.go, the fields in
    the order of table 9-8. *)
Definition DeviceDescriptor_Bytes (d : DeviceDescriptor) : list Z :=
  [uint8 (bLength d); uint8 (bDescriptorType d)] ++ le16 (bcdUSB d) ++
  [uint8 (bDeviceClass d); uint8 (bDeviceSubClass d);
   uint8 (bDeviceProtocol d); uint8 (bMaxPacketSize0 d)] ++
  le16 (idVendor d) ++ le16 (idProduct d) ++ le16 (bcdDevice d) ++
  [uint8 (iManufacturer d); uint8 (iProduct d); uint8 (iSerialNumber d);
   uint8 (bNumConfigurations d)].

End usb.
Import usb.

(** ** What the build supplies

    Bit masks of the generated package device/nrf, the identity of the board
    and the descriptor encoders of usb.go that no property below depends on.
    They are parameters of the whole development. *)

Record platform := {
  USBD_EVENTCAUSE_READY : Z;
  USBD_EPDATASTATUS_EPIN1 : Z;
  USBD_EPDATASTATUS_EPOUT1 : Z;
  USBD_INTENSET_EP0SETUP : Z;
  USBD_INTENSET_ENDEPOUT0 : Z;
  USBD_EPOUTEN_OUT0 : Z;
  USBD_EPINEN_IN0 : Z;
  usb_VID : Z;
  usb_PID : Z;
  usb_IMANUFACTURER : Z;
  usb_IPRODUCT : Z;
  usb_ISERIAL : Z;
  usb_CDC_ACM_INTERFACE : Z;
  (** [strToUTF16LEDescriptor(usb_STRING_PRODUCT)] and
      [strToUTF16LEDescriptor(usb_STRING_MANUFACTURER)] *)
  product_descriptor : list Z;
  manufacturer_descriptor : list Z;
  (** [NewConfigDescriptor(uint16(configDescriptorSize + cdcSize), 2).Bytes()] *)
  config_descriptor : list Z;
  (** [NewCDCDescriptor(iad, cif, ..., in).Bytes()] of [sendConfiguration] *)
  cdc_descriptor : list Z
}.

(** ** Program state *)

(** cdcLineInfo (usb.go); initialised positionally in the source as
    [{115200, 0x00, 0x00, 0x08, 0x00}]. *)
Record cdcLineInfo := {
  dwDTERate : Z;
  bCharFormat : Z;
  bParityType : Z;
  bDataBits : Z;
  lineState : Z
}.

(** usbSetup (usb.go), as filled by [parseUSBSetupRegisters]. *)
Record usbSetup := {
  bmRequestType : Z;
  bRequest : Z;
  wValueL : Z;
  wValueH : Z;
  wIndex : Z;
  wLength : Z
}.

(** Addresses handed to easyDMA: [&udd_ep_in_cache_buffer[ep][off]] and
    [&udd_ep_out_cache_buffer[ep][off]]. *)
Inductive pointer :=
| in_cache (ep off : Z)
| out_cache (ep off : Z).

(** The word registers of [nrf.USBD] that the driver reads or writes. *)
Inductive reg :=
| EVENTS_USBEVENT | EVENTCAUSE | EVENTS_EP0DATADONE | EVENTS_EP0SETUP
| EVENTS_EPDATA | EPDATASTATUS
| EVENTS_ENDEPOUT (i : Z)
| SIZE_EPOUT (i : Z)
| EPOUT_AMOUNT (i : Z)
| EPOUT_MAXCNT (i : Z)
| EPIN_MAXCNT (i : Z)
| BMREQUESTTYPE | BREQUEST | WVALUEL | WVALUEH
| WINDEXL | WINDEXH | WLENGTHL | WLENGTHH
| INTENSET | USBPULLUP | EPINEN | EPOUTEN.

Definition reg_code (r : reg) : Z * Z :=
  match r with
  | EVENTS_USBEVENT => (0, 0) | EVENTCAUSE => (1, 0)
  | EVENTS_EP0DATADONE => (2, 0) | EVENTS_EP0SETUP => (3, 0)
  | EVENTS_EPDATA => (4, 0) | EPDATASTATUS => (5, 0)
  | EVENTS_ENDEPOUT i => (6, i) | SIZE_EPOUT i => (7, i)
  | EPOUT_AMOUNT i => (8, i) | EPOUT_MAXCNT i => (9, i)
  | EPIN_MAXCNT i => (10, i)
  | BMREQUESTTYPE => (11, 0) | BREQUEST => (12, 0)
  | WVALUEL => (13, 0) | WVALUEH => (14, 0)
  | WINDEXL => (15, 0) | WINDEXH => (16, 0)
  | WLENGTHL => (17, 0) | WLENGTHH => (18, 0)
  | INTENSET => (19, 0) | USBPULLUP => (20, 0)
  | EPINEN => (21, 0) | EPOUTEN => (22, 0)
  end.

Definition reg_eqb (a b : reg) : bool :=
  (fst (reg_code a) =? fst (reg_code b)) &&
  (snd (reg_code a) =? snd (reg_code b)).

(** The pointer registers [EPIN[i].PTR] and [EPOUT[i].PTR]. *)
Inductive ptr_reg :=
| EPIN_PTR (i : Z)
| EPOUT_PTR (i : Z).

Definition ptr_reg_eqb (a b : ptr_reg) : bool :=
  match a, b with
  | EPIN_PTR i, EPIN_PTR j => i =? j
  | EPOUT_PTR i, EPOUT_PTR j => i =? j
  | _, _ => false
  end.

(** What the driver makes happen outside itself, in order: the task registers
    it triggers, and its call of the reset hook.  [STARTEPIN] carries the
    pointer and count found in [EPIN[ep]] at that moment and the bytes easyDMA
    reads there. *)
Inductive effect :=
| TASKS_STARTEPIN (ep : Z) (p : option pointer) (maxcnt : Z) (payload : list Z)
| TASKS_STARTEPOUT (ep : Z) (p : option pointer) (maxcnt : Z)
| TASKS_EP0STATUS
| TASKS_EP0STALL
| TASKS_EP0RCVOUT
| call_checkShouldReset.

(** The anonymous struct of [sendOnEP0DATADONE]; a nil [ptr] is [None]. *)
Record pending_send := {
  ptr : option pointer;
  count : Z
}.

Record state := {
  regs : reg -> Z;
  ptr_regs : ptr_reg -> option pointer;
  udd_ep_in_cache_buffer : list (list Z);
  udd_ep_out_cache_buffer : list (list Z);
  sendOnEP0DATADONE : pending_send;
  isEndpointHalt : bool;
  isRemoteWakeUpEnabled : bool;
  usbConfiguration : Z;
  usbSetInterface : Z;
  usbLineInfo : cdcLineInfo;
  epinen : Z;
  epouten : Z;
  easyDMABusy : Z;
  epout0data_setlinecoding : bool;
  (** the bytes handed to [USB.Buffer], oldest first *)
  USB_Buffer : list Z;
  (** the effects so far, oldest first *)
  effects : list effect
}.

(** Assignment to one global variable, the others kept. *)

Definition with_regs (v : reg -> Z) (s : state) : state :=
  {| regs := v; ptr_regs := ptr_regs s;
  udd_ep_in_cache_buffer := udd_ep_in_cache_buffer s;
  udd_ep_out_cache_buffer := udd_ep_out_cache_buffer s;
  sendOnEP0DATADONE := sendOnEP0DATADONE s;
  isEndpointHalt := isEndpointHalt s;
  isRemoteWakeUpEnabled := isRemoteWakeUpEnabled s;
  usbConfiguration := usbConfiguration s;
  usbSetInterface := usbSetInterface s; usbLineInfo := usbLineInfo s;
  epinen := epinen s; epouten := epouten s; easyDMABusy := easyDMABusy s;
  epout0data_setlinecoding := epout0data_setlinecoding s;
  USB_Buffer := USB_Buffer s; effects := effects s |}.

Definition with_ptr_regs (v : ptr_reg -> option pointer) (s : state) : state :=
  {| regs := regs s; ptr_regs := v;
  udd_ep_in_cache_buffer := udd_ep_in_cache_buffer s;
  udd_ep_out_cache_buffer := udd_ep_out_cache_buffer s;
  sendOnEP0DATADONE := sendOnEP0DATADONE s;
  isEndpointHalt := isEndpointHalt s;
  isRemoteWakeUpEnabled := isRemoteWakeUpEnabled s;
  usbConfiguration := usbConfiguration s;
  usbSetInterface := usbSetInterface s; usbLineInfo := usbLineInfo s;
  epinen := epinen s; epouten := epouten s; easyDMABusy := easyDMABusy s;
  epout0data_setlinecoding := epout0data_setlinecoding s;
  USB_Buffer := USB_Buffer s; effects := effects s |}.

Definition with_udd_ep_in_cache_buffer (v : list (list Z)) (s : state) : state :=
  {| regs := regs s; ptr_regs := ptr_regs s; udd_ep_in_cache_buffer := v;
  udd_ep_out_cache_buffer := udd_ep_out_cache_buffer s;
  sendOnEP0DATADONE := sendOnEP0DATADONE s;
  isEndpointHalt := isEndpointHalt s;
  isRemoteWakeUpEnabled := isRemoteWakeUpEnabled s;
  usbConfiguration := usbConfiguration s;
  usbSetInterface := usbSetInterface s; usbLineInfo := usbLineInfo s;
  epinen := epinen s; epouten := epouten s; easyDMABusy := easyDMABusy s;
  epout0data_setlinecoding := epout0data_setlinecoding s;
  USB_Buffer := USB_Buffer s; effects := effects s |}.

Definition with_udd_ep_out_cache_buffer (v : list (list Z)) (s : state) : state :=
  {| regs := regs s; ptr_regs := ptr_regs s;
  udd_ep_in_cache_buffer := udd_ep_in_cache_buffer s;
  udd_ep_out_cache_buffer := v; sendOnEP0DATADONE := sendOnEP0DATADONE s;
  isEndpointHalt := isEndpointHalt s;
  isRemoteWakeUpEnabled := isRemoteWakeUpEnabled s;
  usbConfiguration := usbConfiguration s;
  usbSetInterface := usbSetInterface s; usbLineInfo := usbLineInfo s;
  epinen := epinen s; epouten := epouten s; easyDMABusy := easyDMABusy s;
  epout0data_setlinecoding := epout0data_setlinecoding s;
  USB_Buffer := USB_Buffer s; effects := effects s |}.

Definition with_sendOnEP0DATADONE (v : pending_send) (s : state) : state :=
  {| regs := regs s; ptr_regs := ptr_regs s;
  udd_ep_in_cache_buffer := udd_ep_in_cache_buffer s;
  udd_ep_out_cache_buffer := udd_ep_out_cache_buffer s;
  sendOnEP0DATADONE := v; isEndpointHalt := isEndpointHalt s;
  isRemoteWakeUpEnabled := isRemoteWakeUpEnabled s;
  usbConfiguration := usbConfiguration s;
  usbSetInterface := usbSetInterface s; usbLineInfo := usbLineInfo s;
  epinen := epinen s; epouten := epouten s; easyDMABusy := easyDMABusy s;
  epout0data_setlinecoding := epout0data_setlinecoding s;
  USB_Buffer := USB_Buffer s; effects := effects s |}.

Definition with_isEndpointHalt (v : bool) (s : state) : state :=
  {| regs := regs s; ptr_regs := ptr_regs s;
  udd_ep_in_cache_buffer := udd_ep_in_cache_buffer s;
  udd_ep_out_cache_buffer := udd_ep_out_cache_buffer s;
  sendOnEP0DATADONE := sendOnEP0DATADONE s; isEndpointHalt := v;
  isRemoteWakeUpEnabled := isRemoteWakeUpEnabled s;
  usbConfiguration := usbConfiguration s;
  usbSetInterface := usbSetInterface s; usbLineInfo := usbLineInfo s;
  epinen := epinen s; epouten := epouten s; easyDMABusy := easyDMABusy s;
  epout0data_setlinecoding := epout0data_setlinecoding s;
  USB_Buffer := USB_Buffer s; effects := effects s |}.

Definition with_isRemoteWakeUpEnabled (v : bool) (s : state) : state :=
  {| regs := regs s; ptr_regs := ptr_regs s;
  udd_ep_in_cache_buffer := udd_ep_in_cache_buffer s;
  udd_ep_out_cache_buffer := udd_ep_out_cache_buffer s;
  sendOnEP0DATADONE := sendOnEP0DATADONE s;
  isEndpointHalt := isEndpointHalt s; isRemoteWakeUpEnabled := v;
  usbConfiguration := usbConfiguration s;
  usbSetInterface := usbSetInterface s; usbLineInfo := usbLineInfo s;
  epinen := epinen s; epouten := epouten s; easyDMABusy := easyDMABusy s;
  epout0data_setlinecoding := epout0data_setlinecoding s;
  USB_Buffer := USB_Buffer s; effects := effects s |}.

Definition with_usbConfiguration (v : Z) (s : state) : state :=
  {| regs := regs s; ptr_regs := ptr_regs s;
  udd_ep_in_cache_buffer := udd_ep_in_cache_buffer s;
  udd_ep_out_cache_buffer := udd_ep_out_cache_buffer s;
  sendOnEP0DATADONE := sendOnEP0DATADONE s;
  isEndpointHalt := isEndpointHalt s;
  isRemoteWakeUpEnabled := isRemoteWakeUpEnabled s; usbConfiguration := v;
  usbSetInterface := usbSetInterface s; usbLineInfo := usbLineInfo s;
  epinen := epinen s; epouten := epouten s; easyDMABusy := easyDMABusy s;
  epout0data_setlinecoding := epout0data_setlinecoding s;
  USB_Buffer := USB_Buffer s; effects := effects s |}.

Definition with_usbSetInterface (v : Z) (s : state) : state :=
  {| regs := regs s; ptr_regs := ptr_regs s;
  udd_ep_in_cache_buffer := udd_ep_in_cache_buffer s;
  udd_ep_out_cache_buffer := udd_ep_out_cache_buffer s;
  sendOnEP0DATADONE := sendOnEP0DATADONE s;
  isEndpointHalt := isEndpointHalt s;
  isRemoteWakeUpEnabled := isRemoteWakeUpEnabled s;
  usbConfiguration := usbConfiguration s; usbSetInterface := v;
  usbLineInfo := usbLineInfo s; epinen := epinen s; epouten := epouten s;
  easyDMABusy := easyDMABusy s;
  epout0data_setlinecoding := epout0data_setlinecoding s;
  USB_Buffer := USB_Buffer s; effects := effects s |}.

Definition with_usbLineInfo (v : cdcLineInfo) (s : state) : state :=
  {| regs := regs s; ptr_regs := ptr_regs s;
  udd_ep_in_cache_buffer := udd_ep_in_cache_buffer s;
  udd_ep_out_cache_buffer := udd_ep_out_cache_buffer s;
  sendOnEP0DATADONE := sendOnEP0DATADONE s;
  isEndpointHalt := isEndpointHalt s;
  isRemoteWakeUpEnabled := isRemoteWakeUpEnabled s;
  usbConfiguration := usbConfiguration s;
  usbSetInterface := usbSetInterface s; usbLineInfo := v; epinen := epinen s;
  epouten := epouten s; easyDMABusy := easyDMABusy s;
  epout0data_setlinecoding := epout0data_setlinecoding s;
  USB_Buffer := USB_Buffer s; effects := effects s |}.

Definition with_epinen (v : Z) (s : state) : state :=
  {| regs := regs s; ptr_regs := ptr_regs s;
  udd_ep_in_cache_buffer := udd_ep_in_cache_buffer s;
  udd_ep_out_cache_buffer := udd_ep_out_cache_buffer s;
  sendOnEP0DATADONE := sendOnEP0DATADONE s;
  isEndpointHalt := isEndpointHalt s;
  isRemoteWakeUpEnabled := isRemoteWakeUpEnabled s;
  usbConfiguration := usbConfiguration s;
  usbSetInterface := usbSetInterface s; usbLineInfo := usbLineInfo s;
  epinen := v; epouten := epouten s; easyDMABusy := easyDMABusy s;
  epout0data_setlinecoding := epout0data_setlinecoding s;
  USB_Buffer := USB_Buffer s; effects := effects s |}.

Definition with_epouten (v : Z) (s : state) : state :=
  {| regs := regs s; ptr_regs := ptr_regs s;
  udd_ep_in_cache_buffer := udd_ep_in_cache_buffer s;
  udd_ep_out_cache_buffer := udd_ep_out_cache_buffer s;
  sendOnEP0DATADONE := sendOnEP0DATADONE s;
  isEndpointHalt := isEndpointHalt s;
  isRemoteWakeUpEnabled := isRemoteWakeUpEnabled s;
  usbConfiguration := usbConfiguration s;
  usbSetInterface := usbSetInterface s; usbLineInfo := usbLineInfo s;
  epinen := epinen s; epouten := v; easyDMABusy := easyDMABusy s;
  epout0data_setlinecoding := epout0data_setlinecoding s;
  USB_Buffer := USB_Buffer s; effects := effects s |}.

Definition with_easyDMABusy (v : Z) (s : state) : state :=
  {| regs := regs s; ptr_regs := ptr_regs s;
  udd_ep_in_cache_buffer := udd_ep_in_cache_buffer s;
  udd_ep_out_cache_buffer := udd_ep_out_cache_buffer s;
  sendOnEP0DATADONE := sendOnEP0DATADONE s;
  isEndpointHalt := isEndpointHalt s;
  isRemoteWakeUpEnabled := isRemoteWakeUpEnabled s;
  usbConfiguration := usbConfiguration s;
  usbSetInterface := usbSetInterface s; usbLineInfo := usbLineInfo s;
  epinen := epinen s; epouten := epouten s; easyDMABusy := v;
  epout0data_setlinecoding := epout0data_setlinecoding s;
  USB_Buffer := USB_Buffer s; effects := effects s |}.

Definition with_epout0data_setlinecoding (v : bool) (s : state) : state :=
  {| regs := regs s; ptr_regs := ptr_regs s;
  udd_ep_in_cache_buffer := udd_ep_in_cache_buffer s;
  udd_ep_out_cache_buffer := udd_ep_out_cache_buffer s;
  sendOnEP0DATADONE := sendOnEP0DATADONE s;
  isEndpointHalt := isEndpointHalt s;
  isRemoteWakeUpEnabled := isRemoteWakeUpEnabled s;
  usbConfiguration := usbConfiguration s;
  usbSetInterface := usbSetInterface s; usbLineInfo := usbLineInfo s;
  epinen := epinen s; epouten := epouten s; easyDMABusy := easyDMABusy s;
  epout0data_setlinecoding := v; USB_Buffer := USB_Buffer s;
  effects := effects s |}.

Definition with_USB_Buffer (v : list Z) (s : state) : state :=
  {| regs := regs s; ptr_regs := ptr_regs s;
  udd_ep_in_cache_buffer := udd_ep_in_cache_buffer s;
  udd_ep_out_cache_buffer := udd_ep_out_cache_buffer s;
  sendOnEP0DATADONE := sendOnEP0DATADONE s;
  isEndpointHalt := isEndpointHalt s;
  isRemoteWakeUpEnabled := isRemoteWakeUpEnabled s;
  usbConfiguration := usbConfiguration s;
  usbSetInterface := usbSetInterface s; usbLineInfo := usbLineInfo s;
  epinen := epinen s; epouten := epouten s; easyDMABusy := easyDMABusy s;
  epout0data_setlinecoding := epout0data_setlinecoding s; USB_Buffer := v;
  effects := effects s |}.

Definition with_effects (v : list effect) (s : state) : state :=
  {| regs := regs s; ptr_regs := ptr_regs s;
  udd_ep_in_cache_buffer := udd_ep_in_cache_buffer s;
  udd_ep_out_cache_buffer := udd_ep_out_cache_buffer s;
  sendOnEP0DATADONE := sendOnEP0DATADONE s;
  isEndpointHalt := isEndpointHalt s;
  isRemoteWakeUpEnabled := isRemoteWakeUpEnabled s;
  usbConfiguration := usbConfiguration s;
  usbSetInterface := usbSetInterface s; usbLineInfo := usbLineInfo s;
  epinen := epinen s; epouten := epouten s; easyDMABusy := easyDMABusy s;
  epout0data_setlinecoding := epout0data_setlinecoding s;
  USB_Buffer := USB_Buffer s; effects := v |}.

(** ** Running the driver

    A function of the driver either finishes with a value and a new state,
    stops in a Go run-time panic (index or slice out of range), or spins:
    [waitForEasyDMA] loops on [wfi] for as long as the busy flag is set, and
    within one sequential run nothing clears it.  What another context does
    to the flag meanwhile is the subject of [Module Arbitration]. *)

Inductive outcome (A : Type) :=
| Done (a : A)
| Panic
| Spin.
Arguments Done {A} a.
Arguments Panic {A}.
Arguments Spin {A}.

Definition M (A : Type) : Type := state -> outcome (A * state).

Definition ret {A} (a : A) : M A := fun s => Done (a, s).

Definition bind {A B} (m : M A) (k : A -> M B) : M B :=
  fun s => match m s with
           | Done (a, s') => k a s'
           | Panic => Panic
           | Spin => Spin
           end.

Notation "x <- m ;; k" := (bind m (fun x => k))
  (at level 61, m at next level, right associativity).
Notation "m ;; k" := (bind m (fun _ => k))
  (at level 61, right associativity).

Definition get : M state := fun s => Done (s, s).
Definition modify (f : state -> state) : M unit := fun s => Done (tt, f s).
Definition panic {A} : M A := fun _ => Panic.
Definition spin {A} : M A := fun _ => Spin.
Definition when (b : bool) (m : M unit) : M unit := if b then m else ret tt.

(** [for _, i := range l { body i }] *)
Fixpoint for_each (l : list Z) (body : Z -> M unit) : M unit :=
  match l with
  | [] => ret tt
  | i :: l' => body i ;; for_each l' body
  end.

(** The final state of a finished run. *)
Definition exec {A} (m : M A) (s : state) : option state :=
  match m s with Done (_, s') => Some s' | _ => None end.

(** *** Registers *)

Definition reg_get (r : reg) : M Z := fun s => Done (regs s r, s).

Definition reg_set (r : reg) (v : Z) : M unit :=
  modify (fun s => with_regs (fun r' => if reg_eqb r r' then v else regs s r') s).

Definition ptr_reg_set (r : ptr_reg) (p : pointer) : M unit :=
  modify (fun s =>
    with_ptr_regs (fun r' => if ptr_reg_eqb r r' then Some p else ptr_regs s r') s).

Definition emit (e : effect) : M unit :=
  modify (fun s => with_effects (effects s ++ [e]) s).

(** *** Memory *)

Definition nth_upd {A} (n : nat) (f : A -> A) (l : list A) : list A :=
  match nth_error l n with
  | Some x => firstn n l ++ f x :: skipn (S n) l
  | None => l
  end.

(** Number of staging buffers per direction and their size:
    [[7][128]uint8]. *)
Definition cache_buffers : Z := 7.
Definition cache_buffer_size : Z := 128.

(** [copy(dst, src)]: the first [min(len(dst), len(src))] bytes. *)
Definition copy (dst src : list Z) : list Z :=
  firstn (length dst) src ++ skipn (length src) dst.

(** The bytes easyDMA reads at [p]: the two-dimensional arrays are laid out
    row after row, so a transfer that starts in one staging buffer and is
    longer than what is left of it runs on into the next one.  Memory beyond
    the array is not modelled: the transfer is cut at its end. *)
Definition dma_read (s : state) (p : pointer) (n : Z) : list Z :=
  match p with
  | in_cache ep off =>
      firstn (Z.to_nat n)
        (skipn (Z.to_nat (cache_buffer_size * ep + off))
           (concat (udd_ep_in_cache_buffer s)))
  | out_cache ep off =>
      firstn (Z.to_nat n)
        (skipn (Z.to_nat (cache_buffer_size * ep + off))
           (concat (udd_ep_out_cache_buffer s)))
  end.

(** [udd_ep_in_cache_buffer[ep]], checked against the array bound. *)
Definition in_cache_buffer (ep : Z) : M (list Z) :=
  fun s =>
    if (0 <=? ep) && (ep <? cache_buffers) then
      match nth_error (udd_ep_in_cache_buffer s) (Z.to_nat ep) with
      | Some b => Done (b, s)
      | None => Panic
      end
    else Panic.

Definition out_cache_buffer (ep : Z) : M (list Z) :=
  fun s =>
    if (0 <=? ep) && (ep <? cache_buffers) then
      match nth_error (udd_ep_out_cache_buffer s) (Z.to_nat ep) with
      | Some b => Done (b, s)
      | None => Panic
      end
    else Panic.

Definition in_cache_buffer_set (ep : Z) (b : list Z) : M unit :=
  modify (fun s =>
    with_udd_ep_in_cache_buffer
      (nth_upd (Z.to_nat ep) (fun _ => b) (udd_ep_in_cache_buffer s)) s).

(** [b[:n]] *)
Definition slice_to {A} (b : list A) (n : Z) : M (list A) :=
  if (0 <=? n) && (n <=? Z.of_nat (length b))
  then ret (firstn (Z.to_nat n) b) else panic.

(** ** The driver *)

(** [endPoints] *)
Definition endPoints : list Z :=
  [usb_ENDPOINT_TYPE_CONTROL;
   Z.lor usb_ENDPOINT_TYPE_INTERRUPT usbEndpointIn;
   Z.lor usb_ENDPOINT_TYPE_BULK usbEndpointOut;
   Z.lor usb_ENDPOINT_TYPE_BULK usbEndpointIn].

(** [[from, from+1, ..., from+n-1]] *)
Fixpoint upto (from : Z) (n : nat) : list Z :=
  match n with
  | O => []
  | S n' => from :: upto (from + 1) n'
  end.

(** *** easyDMA critical section *)

Definition waitForEasyDMA : M unit :=
  s <- get ;;
  if HasBits (easyDMABusy s) 1 then spin else ret tt.

Definition enterCriticalSection : M unit :=
  waitForEasyDMA ;;
  modify (fun s => with_easyDMABusy (SetBits (easyDMABusy s) 1) s).

Definition exitCriticalSection : M unit :=
  modify (fun s => with_easyDMABusy (ClearBits (easyDMABusy s) 1) s).

(** *** Endpoint I/O *)

(** [nrf.USBD.TASKS_STARTEPIN[ep].Set(1)]: easyDMA starts with the pointer and
    count that [EPIN[ep]] holds. *)
Definition start_EPIN (ep : Z) : M unit :=
  s <- get ;;
  let n := regs s (EPIN_MAXCNT ep) in
  emit (TASKS_STARTEPIN ep (ptr_regs s (EPIN_PTR ep)) n
          (match ptr_regs s (EPIN_PTR ep) with
           | Some p => dma_read s p n
           | None => []
           end)).

(** [nrf.USBD.TASKS_STARTEPOUT[ep].Set(1)] *)
Definition start_EPOUT (ep : Z) : M unit :=
  s <- get ;;
  emit (TASKS_STARTEPOUT ep (ptr_regs s (EPOUT_PTR ep)) (regs s (EPOUT_MAXCNT ep))).

(** The register arrays [EPIN], [EPOUT], [SIZE.EPOUT], [TASKS_STARTEPIN], ...
    have eight entries. *)
Definition check_ep (ep : Z) : M unit :=
  if (0 <=? ep) && (ep <? 8) then ret tt else panic.

Definition sendViaEPIn (ep : Z) (p : pointer) (count : Z) : M unit :=
  check_ep ep ;;
  ptr_reg_set (EPIN_PTR ep) p ;;
  reg_set (EPIN_MAXCNT ep) (uint32 count) ;;
  start_EPIN ep.

Definition sendUSBPacket (ep : Z) (data : list Z) : M unit :=
  let count := Z.of_nat (length data) in
  buf <- in_cache_buffer ep ;;
  in_cache_buffer_set ep (copy buf data) ;;
  count <-
    (if (ep =? 0) && (usbEndpointPacketSize <? count) then
       modify (with_sendOnEP0DATADONE
                 {| ptr := Some (in_cache ep usbEndpointPacketSize);
                    count := count - usbEndpointPacketSize |}) ;;
       ret usbEndpointPacketSize
     else ret count) ;;
  sendViaEPIn ep (in_cache ep 0) count.

(** *** The serial interface *)

(** Go's [error]; [nil] is [None]. *)
Definition error : Type := option String.string.

Definition WriteByte (c : Z) : M error :=
  s <- get ;;
  when (0 <? lineState (usbLineInfo s))
    (enterCriticalSection ;;
     buf <- in_cache_buffer usb_CDC_ENDPOINT_IN ;;
     in_cache_buffer_set usb_CDC_ENDPOINT_IN (nth_upd 0 (fun _ => c) buf) ;;
     sendViaEPIn usb_CDC_ENDPOINT_IN (in_cache usb_CDC_ENDPOINT_IN 0) 1) ;;
  ret None.

Definition DTR : M bool :=
  s <- get ;;
  ret (0 <? Z.land (lineState (usbLineInfo s)) usb_CDC_LINESTATE_DTR).

Definition RTS : M bool :=
  s <- get ;;
  ret (0 <? Z.land (lineState (usbLineInfo s)) usb_CDC_LINESTATE_RTS).

Section Driver.

Variable P : platform.

(** Modelled from the spec: [checkShouldReset] (usb.go) is the hook of
    section 4.2, called after a change of the line state or coding; what it
    decides is external, so only the call is recorded. *)
Definition checkShouldReset : M unit := emit call_checkShouldReset.

(** Modelled from the spec: [USBCDC.Receive] (usb.go) pushes one byte into
    the ring buffer [USB.Buffer], a FIFO byte sink (section 6). *)
Definition Receive (b : Z) : M unit :=
  modify (fun s => with_USB_Buffer (USB_Buffer s ++ [b]) s).

Definition enableEPOut (ep : Z) : M unit :=
  modify (fun s =>
    with_epouten (uint32 (Z.lor (epouten s) (shl32 (USBD_EPOUTEN_OUT0 P) ep))) s) ;;
  s <- get ;;
  reg_set EPOUTEN (epouten s).

Definition enableEPIn (ep : Z) : M unit :=
  modify (fun s =>
    with_epinen (uint32 (Z.lor (epinen s) (shl32 (USBD_EPINEN_IN0 P) ep))) s) ;;
  s <- get ;;
  reg_set EPINEN (epinen s).

Definition initEndpoint (ep config : Z) : M unit :=
  if config =? Z.lor usb_ENDPOINT_TYPE_INTERRUPT usbEndpointIn then
    enableEPIn ep
  else if config =? Z.lor usb_ENDPOINT_TYPE_BULK usbEndpointOut then
    reg_set INTENSET (shl32 (USBD_INTENSET_ENDEPOUT0 P) ep) ;;
    check_ep ep ;;
    reg_set (SIZE_EPOUT ep) 0 ;;
    enableEPOut ep
  else if config =? Z.lor usb_ENDPOINT_TYPE_INTERRUPT usbEndpointOut then
    reg_set INTENSET (shl32 (USBD_INTENSET_ENDEPOUT0 P) ep) ;;
    check_ep ep ;;
    reg_set (SIZE_EPOUT ep) 0 ;;
    enableEPOut ep
  else if config =? Z.lor usb_ENDPOINT_TYPE_BULK usbEndpointIn then
    enableEPIn ep
  else if config =? usb_ENDPOINT_TYPE_CONTROL then
    enableEPIn 0 ;;
    enableEPOut 0 ;;
    reg_set INTENSET (USBD_INTENSET_ENDEPOUT0 P) ;;
    emit TASKS_EP0STATUS
  else ret tt.

Definition parseUSBLineInfo (b : list Z) : M unit :=
  match b with
  | b0 :: b1 :: b2 :: b3 :: b4 :: b5 :: b6 :: _ =>
      modify (fun s =>
        with_usbLineInfo
          {| dwDTERate :=
               Z.lor (Z.lor (Z.lor b0 (shl32 b1 8)) (shl32 b2 16)) (shl32 b3 24);
             bCharFormat := b4;
             bParityType := b5;
             bDataBits := b6;
             lineState := lineState (usbLineInfo s) |} s)
  | _ => panic
  end.

Definition parseUSBSetupRegisters : M usbSetup :=
  s <- get ;;
  let r := regs s in
  ret {| bmRequestType := uint8 (r BMREQUESTTYPE);
         bRequest := uint8 (r BREQUEST);
         wValueL := uint8 (r WVALUEL);
         wValueH := uint8 (r WVALUEH);
         wIndex := uint16 (Z.lor (shl32 (r WINDEXH) 8) (r WINDEXL));
         wLength := uint16 (Z.lor (shl32 (Z.land (r WLENGTHH) 0xff) 8)
                                  (Z.land (r WLENGTHL) 0xff)) |}.

(** [sendConfiguration]: the descriptors themselves are encoded by usb.go. *)
Definition sendConfiguration (setup : usbSetup) : M unit :=
  if wLength setup =? 9 then
    sendUSBPacket 0 (config_descriptor P)
  else
    sendUSBPacket 0 (config_descriptor P ++ cdc_descriptor P).

Definition sendDescriptor (setup : usbSetup) : M unit :=
  if wValueH setup =? usb_CONFIGURATION_DESCRIPTOR_TYPE then
    sendConfiguration setup
  else if wValueH setup =? usb_DEVICE_DESCRIPTOR_TYPE then
    if wLength setup =? 8 then
      let dd := NewDeviceDescriptor 0xEF 0x02 0x01 64 (usb_VID P) (usb_PID P)
                  0x100 (usb_IMANUFACTURER P) (usb_IPRODUCT P) (usb_ISERIAL P) 1 in
      b <- slice_to (DeviceDescriptor_Bytes dd) 8 ;;
      sendUSBPacket 0 b
    else
      let dd := NewDeviceDescriptor 0x02 0x00 0x00 64 (usb_VID P) (usb_PID P)
                  0x100 (usb_IMANUFACTURER P) (usb_IPRODUCT P) (usb_ISERIAL P) 1 in
      sendUSBPacket 0 (DeviceDescriptor_Bytes dd)
  else if wValueH setup =? usb_STRING_DESCRIPTOR_TYPE then
    if wValueL setup =? 0 then
      sendUSBPacket 0 [0x04; 0x03; 0x09; 0x04]
    else if wValueL setup =? usb_IPRODUCT P then
      let b := product_descriptor P in
      if wLength setup =? 2 then
        b2 <- slice_to b 2 ;; sendUSBPacket 0 b2
      else sendUSBPacket 0 b
    else if wValueL setup =? usb_IMANUFACTURER P then
      let b := manufacturer_descriptor P in
      if wLength setup =? 2 then
        b2 <- slice_to b 2 ;; sendUSBPacket 0 b2
      else sendUSBPacket 0 b
    else if wValueL setup =? usb_ISERIAL P then
      emit TASKS_EP0STATUS
    else ret tt
  else
    emit TASKS_EP0STATUS.

Definition handleStandardSetup (setup : usbSetup) : M bool :=
  let req := bRequest setup in
  if req =? usb_GET_STATUS then
    s <- get ;;
    let buf :=
      if negb (bmRequestType setup =? 0) && isEndpointHalt s
      then [1; 0] else [0; 0] in
    sendUSBPacket 0 buf ;;
    ret true
  else if req =? usb_CLEAR_FEATURE then
    (if wValueL setup =? 1 then modify (with_isRemoteWakeUpEnabled false)
     else if wValueL setup =? 0 then modify (with_isEndpointHalt false)
     else ret tt) ;;
    emit TASKS_EP0STATUS ;;
    ret true
  else if req =? usb_SET_FEATURE then
    (if wValueL setup =? 1 then modify (with_isRemoteWakeUpEnabled true)
     else if wValueL setup =? 0 then modify (with_isEndpointHalt true)
     else ret tt) ;;
    emit TASKS_EP0STATUS ;;
    ret true
  else if req =? usb_SET_ADDRESS then
    ret true
  else if req =? usb_GET_DESCRIPTOR then
    sendDescriptor setup ;;
    ret true
  else if req =? usb_SET_DESCRIPTOR then
    ret false
  else if req =? usb_GET_CONFIGURATION then
    s <- get ;;
    sendUSBPacket 0 [usbConfiguration s] ;;
    ret true
  else if req =? usb_SET_CONFIGURATION then
    if Z.land (bmRequestType setup) usb_REQUEST_RECIPIENT =? usb_REQUEST_DEVICE then
      emit TASKS_EP0STATUS ;;
      for_each (upto 1 (length endPoints - 1))
        (fun i => match nth_error endPoints (Z.to_nat i) with
                  | Some config => initEndpoint i config
                  | None => panic
                  end) ;;
      modify (with_usbConfiguration (wValueL setup)) ;;
      ret true
    else ret false
  else if req =? usb_GET_INTERFACE then
    s <- get ;;
    sendUSBPacket 0 [usbSetInterface s] ;;
    ret true
  else if req =? usb_SET_INTERFACE then
    modify (with_usbSetInterface (wValueL setup)) ;;
    emit TASKS_EP0STATUS ;;
    ret true
  else
    ret true.

(** The seven bytes that [cdcSetup] builds for GET_LINE_CODING. *)
Definition lineCodingBytes (li : cdcLineInfo) : list Z :=
  [uint8 (dwDTERate li);
   uint8 (Z.shiftr (dwDTERate li) 8);
   uint8 (Z.shiftr (dwDTERate li) 16);
   uint8 (Z.shiftr (dwDTERate li) 24);
   uint8 (bCharFormat li);
   uint8 (bParityType li);
   uint8 (bDataBits li)].

Definition cdcSetup (setup : usbSetup) : M bool :=
  let get_line_coding :=
    (bmRequestType setup =? usb_REQUEST_DEVICETOHOST_CLASS_INTERFACE) &&
    (bRequest setup =? usb_CDC_GET_LINE_CODING) in
  if get_line_coding then
    s <- get ;;
    sendUSBPacket 0 (lineCodingBytes (usbLineInfo s)) ;;
    ret true
  else if bmRequestType setup =? usb_REQUEST_HOSTTODEVICE_CLASS_INTERFACE then
    if bRequest setup =? usb_CDC_SET_LINE_CODING then
      modify (with_epout0data_setlinecoding true) ;;
      emit TASKS_EP0RCVOUT ;;
      ret true
    else
      when (bRequest setup =? usb_CDC_SET_CONTROL_LINE_STATE)
        (modify (fun s =>
           with_usbLineInfo
             {| dwDTERate := dwDTERate (usbLineInfo s);
                bCharFormat := bCharFormat (usbLineInfo s);
                bParityType := bParityType (usbLineInfo s);
                bDataBits := bDataBits (usbLineInfo s);
                lineState := wValueL setup |} s) ;;
         checkShouldReset ;;
         emit TASKS_EP0STATUS) ;;
      when (bRequest setup =? usb_CDC_SEND_BREAK) (emit TASKS_EP0STATUS) ;;
      ret true
  else ret false.

Definition handleEndpoint (ep : Z) : M unit :=
  check_ep ep ;;
  amount <- reg_get (EPOUT_AMOUNT ep) ;;
  let count := int32 amount in
  for_each (upto 0 (Z.to_nat count))
    (fun i =>
       buf <- out_cache_buffer ep ;;
       match nth_error buf (Z.to_nat i) with
       | Some b => Receive b
       | None => panic
       end) ;;
  reg_set (SIZE_EPOUT ep) 0.

(** *** The interrupt handler

    [handleInterrupt] polls five groups of event registers in a fixed order;
    each group is a definition of its own here, in the order of the source. *)

(** USBD ready event *)
Definition on_USBEVENT : M unit :=
  ev <- reg_get EVENTS_USBEVENT ;;
  when (ev =? 1)
    (reg_set EVENTS_USBEVENT 0 ;;
     cause <- reg_get EVENTCAUSE ;;
     when (0 <? Z.land cause (USBD_EVENTCAUSE_READY P))
       (initEndpoint 0 usb_ENDPOINT_TYPE_CONTROL ;;
        reg_set INTENSET (USBD_INTENSET_EP0SETUP P) ;;
        reg_set USBPULLUP 1 ;;
        modify (with_usbConfiguration 0)) ;;
     reg_set EVENTCAUSE 0).

(** The body of [if nrf.USBD.EVENTS_EP0DATADONE.Get() == 1], which ends the
    handler. *)
Definition on_EP0DATADONE : M unit :=
  reg_set EVENTS_EP0DATADONE 0 ;;
  s <- get ;;
  if epout0data_setlinecoding s then
    ptr_reg_set (EPOUT_PTR 0) (out_cache 0 0) ;;
    reg_set (EPOUT_MAXCNT 0) 64 ;;
    start_EPOUT 0
  else
    match ptr (sendOnEP0DATADONE s) with
    | Some p =>
        sendViaEPIn 0 p (count (sendOnEP0DATADONE s)) ;;
        modify (fun s' =>
          with_sendOnEP0DATADONE
            {| ptr := None; count := count (sendOnEP0DATADONE s') |} s')
    | None => emit TASKS_EP0STATUS
    end.

(** Endpoint 0 Setup interrupt *)
Definition on_EP0SETUP : M unit :=
  ev <- reg_get EVENTS_EP0SETUP ;;
  when (ev =? 1)
    (reg_set EVENTS_EP0SETUP 0 ;;
     setup <- parseUSBSetupRegisters ;;
     ok <-
       (if Z.land (bmRequestType setup) usb_REQUEST_TYPE =? usb_REQUEST_STANDARD
        then handleStandardSetup setup
        else if wIndex setup =? usb_CDC_ACM_INTERFACE P
        then cdcSetup setup
        else ret false) ;;
     when (negb ok) (emit TASKS_EP0STALL)).

(** The transfer handlers of the data endpoints *)
Definition on_EPDATA : M unit :=
  ev <- reg_get EVENTS_EPDATA ;;
  when (0 <? ev)
    (reg_set EVENTS_EPDATA 0 ;;
     epDataStatus <- reg_get EPDATASTATUS ;;
     reg_set EPDATASTATUS epDataStatus ;;
     for_each (upto 1 (length endPoints - 1))
       (fun i =>
          let inDataDone :=
            0 <? Z.land epDataStatus (shl32 (USBD_EPDATASTATUS_EPIN1 P) (i - 1)) in
          let outDataDone :=
            0 <? Z.land epDataStatus (shl32 (USBD_EPDATASTATUS_EPOUT1 P) (i - 1)) in
          when (inDataDone || outDataDone)
            (if i =? usb_CDC_ENDPOINT_OUT then
               when outDataDone
                 (enterCriticalSection ;;
                  ptr_reg_set (EPOUT_PTR i) (out_cache i 0) ;;
                  count <- reg_get (SIZE_EPOUT i) ;;
                  reg_set (EPOUT_MAXCNT i) count ;;
                  start_EPOUT i)
             else if i =? usb_CDC_ENDPOINT_IN then
               when inDataDone exitCriticalSection
             else ret tt))).

(** ENDEPOUT[n] events *)
Definition on_ENDEPOUT : M unit :=
  for_each (upto 0 (length endPoints))
    (fun i =>
       ev <- reg_get (EVENTS_ENDEPOUT i) ;;
       when (0 <? ev)
         (reg_set (EVENTS_ENDEPOUT i) 0 ;;
          s <- get ;;
          when ((i =? 0) && epout0data_setlinecoding s)
            (modify (with_epout0data_setlinecoding false) ;;
             size <- reg_get (SIZE_EPOUT 0) ;;
             let count := int32 size in
             when (7 <=? count)
               (buf <- out_cache_buffer 0 ;;
                b <- slice_to buf count ;;
                parseUSBLineInfo b ;;
                checkShouldReset) ;;
             emit TASKS_EP0STATUS) ;;
          when (i =? usb_CDC_ENDPOINT_OUT) (handleEndpoint i) ;;
          exitCriticalSection)).

Definition handleInterrupt : M unit :=
  on_USBEVENT ;;
  ev <- reg_get EVENTS_EP0DATADONE ;;
  if ev =? 1 then
    on_EP0DATADONE
  else
    on_EP0SETUP ;;
    on_EPDATA ;;
    on_ENDEPOUT.

End Driver.

(** ** The state at boot and the hardware side *)

(** The globals as the source initialises them; registers and staging
    buffers all zero. *)
Definition boot : state :=
  {| regs := fun _ => 0;
     ptr_regs := fun _ => None;
     udd_ep_in_cache_buffer :=
       repeat (repeat 0 (Z.to_nat cache_buffer_size)) (Z.to_nat cache_buffers);
     udd_ep_out_cache_buffer :=
       repeat (repeat 0 (Z.to_nat cache_buffer_size)) (Z.to_nat cache_buffers);
     sendOnEP0DATADONE := {| ptr := None; count := 0 |};
     isEndpointHalt := false;
     isRemoteWakeUpEnabled := false;
     usbConfiguration := 0;
     usbSetInterface := 0;
     usbLineInfo :=
       {| dwDTERate := 115200; bCharFormat := 0x00; bParityType := 0x00;
          bDataBits := 0x08; lineState := 0x00 |};
     epinen := 0;
     epouten := 0;
     easyDMABusy := 0;
     epout0data_setlinecoding := false;
     USB_Buffer := [];
     effects := [] |}.

(** The staging buffers have the shape of their array type. *)
Definition cache_shape (m : list (list Z)) : Prop :=
  length m = Z.to_nat cache_buffers /\
  Forall (fun b => length b = Z.to_nat cache_buffer_size) m.

Definition well_formed (s : state) : Prop :=
  cache_shape (udd_ep_in_cache_buffer s) /\
  cache_shape (udd_ep_out_cache_buffer s).

(** The peripheral writes a register: an event is latched, a setup field or a
    size is made available. *)
Definition hw (r : reg) (v : Z) (s : state) : state :=
  with_regs (fun r' => if reg_eqb r r' then v else regs s r') s.

(** The peripheral latches a setup packet and raises EP0SETUP. *)
Definition hw_setup (p : usbSetup) (s : state) : state :=
  hw EVENTS_EP0SETUP 1
    (hw BMREQUESTTYPE (bmRequestType p)
       (hw BREQUEST (bRequest p)
          (hw WVALUEL (wValueL p)
             (hw WVALUEH (wValueH p)
                (hw WINDEXL (Z.land (wIndex p) 0xff)
                   (hw WINDEXH (Z.shiftr (wIndex p) 8)
                      (hw WLENGTHL (Z.land (wLength p) 0xff)
                         (hw WLENGTHH (Z.shiftr (wLength p) 8) s)))))))).

(** easyDMA has moved [data], received on endpoint 0, into the OUT staging
    buffer and raises ENDEPOUT[0]. *)
Definition hw_ep0_out (data : list Z) (s : state) : state :=
  hw (EVENTS_ENDEPOUT 0) 1
    (hw (SIZE_EPOUT 0) (Z.of_nat (length data))
       (with_udd_ep_out_cache_buffer
          (nth_upd 0 (fun b => copy b data) (udd_ep_out_cache_buffer s)) s)).

(** No event is pending. *)
Definition quiet (s : state) : Prop :=
  regs s EVENTS_USBEVENT = 0 /\
  regs s EVENTS_EP0DATADONE = 0 /\
  regs s EVENTS_EP0SETUP = 0 /\
  regs s EVENTS_EPDATA = 0 /\
  forall i, regs s (EVENTS_ENDEPOUT i) = 0.

(** The payloads of the IN transfers started on endpoint 0, oldest first. *)
Fixpoint ep0_packets (es : list effect) : list (list Z) :=
  match es with
  | [] => []
  | TASKS_STARTEPIN ep _ _ payload :: es' =>
      if ep =? 0 then payload :: ep0_packets es' else ep0_packets es'
  | _ :: es' => ep0_packets es'
  end.

(** The IN transfers started on any endpoint, oldest first. *)
Fixpoint in_transfers (es : list effect) : list (Z * list Z) :=
  match es with
  | [] => []
  | TASKS_STARTEPIN ep _ _ payload :: es' => (ep, payload) :: in_transfers es'
  | _ :: es' => in_transfers es'
  end.

(** A platform to run the driver on: the masks of the nRF52840 register map,
    a vendor and product id, and descriptors of the sizes usb.go produces. *)
Definition example_platform : platform :=
  {| USBD_EVENTCAUSE_READY := 0x800;
     USBD_EPDATASTATUS_EPIN1 := 0x2;
     USBD_EPDATASTATUS_EPOUT1 := 0x20000;
     USBD_INTENSET_EP0SETUP := 0x800000;
     USBD_INTENSET_ENDEPOUT0 := 0x1000;
     USBD_EPOUTEN_OUT0 := 1;
     USBD_EPINEN_IN0 := 1;
     usb_VID := 0x239A;
     usb_PID := 0x8029;
     usb_IMANUFACTURER := 1;
     usb_IPRODUCT := 2;
     usb_ISERIAL := 3;
     usb_CDC_ACM_INTERFACE := 0;
     product_descriptor := [8; 3; 110; 0; 82; 0; 70; 0];
     manufacturer_descriptor := [6; 3; 84; 0; 71; 0];
     config_descriptor := [9; 2; 75; 0; 2; 1; 0; 0xA0; 50];
     cdc_descriptor := upto 0 66 |}.

(** A response of [n] bytes 1, 2, 3, ... *)
Definition ramp (n : nat) : list Z := map uint8 (upto 1 n).

(** ** Foreground and interrupt on the busy flag

    The foreground runs [enterCriticalSection] instruction by instruction;
    between any two of its instructions the interrupt handler may run, to
    completion (one interrupt level, one core).  The handler calls
    [exitCriticalSection] when an IN transfer of the bulk endpoint or an OUT
    transfer is over, and [enterCriticalSection] itself when the bulk OUT
    endpoint has data.  [SetBits] is a load followed by a store, as
    [volatile.Register8] implements it. *)

Module Arbitration.

(** Where the foreground is. *)
Inductive position :=
| Outside                (* not inside enterCriticalSection *)
| Polling                (* at the test of the loop of waitForEasyDMA *)
| Passed                 (* the loop is left, SetBits not yet begun *)
| Loaded (v : Z).        (* SetBits has loaded v, the store is pending *)

(** What happened to the flag. *)
Inductive flag_op :=
| flag_set
| flag_clear.

Record system := {
  busy : Z;                    (* easyDMABusy *)
  foreground : position;
  history : list flag_op;      (* newest first *)
  hung : bool                  (* the handler waits for itself *)
}.

Inductive turn :=
| Foreground         (* the foreground executes its next instruction *)
| InterruptExit      (* the handler runs exitCriticalSection *)
| InterruptEnter.    (* the handler runs enterCriticalSection *)

Definition step (t : turn) (s : system) : system :=
  if hung s then s else
  match t with
  | Foreground =>
      match foreground s with
      | Outside =>
          {| busy := busy s; foreground := Polling; history := history s;
             hung := false |}
      | Polling =>
          if HasBits (busy s) 1
          then {| busy := busy s; foreground := Polling; history := history s;
                  hung := false |}
          else {| busy := busy s; foreground := Passed; history := history s;
                  hung := false |}
      | Passed =>
          {| busy := busy s; foreground := Loaded (busy s);
             history := history s; hung := false |}
      | Loaded v =>
          {| busy := SetBits v 1; foreground := Outside;
             history := flag_set :: history s; hung := false |}
      end
  | InterruptExit =>
      {| busy := ClearBits (busy s) 1; foreground := foreground s;
         history := flag_clear :: history s; hung := false |}
  | InterruptEnter =>
      if HasBits (busy s) 1
      then {| busy := busy s; foreground := foreground s;
              history := history s; hung := true |}
      else {| busy := SetBits (busy s) 1; foreground := foreground s;
              history := flag_set :: history s; hung := false |}
  end.

Fixpoint run (schedule : list turn) (s : system) : system :=
  match schedule with
  | [] => s
  | t :: schedule' => run schedule' (step t s)
  end.

Definition start (flag : Z) : system :=
  {| busy := flag; foreground := Outside; history := []; hung := false |}.

(** The turns of a foreground that enters and a handler that exits. *)
Definition enters_in_foreground (t : turn) : bool :=
  match t with
  | Foreground | InterruptExit => true
  | InterruptEnter => false
  end.

(** No two settings of the flag follow each other. *)
Fixpoint no_double_set (h : list flag_op) : bool :=
  match h with
  | flag_set :: ((flag_set :: _) as h') => false
  | _ :: h' => no_double_set h'
  | [] => true
  end.

(** What every state satisfies that such turns reach: the flag is set
    whenever its last operation was a setting, it is clear while the
    foreground stands between the loop and the store of [SetBits], and no
    setting followed a setting. *)
Definition invariant (s : system) : Prop :=
  match history s with
  | flag_set :: _ => HasBits (busy s) 1 = true
  | _ => True
  end /\
  match foreground s with
  | Passed | Loaded _ => HasBits (busy s) 1 = false
  | _ => True
  end /\
  no_double_set (history s) = true /\
  hung s = false.

End Arbitration.

(** ** Auxiliary notions of the properties *)

(** Scenarios: a run that continues a finished one, and the peripheral acting
    in between. *)
Definition and_then {A} (o : option state) (m : M A) : option state :=
  match o with Some s => exec m s | None => None end.

Definition meanwhile (o : option state) (f : state -> state) : option state :=
  option_map f o.

(** What a run leaves alone when it only sends. *)
Definition same_globals (s s' : state) : Prop :=
  udd_ep_out_cache_buffer s' = udd_ep_out_cache_buffer s /\
  isEndpointHalt s' = isEndpointHalt s /\
  isRemoteWakeUpEnabled s' = isRemoteWakeUpEnabled s /\
  usbConfiguration s' = usbConfiguration s /\
  usbSetInterface s' = usbSetInterface s /\
  usbLineInfo s' = usbLineInfo s /\
  easyDMABusy s' = easyDMABusy s /\
  epout0data_setlinecoding s' = epout0data_setlinecoding s /\
  USB_Buffer s' = USB_Buffer s.

(** What the bus-ready block leaves alone: everything a control transfer in
    progress depends on. *)
Definition same_transfer (s s' : state) : Prop :=
  udd_ep_in_cache_buffer s' = udd_ep_in_cache_buffer s /\
  udd_ep_out_cache_buffer s' = udd_ep_out_cache_buffer s /\
  sendOnEP0DATADONE s' = sendOnEP0DATADONE s /\
  epout0data_setlinecoding s' = epout0data_setlinecoding s /\
  regs s' EVENTS_EP0DATADONE = regs s EVENTS_EP0DATADONE /\
  ep0_packets (effects s') = ep0_packets (effects s).

(** [frames R m]: a finished run of [m] relates the state before to the state
    after by [R]. *)
Definition frames {A} (R : state -> state -> Prop) (m : M A) : Prop :=
  forall s a s', m s = Done (a, s') -> R s s'.

(** The registers selected by [keep] hold what they held. *)
Definition regs_kept (keep : reg -> bool) (s s' : state) : Prop :=
  forall r, keep r = true -> regs s' r = regs s r.

(** The events polled after EP0SETUP. *)
Definition data_event (r : reg) : bool :=
  match r with
  | EVENTS_EPDATA | EVENTS_ENDEPOUT _ => true
  | _ => false
  end.

(** The fields of a setup packet as they come off the wire. *)
Definition valid_setup (p : usbSetup) : Prop :=
  is_byte (bmRequestType p) /\ is_byte (bRequest p) /\
  is_byte (wValueL p) /\ is_byte (wValueH p) /\
  0 <= wIndex p < 2 ^ 16 /\ 0 <= wLength p < 2 ^ 16.

(** The two device descriptors of [sendDescriptor]. *)
Definition composite_device_descriptor (P : platform) : DeviceDescriptor :=
  NewDeviceDescriptor 0xEF 0x02 0x01 64 (usb_VID P) (usb_PID P) 0x100
    (usb_IMANUFACTURER P) (usb_IPRODUCT P) (usb_ISERIAL P) 1.

Definition complete_device_descriptor (P : platform) : DeviceDescriptor :=
  NewDeviceDescriptor 0x02 0x00 0x00 64 (usb_VID P) (usb_PID P) 0x100
    (usb_IMANUFACTURER P) (usb_IPRODUCT P) (usb_ISERIAL P) 1.

(** The request codes that [handleStandardSetup] has a case for, and those of
    host-to-device class requests that [cdcSetup] tests for. *)
Definition standard_requests : list Z :=
  [usb_GET_STATUS; usb_CLEAR_FEATURE; usb_SET_FEATURE; usb_SET_ADDRESS;
   usb_GET_DESCRIPTOR; usb_SET_DESCRIPTOR; usb_GET_CONFIGURATION;
   usb_SET_CONFIGURATION; usb_GET_INTERFACE; usb_SET_INTERFACE].

Definition class_out_requests : list Z :=
  [usb_CDC_SET_LINE_CODING; usb_CDC_SET_CONTROL_LINE_STATE; usb_CDC_SEND_BREAK].

(** The GET_LINE_CODING request. *)
Definition get_line_coding (P : platform) : usbSetup :=
  {| bmRequestType := usb_REQUEST_DEVICETOHOST_CLASS_INTERFACE;
     bRequest := usb_CDC_GET_LINE_CODING;
     wValueL := 0; wValueH := 0;
     wIndex := usb_CDC_ACM_INTERFACE P;
     wLength := 7 |}.


Definition pointer_eqb (a b : pointer) : bool :=
  match a, b with
  | in_cache ep off, in_cache ep' off' => (ep =? ep') && (off =? off')
  | out_cache ep off, out_cache ep' off' => (ep =? ep') && (off =? off')
  | _, _ => false
  end.

(** The payloads of the IN transfers started from the address [p], on any
    endpoint, oldest first.  The continuation of a response is the transfer
    started from the address that [sendOnEP0DATADONE] records. *)
Fixpoint transfers_from (p : pointer) (es : list effect) : list (list Z) :=
  match es with
  | [] => []
  | TASKS_STARTEPIN _ (Some q) _ payload :: es' =>
      if pointer_eqb p q then payload :: transfers_from p es'
      else transfers_from p es'
  | _ :: es' => transfers_from p es'
  end.

(** A run has started no transfer from [p]. *)
Definition none_from (p : pointer) (s s' : state) : Prop :=
  transfers_from p (effects s') = transfers_from p (effects s).

(** What a run leaves alone of a control transfer that waits for
    EP0DATADONE: the IN staging buffers, the recorded continuation, the
    packets sent on endpoint 0, and the absence of a SET_LINE_CODING data
    phase. *)
Definition transfer_waits (s s' : state) : Prop :=
  udd_ep_in_cache_buffer s' = udd_ep_in_cache_buffer s /\
  sendOnEP0DATADONE s' = sendOnEP0DATADONE s /\
  (epout0data_setlinecoding s = false ->
   epout0data_setlinecoding s' = false) /\
  ep0_packets (effects s') = ep0_packets (effects s).


(** ** Auxiliary notions of the further properties *)

(** The event registers that the handler polls. *)
Definition event_reg (r : reg) : bool :=
  match r with
  | EVENTS_USBEVENT | EVENTS_EP0DATADONE | EVENTS_EP0SETUP
  | EVENTS_EPDATA | EVENTS_ENDEPOUT _ => true
  | _ => false
  end.

(** The staging buffers keep the shape of their array type. *)
Definition shape_kept (s s' : state) : Prop :=
  well_formed s -> well_formed s'.

(** The peripheral reports the finished transfers of the data endpoints in
    [EPDATASTATUS] and raises EPDATA. *)
Definition hw_epdata (status : Z) (s : state) : state :=
  hw EVENTS_EPDATA 1 (hw EPDATASTATUS status s).

(** easyDMA has moved [data], received on the bulk OUT endpoint, into the
    staging buffer of that endpoint, reports the amount and raises the
    ENDEPOUT event of the endpoint. *)
Definition hw_bulk_out (data : list Z) (s : state) : state :=
  hw (EVENTS_ENDEPOUT usb_CDC_ENDPOINT_OUT) 1
    (hw (EPOUT_AMOUNT usb_CDC_ENDPOINT_OUT) (Z.of_nat (length data))
       (with_udd_ep_out_cache_buffer
          (nth_upd (Z.to_nat usb_CDC_ENDPOINT_OUT) (fun b => copy b data)
             (udd_ep_out_cache_buffer s)) s)).

(** A run from a state whose staging buffers have their shape comes to an
    end: it neither panics nor waits. *)
Definition finishes {A} (m : M A) : Prop :=
  forall s, well_formed s -> exists a s', m s = Done (a, s').

(** ** GPIO and SPI of the FE310 (machine_fe310.go, board_hifive1b.go)

    The second chip of the sources.  Its drivers are register writes; they
    share nothing with the USB driver but [outcome]. *)

(** volatile.Register32: [HasBits], [SetBits], [ClearBits]. *)
Module Register32.

Definition HasBits (r v : Z) : bool := 0 <? Z.land r v.
Definition SetBits (r v : Z) : Z := uint32 (Z.lor r v).
Definition ClearBits (r v : Z) : Z := uint32 (Z.land r (Z.lnot v)).

End Register32.

Module fe310.

(** The constants of device/sifive, generated from the description of the
    chip, and the pin numbers [P03], [P04], [P05] are declared in files that
    are missing here; the drivers are modelled for any value of them. *)
Record device := {
  QSPI_MODE_PHASE : Z;
  QSPI_MODE_POLARITY : Z;
  QSPI_FMT_LENGTH_Pos : Z;
  QSPI_FMT_PROTOCOL_Msk : Z;
  QSPI_FMT_DIRECTION_Msk : Z;
  QSPI_FMT_ENDIAN : Z;
  QSPI_TXDATA_FULL : Z;
  QSPI_RXDATA_EMPTY : Z;
  P03 : Z;
  P04 : Z;
  P05 : Z
}.

Definition CPU_FREQUENCY : Z := 16000000.

(** [PinMode] *)
Definition PinInput : Z := 0.
Definition PinInputPullup : Z := 1.
Definition PinOutput : Z := 2.
Definition PinOutputInvert : Z := 3.
Definition PinPWM : Z := 4.
Definition PinSPI : Z := 5.
Definition PinI2C : Z := PinSPI.

(** The registers of [sifive.GPIO0] that the driver uses. *)
Inductive gpio_reg :=
| INPUT_EN | PULLUP | OUTPUT_EN | OUT_XOR | IOF_EN | IOF_SEL | PORT | VALUE.

Definition gpio_code (r : gpio_reg) : Z :=
  match r with
  | INPUT_EN => 0 | PULLUP => 1 | OUTPUT_EN => 2 | OUT_XOR => 3
  | IOF_EN => 4 | IOF_SEL => 5 | PORT => 6 | VALUE => 7
  end.

Definition gpio_reg_eqb (a b : gpio_reg) : bool := gpio_code a =? gpio_code b.

(** The registers of [spi.Bus] that [Configure] writes. *)
Inductive qspi_reg :=
| FCTRL | DIV | MODE | FMT | CSMODE.

Definition qspi_code (r : qspi_reg) : Z :=
  match r with
  | FCTRL => 0 | DIV => 1 | MODE => 2 | FMT => 3 | CSMODE => 4
  end.

Definition qspi_reg_eqb (a b : qspi_reg) : bool := qspi_code a =? qspi_code b.

(** The chip as the drivers see it.  [TXDATA] and [RXDATA] change under the
    peripheral: [txdata_reads] and [rxdata_reads] are what the coming reads
    of the two registers return, in order; once they are used up the
    register keeps the value in [txdata] or [rxdata].  [sent] records the
    writes to [TXDATA], oldest first. *)
Record machine := {
  gpio : gpio_reg -> Z;
  bus : qspi_reg -> Z;
  txdata : Z;
  txdata_reads : list Z;
  rxdata : Z;
  rxdata_reads : list Z;
  sent : list Z
}.

Definition with_gpio (g : gpio_reg -> Z) (m : machine) : machine :=
  {| gpio := g; bus := bus m; txdata := txdata m;
     txdata_reads := txdata_reads m; rxdata := rxdata m;
     rxdata_reads := rxdata_reads m; sent := sent m |}.

Definition with_bus (b : qspi_reg -> Z) (m : machine) : machine :=
  {| gpio := gpio m; bus := b; txdata := txdata m;
     txdata_reads := txdata_reads m; rxdata := rxdata m;
     rxdata_reads := rxdata_reads m; sent := sent m |}.

Definition gpio_SetBits (r : gpio_reg) (v : Z) (m : machine) : machine :=
  with_gpio (fun r' => if gpio_reg_eqb r r'
                       then Register32.SetBits (gpio m r) v else gpio m r') m.

Definition gpio_ClearBits (r : gpio_reg) (v : Z) (m : machine) : machine :=
  with_gpio (fun r' => if gpio_reg_eqb r r'
                       then Register32.ClearBits (gpio m r) v else gpio m r') m.

Definition bus_Set (r : qspi_reg) (v : Z) (m : machine) : machine :=
  with_bus (fun r' => if qspi_reg_eqb r r' then v else bus m r') m.

Definition bus_SetBits (r : qspi_reg) (v : Z) (m : machine) : machine :=
  bus_Set r (Register32.SetBits (bus m r) v) m.

Definition bus_ClearBits (r : qspi_reg) (v : Z) (m : machine) : machine :=
  bus_Set r (Register32.ClearBits (bus m r) v) m.

(** [1 << uint8(p)] as the [uint32] argument of [SetBits]: a shift by 32 or
    more gives 0. *)
Definition pin_bit (p : Z) : Z := shl32 1 (uint8 p).

(** [func (p Pin) Configure(config PinConfig)]; [mode] is [config.Mode]. *)
Definition Pin_Configure (p : Z) (mode : Z) (m : machine) : machine :=
  if mode =? PinInput then
    gpio_SetBits INPUT_EN (pin_bit p) m
  else if mode =? PinInputPullup then
    gpio_SetBits PULLUP (pin_bit p) (gpio_SetBits INPUT_EN (pin_bit p) m)
  else if mode =? PinOutput then
    gpio_SetBits OUTPUT_EN (pin_bit p) m
  else if mode =? PinOutputInvert then
    gpio_SetBits OUT_XOR (pin_bit p) (gpio_SetBits OUTPUT_EN (pin_bit p) m)
  else if mode =? PinPWM then
    gpio_SetBits IOF_SEL (pin_bit p) (gpio_SetBits IOF_EN (pin_bit p) m)
  else if mode =? PinSPI then
    gpio_ClearBits IOF_SEL (pin_bit p) (gpio_SetBits IOF_EN (pin_bit p) m)
  else m.

(** [func (p Pin) Set(high bool)] *)
Definition Pin_Set (p : Z) (high : bool) (m : machine) : machine :=
  if high then gpio_SetBits PORT (pin_bit p) m
  else gpio_ClearBits PORT (pin_bit p) m.

(** [func (p Pin) Get() bool] *)
Definition Pin_Get (p : Z) (m : machine) : bool :=
  0 <? Z.land (gpio m VALUE) (pin_bit p).

Record SPIConfig := {
  Frequency : Z;
  SCK : Z;
  MOSI : Z;
  MISO : Z;
  LSBFirst : bool;
  Mode : Z
}.

Section Drivers.

Variable D : device.

(** board_hifive1b.go *)
Definition D11 : Z := P03 D.
Definition D12 : Z := P04 D.
Definition D13 : Z := P05 D.
Definition SPI1_SCK_PIN : Z := D13.
Definition SPI1_MOSI_PIN : Z := D11.
Definition SPI1_MISO_PIN : Z := D12.

(** The [switch config.Mode] of [Configure]. *)
Definition set_mode (mode : Z) (m : machine) : machine :=
  if mode =? 0 then
    bus_ClearBits MODE (QSPI_MODE_POLARITY D)
      (bus_ClearBits MODE (QSPI_MODE_PHASE D) m)
  else if mode =? 1 then
    bus_ClearBits MODE (QSPI_MODE_POLARITY D)
      (bus_SetBits MODE (QSPI_MODE_PHASE D) m)
  else if mode =? 2 then
    bus_SetBits MODE (QSPI_MODE_POLARITY D)
      (bus_ClearBits MODE (QSPI_MODE_PHASE D) m)
  else if mode =? 3 then
    bus_SetBits MODE (Z.lor (QSPI_MODE_PHASE D) (QSPI_MODE_POLARITY D)) m
  else
    bus_ClearBits MODE (QSPI_MODE_POLARITY D)
      (bus_ClearBits MODE (QSPI_MODE_PHASE D) m).

(** [func (spi SPI) Configure(config SPIConfig) error].  The division is one
    of [uint32]s: it panics when [2*config.Frequency] wraps around to 0. *)
Definition SPI_Configure (config : SPIConfig) (m : machine)
  : outcome (error * machine) :=
  let default :=
    (SCK config =? 0) && (MOSI config =? 0) && (MISO config =? 0) in
  let sck := if default then SPI1_SCK_PIN else SCK config in
  let mosi := if default then SPI1_MOSI_PIN else MOSI config in
  let miso := if default then SPI1_MISO_PIN else MISO config in
  let m := bus_Set FCTRL 0 m in
  let m := Pin_Configure sck PinSPI m in
  let m := Pin_Configure mosi PinSPI m in
  let m := Pin_Configure miso PinSPI m in
  let frequency :=
    if Frequency config =? 0 then 4000000 else Frequency config in
  let divisor := uint32 (2 * frequency) in
  if divisor =? 0 then Panic else
  let div := uint32 (CPU_FREQUENCY / divisor - 1) in
  let m := bus_Set DIV div m in
  let m := set_mode (Mode config) m in
  let m := bus_SetBits FMT (Z.shiftl 8 (QSPI_FMT_LENGTH_Pos D)) m in
  let m := bus_ClearBits FMT (QSPI_FMT_PROTOCOL_Msk D) m in
  let m := bus_ClearBits FMT (QSPI_FMT_DIRECTION_Msk D) m in
  let m :=
    if LSBFirst config then bus_SetBits FMT (QSPI_FMT_ENDIAN D) m
    else bus_ClearBits FMT (QSPI_FMT_ENDIAN D) m in
  let m := bus_SetBits CSMODE 3 m in
  Done (None, m).

(** [for spi.Bus.TXDATA.HasBits(sifive.QSPI_TXDATA_FULL) {}]: over the coming
    reads of [TXDATA]; when they are used up and the register is still full,
    it stays full. *)
Fixpoint wait_tx (reads : list Z) (current : Z) : outcome (list Z * Z) :=
  match reads with
  | [] =>
      if Register32.HasBits current (QSPI_TXDATA_FULL D) then Spin
      else Done ([], current)
  | v :: reads' =>
      if Register32.HasBits v (QSPI_TXDATA_FULL D) then wait_tx reads' v
      else Done (reads', v)
  end.

(** The loop on [RXDATA]: up to the first value read without the empty
    flag. *)
Fixpoint wait_rx (reads : list Z) (current : Z) : outcome (list Z * Z) :=
  match reads with
  | [] =>
      if 0 <? Z.land current (QSPI_RXDATA_EMPTY D) then Spin
      else Done ([], current)
  | v :: reads' =>
      if 0 <? Z.land v (QSPI_RXDATA_EMPTY D) then wait_rx reads' v
      else Done (reads', v)
  end.

(** [func (spi SPI) Transfer(w byte) (byte, error)] *)
Definition SPI_Transfer (w : Z) (m : machine)
  : outcome ((Z * error) * machine) :=
  match wait_tx (txdata_reads m) (txdata m) with
  | Done (tx_reads, tx) =>
      match wait_rx (rxdata_reads m) (rxdata m) with
      | Done (rx_reads, val) =>
          Done ((uint8 val, None),
                {| gpio := gpio m; bus := bus m;
                   txdata := tx; txdata_reads := tx_reads;
                   rxdata := val; rxdata_reads := rx_reads;
                   sent := sent m ++ [uint32 w] |})
      | Panic => Panic
      | Spin => Spin
      end
  | Panic => Panic
  | Spin => Spin
  end.

End Drivers.

End fe310.

(** ** A FE310 to run the drivers on *)

(** The masks of the QSPI description of the FE310-G002 and the pin numbers
    of its GPIO bank. *)
Definition example_device : fe310.device :=
  {| fe310.QSPI_MODE_PHASE := 0x1;
     fe310.QSPI_MODE_POLARITY := 0x2;
     fe310.QSPI_FMT_LENGTH_Pos := 16;
     fe310.QSPI_FMT_PROTOCOL_Msk := 0x3;
     fe310.QSPI_FMT_DIRECTION_Msk := 0x8;
     fe310.QSPI_FMT_ENDIAN := 0x4;
     fe310.QSPI_TXDATA_FULL := 0x80000000;
     fe310.QSPI_RXDATA_EMPTY := 0x80000000;
     fe310.P03 := 3;
     fe310.P04 := 4;
     fe310.P05 := 5 |}.

(** All registers 0, nothing to read. *)
Definition example_machine : fe310.machine :=
  {| fe310.gpio := fun _ => 0;
     fe310.bus := fun _ => 0;
     fe310.txdata := 0;
     fe310.txdata_reads := [];
     fe310.rxdata := 0;
     fe310.rxdata_reads := [];
     fe310.sent := [] |}.

(** An SPI configuration with the default pins. *)
Definition example_config (frequency mode : Z) : fe310.SPIConfig :=
  {| fe310.Frequency := frequency;
     fe310.SCK := 0; fe310.MOSI := 0; fe310.MISO := 0;
     fe310.LSBFirst := false;
     fe310.Mode := mode |}.

(** * Properties *)

(** ** Integers and lists *)

Lemma uint32_small (x : Z) : 0 <= x < 2 ^ 32 -> uint32 x = x.
Proof. intros H. unfold uint32. apply Z.mod_small. exact H. Qed.

Lemma uint8_small (x : Z) : 0 <= x < 256 -> uint8 x = x.
Proof. intros H. unfold uint8. apply Z.mod_small. exact H. Qed.

Lemma copy_length (dst src : list Z) : length (copy dst src) = length dst.
Proof.
  unfold copy. rewrite length_app, length_firstn, length_skipn. lia.
Qed.

Lemma copy_fits (dst src : list Z) :
  (length src <= length dst)%nat ->
  copy dst src = src ++ skipn (length src) dst.
Proof.
  intros H. unfold copy. rewrite firstn_all2 by exact H. reflexivity.
Qed.

Lemma copy_truncates (dst src : list Z) :
  (length dst <= length src)%nat ->
  copy dst src = firstn (length dst) src.
Proof.
  intros H. unfold copy. rewrite skipn_all2 by exact H. apply app_nil_r.
Qed.

Lemma cache_shape_boot :
  cache_shape (repeat (repeat 0 (Z.to_nat cache_buffer_size))
                 (Z.to_nat cache_buffers)).
Proof.
  split; [reflexivity|]. apply Forall_forall. intros b Hb.
  apply repeat_spec in Hb. subst b. apply repeat_length.
Qed.

Lemma well_formed_boot : well_formed boot.
Proof. split; exact cache_shape_boot. Qed.

Lemma cache_shape_head (m : list (list Z)) :
  cache_shape m ->
  exists b0 rest, m = b0 :: rest /\ length b0 = 128%nat /\
                  length rest = 6%nat /\
                  Forall (fun b => length b = 128%nat) rest.
Proof.
  intros [Hlen Hall]. destruct m as [|b0 rest]; [discriminate|].
  exists b0, rest. inversion Hall; subst.
  repeat split; try assumption. simpl in Hlen.
  change (Z.to_nat cache_buffers) with 7%nat in Hlen. lia.
Qed.

Lemma cache_shape_cons (b0 b0' : list Z) (rest : list (list Z)) :
  cache_shape (b0 :: rest) -> length b0' = length b0 ->
  cache_shape (b0' :: rest).
Proof.
  intros [Hlen Hall] Hb. split; [exact Hlen|].
  inversion Hall; subst. constructor; [congruence|assumption].
Qed.
(** ** Symbolic execution *)

Ltac run :=
  cbv beta iota zeta delta
      [bind ret get modify when panic spin emit reg_get reg_set ptr_reg_set
       in_cache_buffer_set hw exec
       with_regs with_ptr_regs with_udd_ep_in_cache_buffer
       with_udd_ep_out_cache_buffer with_sendOnEP0DATADONE with_isEndpointHalt
       with_isRemoteWakeUpEnabled with_usbConfiguration with_usbSetInterface
       with_usbLineInfo with_epinen with_epouten with_easyDMABusy
       with_epout0data_setlinecoding with_USB_Buffer with_effects
       regs ptr_regs udd_ep_in_cache_buffer udd_ep_out_cache_buffer
       sendOnEP0DATADONE isEndpointHalt isRemoteWakeUpEnabled usbConfiguration
       usbSetInterface usbLineInfo epinen epouten easyDMABusy
       epout0data_setlinecoding USB_Buffer effects ptr count].

(** Tests on numerals and on register names. *)
Ltac numerals :=
  cbn [reg_eqb ptr_reg_eqb reg_code fst snd andb orb negb
       Z.eqb Z.ltb Z.leb Z.compare Pos.eqb Pos.compare Pos.compare_cont
       usb_CDC_ENDPOINT_OUT usb_CDC_ENDPOINT_IN cache_buffers].

(** The fields of an updated state, for a state that is not taken apart. *)
Ltac fields :=
  cbn [with_regs with_ptr_regs with_udd_ep_in_cache_buffer
       with_udd_ep_out_cache_buffer with_sendOnEP0DATADONE with_isEndpointHalt
       with_isRemoteWakeUpEnabled with_usbConfiguration with_usbSetInterface
       with_usbLineInfo with_epinen with_epouten with_easyDMABusy
       with_epout0data_setlinecoding with_USB_Buffer with_effects
       regs ptr_regs udd_ep_in_cache_buffer udd_ep_out_cache_buffer
       sendOnEP0DATADONE isEndpointHalt isRemoteWakeUpEnabled usbConfiguration
       usbSetInterface usbLineInfo epinen epouten easyDMABusy
       epout0data_setlinecoding USB_Buffer effects ptr count].

(** A state taken apart into its sixteen variables, so that every projection
    computes. *)
Ltac open_state s :=
  destruct s as [rg pr ic oc pend halt wake conf intf li ein eout busy slc
                 rx eff];
  cbn [regs ptr_regs udd_ep_in_cache_buffer udd_ep_out_cache_buffer
       sendOnEP0DATADONE isEndpointHalt isRemoteWakeUpEnabled usbConfiguration
       usbSetInterface usbLineInfo epinen epouten easyDMABusy
       epout0data_setlinecoding USB_Buffer effects] in *.


Lemma firstn_copy (n : nat) (dst src : list Z) (tl : list Z) :
  (n <= length src)%nat -> (n <= length dst)%nat ->
  firstn n (copy dst src ++ tl) = firstn n src.
Proof.
  intros Hs Hd. unfold copy.
  rewrite <- app_assoc.
  destruct (Nat.le_ge_cases (length dst) (length src)) as [H|H].
  - rewrite firstn_app.
    rewrite length_firstn, Nat.min_l by exact H.
    replace (n - length dst)%nat with 0%nat by lia.
    rewrite firstn_O, app_nil_r. rewrite firstn_firstn.
    f_equal. lia.
  - rewrite (firstn_all2 (n := length dst)) by exact H.
    rewrite firstn_app. replace (n - length src)%nat with 0%nat by lia.
    rewrite firstn_O, app_nil_r. reflexivity.
Qed.

Lemma nth_upd_0 {A} (f : A -> A) (x : A) (l : list A) :
  nth_upd 0 f (x :: l) = f x :: l.
Proof. reflexivity. Qed.

(** [sendUSBPacket] on the control endpoint: the staging buffer receives the
    data, at most one packet of it is sent, the rest is noted for later. *)
Lemma sendUSBPacket_ep0 (s : state) (data b0 : list Z) (rest : list (list Z)) :
  udd_ep_in_cache_buffer s = b0 :: rest ->
  length b0 = 128%nat ->
  exists s',
    sendUSBPacket 0 data s = Done (tt, s') /\
    udd_ep_in_cache_buffer s' = copy b0 data :: rest /\
    effects s' =
      effects s ++
      [TASKS_STARTEPIN 0 (Some (in_cache 0 0))
         (Z.min 64 (Z.of_nat (length data))) (firstn 64 data)] /\
    sendOnEP0DATADONE s' =
      (if 64 <? Z.of_nat (length data)
       then {| ptr := Some (in_cache 0 64);
               count := Z.of_nat (length data) - 64 |}
       else sendOnEP0DATADONE s) /\
    same_globals s s'.
Proof.
  intros Hin Hb0. open_state s. subst ic.
  unfold sendUSBPacket, in_cache_buffer, sendViaEPIn, check_ep, start_EPIN,
    dma_read.
  change ((0 <=? 0) && (0 <? cache_buffers)) with true.
  change ((0 <=? 0) && (0 <? 8)) with true.
  change (0 =? 0) with true.
  change usbEndpointPacketSize with 64.
  change (Z.to_nat (cache_buffer_size * 0 + 0)) with 0%nat.
  change (Z.to_nat 0) with 0%nat.
  cbn [andb].
  destruct (64 <? Z.of_nat (length data)) eqn:E;
    [apply Z.ltb_lt in E | apply Z.ltb_ge in E];
    run; cbn [nth_error nth_upd ptr_reg_eqb];
    change (reg_eqb (EPIN_MAXCNT 0) (EPIN_MAXCNT 0)) with true;
    change (0 =? 0) with true; cbv iota;
    rewrite ?nth_upd_0, ?skipn_O; cbn [concat];
    (eexists; split; [reflexivity|]); unfold same_globals; run.
  - change (uint32 64) with 64. rewrite Z.min_l by lia.
    repeat split.
    do 3 f_equal. change (Z.to_nat 64) with 64%nat.
    apply firstn_copy; lia.
  - rewrite Z.min_r by lia. rewrite uint32_small by lia.
    repeat split.
    do 3 f_equal. rewrite Nat2Z.id.
    rewrite firstn_copy by lia.
    rewrite !firstn_all2 by lia. reflexivity.
Qed.

Lemma ep0_packets_app (es es' : list effect) :
  ep0_packets (es ++ es') = ep0_packets es ++ ep0_packets es'.
Proof.
  induction es as [|e es IH]; [reflexivity|].
  destruct e; cbn [ep0_packets app]; try exact IH.
  destruct (ep =? 0); cbn [app]; rewrite IH; reflexivity.
Qed.


Section DriverFacts.

Variable P : platform.

Lemma initEndpoint_control :
  initEndpoint P 0 usb_ENDPOINT_TYPE_CONTROL =
  (enableEPIn P 0 ;; enableEPOut P 0 ;;
   reg_set INTENSET (USBD_INTENSET_ENDEPOUT0 P) ;; emit TASKS_EP0STATUS).
Proof. reflexivity. Qed.

Lemma on_USBEVENT_idle (s : state) :
  regs s EVENTS_USBEVENT <> 1 -> on_USBEVENT P s = Done (tt, s).
Proof.
  intros H. apply Z.eqb_neq in H. open_state s. unfold on_USBEVENT. run.
  rewrite H. reflexivity.
Qed.

Lemma on_USBEVENT_done (s : state) :
  exists s', on_USBEVENT P s = Done (tt, s') /\ same_transfer s s' /\
             well_formed s' = well_formed s.
Proof.
  open_state s. unfold on_USBEVENT. run.
  destruct (rg EVENTS_USBEVENT =? 1).
  - change (reg_eqb EVENTS_USBEVENT EVENTCAUSE) with false. cbv iota.
    destruct (0 <? Z.land (rg EVENTCAUSE) (USBD_EVENTCAUSE_READY P)).
    + rewrite initEndpoint_control. unfold enableEPIn, enableEPOut. run.
      eexists. split; [reflexivity|]. unfold same_transfer, well_formed. run.
      rewrite ep0_packets_app, app_nil_r. repeat split.
    + run. eexists. split; [reflexivity|]. unfold same_transfer, well_formed. run.
      repeat split.
  - eexists. split; [reflexivity|]. repeat split.
Qed.

Lemma on_EP0DATADONE_continuation (s : state) (p : pointer) (c : Z) :
  epout0data_setlinecoding s = false ->
  sendOnEP0DATADONE s = {| ptr := Some p; count := c |} ->
  0 <= c < 2 ^ 32 ->
  exists s',
    on_EP0DATADONE s = Done (tt, s') /\
    effects s' = effects s ++ [TASKS_STARTEPIN 0 (Some p) c (dma_read s p c)] /\
    sendOnEP0DATADONE s' = {| ptr := None; count := c |} /\
    udd_ep_in_cache_buffer s' = udd_ep_in_cache_buffer s /\
    epout0data_setlinecoding s' = false.
Proof.
  intros Hflag Hpend Hc. open_state s. subst slc pend.
  unfold on_EP0DATADONE, sendViaEPIn, check_ep, start_EPIN.
  change ((0 <=? 0) && (0 <? 8)) with true. run.
  cbn [ptr_reg_eqb]. change (0 =? 0) with true.
  change (reg_eqb (EPIN_MAXCNT 0) (EPIN_MAXCNT 0)) with true. cbv iota.
  rewrite uint32_small by exact Hc.
  eexists. split; [reflexivity|]. run.
  repeat split.
Qed.


Lemma handleInterrupt_EP0DATADONE (s : state) :
  regs s EVENTS_EP0DATADONE = 1 ->
  exists s0, same_transfer s s0 /\ handleInterrupt P s = on_EP0DATADONE s0.
Proof.
  intros Hev.
  destruct (on_USBEVENT_done s) as (s0 & Hrun & Hsame & _).
  exists s0. split; [exact Hsame|].
  destruct Hsame as (_ & _ & _ & _ & Hreg & _).
  unfold handleInterrupt, bind at 1. rewrite Hrun.
  unfold bind at 1, reg_get. rewrite Hreg, Hev. reflexivity.
Qed.

End DriverFacts.

(** The continuation window of a response that fits the staging buffer is the
    rest of the response. *)
Lemma continuation_fits (b0 data : list Z) (tl : list Z) (n : nat) :
  length b0 = 128%nat -> length data = n -> (64 < n <= 128)%nat ->
  firstn (n - 64) (skipn 64 (copy b0 data ++ tl)) = skipn 64 data.
Proof.
  intros Hb Hd Hn. rewrite copy_fits by lia.
  rewrite <- app_assoc, skipn_app.
  replace (64 - length data)%nat with 0%nat by lia. rewrite skipn_O.
  rewrite firstn_app, length_skipn.
  replace (n - 64 - (length data - 64))%nat with 0%nat by lia.
  rewrite firstn_O, app_nil_r. apply firstn_all2. rewrite length_skipn. lia.
Qed.

(** The continuation window of a longer response runs on into the staging
    buffers that follow. *)
Lemma continuation_overruns (b0 data : list Z) (tl : list Z) (n : nat) :
  length b0 = 128%nat -> length data = n -> (128 < n)%nat ->
  firstn (n - 64) (skipn 64 (copy b0 data ++ tl)) =
  firstn 64 (skipn 64 data) ++ firstn (n - 128) tl.
Proof.
  intros Hb Hd Hn. rewrite copy_truncates by lia. rewrite Hb.
  rewrite skipn_app, length_firstn.
  replace (64 - Nat.min 128 (length data))%nat with 0%nat by lia.
  rewrite skipn_O, firstn_app.
  assert (Hlen : length (skipn 64 (firstn 128 data)) = 64%nat).
  { rewrite length_skipn, length_firstn. lia. }
  rewrite Hlen. rewrite firstn_all2 by lia.
  replace (n - 64 - 64)%nat with (n - 128)%nat by lia.
  f_equal. symmetry. apply (firstn_skipn_comm 64 64).
Qed.

(** C10.  On the control endpoint the bytes of a response that can be sent
    are bounded by the 128-byte IN staging buffer.  The buffer receives the
    first 128 bytes of the data and no more; up to 128 bytes it holds all of
    the data, and the part after the first packet is exactly what the recorded
    continuation covers.  Beyond 128 bytes the recorded count is still the
    length less 64, so the continuation covers 64 bytes of data and then bytes
    of the staging buffers that follow, which were never copied from the
    data. *)
Theorem C10_staging_buffer_bounds_response (s : state) (data : list Z) :
  well_formed s ->
  let n := Z.of_nat (length data) in
  exists s' b0 rest,
    udd_ep_in_cache_buffer s = b0 :: rest /\
    sendUSBPacket 0 data s = Done (tt, s') /\
    udd_ep_in_cache_buffer s' = copy b0 data :: rest /\
    length (copy b0 data) = 128%nat /\
    copy b0 data = firstn 128 data ++ skipn (length data) b0 /\
    (n <= 128 -> firstn (length data) (copy b0 data) = data) /\
    (64 < n <= 128 ->
       sendOnEP0DATADONE s' = {| ptr := Some (in_cache 0 64); count := n - 64 |} /\
       firstn 64 data ++ dma_read s' (in_cache 0 64) (n - 64) = data) /\
    (128 < n ->
       copy b0 data = firstn 128 data /\
       sendOnEP0DATADONE s' = {| ptr := Some (in_cache 0 64); count := n - 64 |} /\
       dma_read s' (in_cache 0 64) (n - 64) =
         firstn 64 (skipn 64 data) ++ firstn (length data - 128) (concat rest)).
Proof.
  intros [Hin _] n.
  destruct (cache_shape_head _ Hin) as (b0 & rest & Hm & Hb0 & _ & _).
  destruct (sendUSBPacket_ep0 s data b0 rest Hm Hb0)
    as (s' & Hrun & Hin' & _ & Hpend & _).
  exists s', b0, rest.
  assert (Hread : forall c, dma_read s' (in_cache 0 64) c =
            firstn (Z.to_nat c) (skipn 64 (copy b0 data ++ concat rest))).
  { intros c. unfold dma_read. rewrite Hin'. reflexivity. }
  repeat split; try assumption.
  - rewrite copy_length. exact Hb0.
  - unfold copy. rewrite Hb0. reflexivity.
  - intros Hn. rewrite copy_fits by lia.
    rewrite firstn_app, Nat.sub_diag, firstn_O, app_nil_r.
    apply firstn_all.
  - rewrite Hpend. replace (64 <? Z.of_nat (length data)) with true; [reflexivity|].
    symmetry. apply Z.ltb_lt. lia.
  - rewrite Hread. unfold n.
    replace (Z.to_nat (Z.of_nat (length data) - 64)) with (length data - 64)%nat by lia.
    rewrite (continuation_fits b0 data _ (length data)) by (try reflexivity; lia).
    apply firstn_skipn.
  - rewrite copy_truncates by lia. rewrite Hb0. reflexivity.
  - rewrite Hpend. replace (64 <? Z.of_nat (length data)) with true; [reflexivity|].
    symmetry. apply Z.ltb_lt. lia.
  - rewrite Hread. unfold n.
    replace (Z.to_nat (Z.of_nat (length data) - 64)) with (length data - 64)%nat by lia.
    apply continuation_overruns; try reflexivity; lia.
Qed.

(** A pending continuation is sent by the first interrupt that finds
    EP0DATADONE raised, whatever else the registers hold. *)
Lemma continuation_on_EP0DATADONE (P : platform) (s : state) (p : pointer) (c : Z) :
  epout0data_setlinecoding s = false ->
  sendOnEP0DATADONE s = {| ptr := Some p; count := c |} ->
  0 <= c < 2 ^ 32 ->
  regs s EVENTS_EP0DATADONE = 1 ->
  exists s',
    handleInterrupt P s = Done (tt, s') /\
    ep0_packets (effects s') = ep0_packets (effects s) ++ [dma_read s p c] /\
    sendOnEP0DATADONE s' = {| ptr := None; count := c |} /\
    udd_ep_in_cache_buffer s' = udd_ep_in_cache_buffer s /\
    epout0data_setlinecoding s' = false.
Proof.
  intros Hflag Hpend Hc Hev.
  destruct (handleInterrupt_EP0DATADONE P s Hev)
    as (s0 & (Hin & Hout & Hp & Hf & _ & Hpk) & Hrun).
  rewrite Hflag in Hf. rewrite Hpend in Hp.
  destruct (on_EP0DATADONE_continuation s0 p c Hf Hp Hc)
    as (s' & Hrun' & Heff & Hp' & Hin' & Hf').
  exists s'. rewrite Hrun. split; [exact Hrun'|].
  repeat split; try assumption.
  - rewrite Heff, ep0_packets_app, Hpk. cbn [ep0_packets].
    change (0 =? 0) with true. cbv iota.
    do 2 f_equal. destruct p; unfold dma_read; rewrite ?Hin, ?Hout; reflexivity.
  - congruence.
Qed.



Section Idle.

Variable P : platform.

Lemma on_EP0SETUP_idle (s : state) :
  regs s EVENTS_EP0SETUP <> 1 -> on_EP0SETUP P s = Done (tt, s).
Proof.
  intros H. apply Z.eqb_neq in H. open_state s. unfold on_EP0SETUP. run.
  rewrite H. reflexivity.
Qed.

Lemma on_EPDATA_idle (s : state) :
  regs s EVENTS_EPDATA <= 0 -> on_EPDATA P s = Done (tt, s).
Proof.
  intros H. apply Z.ltb_ge in H. open_state s. unfold on_EPDATA. run.
  rewrite H. reflexivity.
Qed.

Lemma on_ENDEPOUT_idle (s : state) :
  (forall i, regs s (EVENTS_ENDEPOUT i) <= 0) -> on_ENDEPOUT s = Done (tt, s).
Proof.
  intros H. open_state s.
  assert (H' : forall i, (0 <? rg (EVENTS_ENDEPOUT i)) = false).
  { intros i. apply Z.ltb_ge. apply H. }
  unfold on_ENDEPOUT. cbn [endPoints length upto for_each]. run.
  rewrite !H'. reflexivity.
Qed.


End Idle.

Lemma C10_staging_buffer_bounds_response_witness :
  well_formed boot /\
  exists s',
    sendUSBPacket 0 (ramp 130) boot = Done (tt, s') /\
    sendOnEP0DATADONE s' = {| ptr := Some (in_cache 0 64); count := 66 |}.
Proof.
  split; [exact well_formed_boot|].
  destruct (C10_staging_buffer_bounds_response boot (ramp 130) well_formed_boot)
    as (s' & b0 & rest & _ & Hrun & _ & _ & _ & _ & _ & Hlong).
  exists s'. split; [exact Hrun|].
  apply Hlong. vm_compute. reflexivity.
Defined.

(** ** The busy flag under interleaving *)

Lemma land_1_bit0 (x : Z) : Z.land x 1 = Z.b2z (Z.testbit x 0).
Proof.
  change 1 with (Z.ones 1) at 1. rewrite Z.land_ones by lia.
  rewrite Z.bit0_mod. reflexivity.
Qed.

Lemma HasBits_SetBits (v : Z) : HasBits (SetBits v 1) 1 = true.
Proof.
  unfold HasBits, SetBits, uint8. rewrite land_1_bit0.
  rewrite Z.mod_pow2_bits_low by lia.
  rewrite Z.lor_spec, Bool.orb_true_r. reflexivity.
Qed.

Lemma HasBits_ClearBits (b : Z) : HasBits (ClearBits b 1) 1 = false.
Proof.
  unfold HasBits, ClearBits, uint8. rewrite land_1_bit0.
  rewrite Z.mod_pow2_bits_low by lia.
  rewrite Z.land_spec, Z.lnot_spec by lia.
  rewrite Bool.andb_false_r. reflexivity.
Qed.

Module ArbitrationFacts.
Import Arbitration.

(** The steps follow the driver: uninterrupted, the foreground's four steps
    through [enterCriticalSection] leave the flag as the driver's function
    does, and stay at the loop where the function waits. *)
Lemma foreground_follows_enterCriticalSection (s : state) :
  let sys := start (easyDMABusy s) in
  match enterCriticalSection s with
  | Done (_, s') =>
      busy (run [Foreground; Foreground; Foreground; Foreground] sys) =
        easyDMABusy s' /\
      history (run [Foreground; Foreground; Foreground; Foreground] sys) =
        [flag_set]
  | Spin =>
      forall n,
        run (repeat Foreground (S n)) sys =
        {| busy := easyDMABusy s; foreground := Polling; history := [];
           hung := false |}
  | Panic => False
  end.
Proof.
  destruct s as [rg pr ic oc pend halt wake conf intf li ein eout b slc rx eff].
  unfold enterCriticalSection, waitForEasyDMA, start.
  cbv [bind get modify ret spin easyDMABusy with_easyDMABusy].
  case_eq (HasBits b 1); intros Hb.
  - assert (Hloop : forall n,
               run (repeat Foreground n)
                 {| busy := b; foreground := Polling; history := [];
                    hung := false |} =
               {| busy := b; foreground := Polling; history := [];
                  hung := false |}).
    { induction n as [|n IH]; [reflexivity|].
      cbn [repeat run]. unfold step at 1.
      cbn [hung foreground busy history]. rewrite Hb. exact IH. }
    intros n. cbn [repeat run]. unfold step at 1.
    cbn [hung foreground busy history]. apply Hloop.
  - cbn [run]. unfold step. cbn [hung foreground busy history].
    rewrite Hb. cbn [hung foreground busy history]. split; reflexivity.
Qed.

(** The handler's turns are the driver's [exitCriticalSection] and
    [enterCriticalSection], run to the end. *)
Lemma handler_follows_driver (s : state) (sys : system) :
  busy sys = easyDMABusy s ->
  hung sys = false ->
  (exists s', exitCriticalSection s = Done (tt, s') /\
              busy (step InterruptExit sys) = easyDMABusy s') /\
  match enterCriticalSection s with
  | Done (_, s') =>
      busy (step InterruptEnter sys) = easyDMABusy s' /\
      hung (step InterruptEnter sys) = false
  | Spin => hung (step InterruptEnter sys) = true
  | Panic => False
  end.
Proof.
  intros Hbusy Hhung. destruct sys as [b fg h hg].
  cbn [busy hung] in Hbusy, Hhung. subst b hg.
  destruct s as [rg pr ic oc pend halt wake conf intf li ein eout b slc rx eff].
  cbn [easyDMABusy]. split.
  - eexists. split; reflexivity.
  - unfold enterCriticalSection, waitForEasyDMA, step.
    cbv [bind get modify ret spin easyDMABusy with_easyDMABusy].
    cbn [hung busy].
    destruct (HasBits b 1); [reflexivity | split; reflexivity].
Qed.

Lemma invariant_start (flag : Z) : invariant (start flag).
Proof. repeat split. Qed.

Lemma invariant_step (t : turn) (s : system) :
  enters_in_foreground t = true -> invariant s -> invariant (step t s).
Proof.
  destruct s as [b fg h hg]. unfold invariant, step.
  cbn [history foreground busy hung].
  intros Ht (Hset & Hfg & Hnd & Hhung). subst hg.
  destruct t; [| |discriminate Ht]; cbn [foreground busy history hung].
  - destruct fg as [| | |v]; cbn [history foreground busy hung].
    + repeat split; first [assumption | exact I].
    + case_eq (HasBits b 1); intros Eb; cbn [history foreground busy hung];
        repeat split; first [assumption | exact I].
    + repeat split; assumption.
    + repeat split.
      * apply HasBits_SetBits.
      * destruct h as [|[|] h]; cbn [no_double_set] in *;
          [reflexivity | congruence | exact Hnd].
  - repeat split.
    + destruct fg; try exact I; apply HasBits_ClearBits.
    + cbn [no_double_set]. exact Hnd.
Qed.

Lemma invariant_run (schedule : list turn) (s : system) :
  forallb enters_in_foreground schedule = true ->
  invariant s -> invariant (run schedule s).
Proof.
  revert s. induction schedule as [|t schedule IH]; intros s Hs H.
  - exact H.
  - cbn [forallb] in Hs. apply andb_prop in Hs. destruct Hs as [Ht Hs].
    cbn [run]. apply IH; [exact Hs|]. apply invariant_step; assumption.
Qed.

(** Whatever the order in which the foreground advances through its calls
    of [enterCriticalSection] and the interrupt handler runs
    [exitCriticalSection], the flag is never set twice without a clearing in
    between: the store of [SetBits] finds the flag clear, because the loop of
    [waitForEasyDMA] was left with the flag clear and the handler can only
    clear it.  This bounds the settings of the flag, not the transfers in
    flight: the handler clears the flag at the end of every OUT transfer,
    also of one that never took it. *)
Lemma store_finds_flag_clear (flag : Z) (schedule : list turn) :
  forallb enters_in_foreground schedule = true ->
  let s := run schedule (start flag) in
  no_double_set (history s) = true /\
  (forall v, foreground s = Loaded v -> HasBits (busy s) 1 = false).
Proof.
  intros Hs s.
  destruct (invariant_run schedule (start flag) Hs (invariant_start flag))
    as (_ & Hfg & Hnd & _).
  fold s in Hfg, Hnd.
  split.
  - exact Hnd.
  - intros v Hv. rewrite Hv in Hfg. exact Hfg.
Qed.

(** The handler also calls [enterCriticalSection], for data on the bulk OUT
    endpoint.  When it does so after the foreground has left the loop and
    before it has set the flag, the flag is set twice in a row. *)
Lemma handler_enter_sets_flag_twice :
  let schedule :=
    [Foreground; Foreground; InterruptEnter; Foreground; Foreground] in
  history (run schedule (start 0)) = [flag_set; flag_set] /\
  no_double_set (history (run schedule (start 0))) = false.
Proof. split; reflexivity. Qed.

End ArbitrationFacts.

(** ** Frame properties *)



Lemma reg_eqb_eq (a b : reg) : reg_eqb a b = true -> a = b.
Proof.
  unfold reg_eqb. intros H. apply andb_prop in H. destruct H as [H1 H2].
  apply Z.eqb_eq in H1. apply Z.eqb_eq in H2.
  destruct a, b; cbn in H1, H2; try discriminate; congruence.
Qed.

Section Frames.

Context {R : state -> state -> Prop} `{PreOrder state R}.

Lemma frames_ret {A} (a : A) : frames R (ret a).
Proof. intros s a' s' E. inversion E. reflexivity. Qed.

Lemma frames_panic {A} : frames R (@panic A).
Proof. intros s a s' E. discriminate. Qed.

Lemma frames_spin {A} : frames R (@spin A).
Proof. intros s a s' E. discriminate. Qed.

Lemma frames_get : frames R get.
Proof. intros s a s' E. inversion E. reflexivity. Qed.

Lemma frames_reg_get (r : reg) : frames R (reg_get r).
Proof. intros s a s' E. inversion E. reflexivity. Qed.

Lemma frames_modify (f : state -> state) :
  (forall s, R s (f s)) -> frames R (modify f).
Proof. intros Hf s a s' E. inversion E. apply Hf. Qed.

Lemma frames_bind {A B} (m : M A) (k : A -> M B) :
  frames R m -> (forall a, frames R (k a)) -> frames R (bind m k).
Proof.
  intros Hm Hk s b s' E'. unfold bind in E'.
  destruct (m s) as [[a s1]| |] eqn:E; try discriminate.
  transitivity s1; [eapply Hm; exact E | eapply Hk; exact E'].
Qed.

Lemma frames_when (b : bool) (m : M unit) : frames R m -> frames R (when b m).
Proof. intros Hm. destruct b; [exact Hm | apply frames_ret]. Qed.

Lemma frames_if {A} (b : bool) (m1 m2 : M A) :
  frames R m1 -> frames R m2 -> frames R (if b then m1 else m2).
Proof. intros H1 H2. destruct b; assumption. Qed.

Lemma frames_for_each (l : list Z) (body : Z -> M unit) :
  (forall i, frames R (body i)) -> frames R (for_each l body).
Proof.
  intros Hb. induction l as [|i l IH]; cbn [for_each].
  - apply frames_ret.
  - apply frames_bind; [apply Hb | intros _; exact IH].
Qed.

Lemma frames_in_cache_buffer (ep : Z) : frames R (in_cache_buffer ep).
Proof.
  intros s a s' E. unfold in_cache_buffer in E.
  destruct ((0 <=? ep) && (ep <? cache_buffers)); try discriminate.
  destruct (nth_error _ _); try discriminate. inversion E. reflexivity.
Qed.

Lemma frames_out_cache_buffer (ep : Z) : frames R (out_cache_buffer ep).
Proof.
  intros s a s' E. unfold out_cache_buffer in E.
  destruct ((0 <=? ep) && (ep <? cache_buffers)); try discriminate.
  destruct (nth_error _ _); try discriminate. inversion E. reflexivity.
Qed.

Lemma frames_slice_to {A} (b : list A) (n : Z) : frames R (slice_to b n).
Proof.
  unfold slice_to. apply frames_if; [apply frames_ret | apply frames_panic].
Qed.

Lemma frames_check_ep (ep : Z) : frames R (check_ep ep).
Proof.
  unfold check_ep. apply frames_if; [apply frames_ret | apply frames_panic].
Qed.

End Frames.

#[export] Instance regs_kept_preorder keep : PreOrder (regs_kept keep).
Proof.
  split.
  - intros s r _. reflexivity.
  - intros s1 s2 s3 H1 H2 r Hr. rewrite H2, H1 by exact Hr. reflexivity.
Qed.

Lemma regs_kept_reg_set keep (r : reg) (v : Z) :
  keep r = false -> frames (regs_kept keep) (reg_set r v).
Proof.
  intros Hr. apply frames_modify. intros s r' Hr'. run.
  destruct (reg_eqb r r') eqn:E; [|reflexivity].
  apply reg_eqb_eq in E. congruence.
Qed.

(** One step of a frame proof: split the program, and settle an assignment
    by computing that it leaves alone what the relation is about. *)
Ltac frame_step :=
  first
    [ apply frames_bind; [| intros ? ]
    | apply frames_ret | apply frames_get | apply frames_reg_get
    | apply frames_panic | apply frames_spin
    | apply frames_when | apply frames_if
    | apply frames_for_each; intros ?
    | apply frames_in_cache_buffer | apply frames_out_cache_buffer
    | apply frames_slice_to | apply frames_check_ep
    | apply regs_kept_reg_set; reflexivity
    | apply frames_modify; intros ?; fields; solve [repeat split | intros ? ?; reflexivity]
    | match goal with |- frames _ (match ?x with _ => _ end) => destruct x end
    | match goal with |- frames _ (let _ := _ in _) => cbv zeta end ].

Section RegisterFrames.

Variable P : platform.
Variable keep : reg -> bool.
Hypothesis keep_config :
  forall r, keep r = true ->
    match r with
    | EPIN_MAXCNT _ | EPOUT_MAXCNT _ | SIZE_EPOUT _
    | INTENSET | USBPULLUP | EPINEN | EPOUTEN => False
    | _ => True
    end.

Lemma keep_false (r : reg) :
  match r with
  | EPIN_MAXCNT _ | EPOUT_MAXCNT _ | SIZE_EPOUT _
  | INTENSET | USBPULLUP | EPINEN | EPOUTEN => True
  | _ => False
  end -> keep r = false.
Proof.
  intros Hr. destruct (keep r) eqn:E; [|reflexivity].
  apply keep_config in E. destruct r; contradiction.
Qed.

Ltac kept := repeat first [ frame_step | apply regs_kept_reg_set; apply keep_false; exact I ].

Lemma regs_kept_sendUSBPacket ep data :
  frames (regs_kept keep) (sendUSBPacket ep data).
Proof.
  unfold sendUSBPacket, in_cache_buffer_set. kept.
Qed.

End RegisterFrames.

(** ** Bytes and words *)

Lemma shiftl_shiftr_land (x k : Z) :
  0 <= k ->
  Z.lor (Z.shiftl (Z.shiftr x k) k) (Z.land x (Z.ones k)) = x.
Proof.
  intros Hk. apply Z.bits_inj'. intros n Hn.
  rewrite Z.lor_spec, Z.land_spec.
  destruct (Z.lt_ge_cases n k) as [Hlt|Hge].
  - rewrite Z.shiftl_spec_low by lia. rewrite Z.ones_spec_low by lia.
    rewrite Bool.andb_true_r. reflexivity.
  - rewrite Z.shiftl_spec by lia. rewrite Z.shiftr_spec by lia.
    rewrite Z.ones_spec_high by lia.
    rewrite Bool.andb_false_r, Bool.orb_false_r. f_equal. lia.
Qed.

Lemma shl32_high_byte (x : Z) :
  0 <= x < 2 ^ 16 -> shl32 (Z.shiftr x 8) 8 = Z.shiftl (Z.shiftr x 8) 8.
Proof.
  intros Hx. unfold shl32. apply uint32_small.
  rewrite Z.shiftl_mul_pow2, Z.shiftr_div_pow2 by lia.
  assert (0 <= x / 2 ^ 8 < 2 ^ 8)
    by (split; [apply Z.div_pos; lia | apply Z.div_lt_upper_bound; lia]).
  nia.
Qed.

Lemma land_byte (x : Z) : 0 <= x < 256 -> Z.land x 0xff = x.
Proof.
  intros Hx. change 0xff with (Z.ones 8). rewrite Z.land_ones by lia.
  apply Z.mod_small. exact Hx.
Qed.

Lemma word_of_halves (x : Z) :
  0 <= x < 2 ^ 16 ->
  uint16 (Z.lor (shl32 (Z.shiftr x 8) 8) (Z.land x 0xff)) = x.
Proof.
  intros Hx. rewrite shl32_high_byte by exact Hx.
  change 0xff with (Z.ones 8). rewrite shiftl_shiftr_land by lia.
  unfold uint16. apply Z.mod_small. exact Hx.
Qed.

Lemma word_of_masked_halves (x : Z) :
  0 <= x < 2 ^ 16 ->
  uint16 (Z.lor (shl32 (Z.land (Z.shiftr x 8) 0xff) 8)
                (Z.land (Z.land x 0xff) 0xff)) = x.
Proof.
  intros Hx.
  assert (Hhi : 0 <= Z.shiftr x 8 < 256).
  { rewrite Z.shiftr_div_pow2 by lia.
    split; [apply Z.div_pos; lia | apply Z.div_lt_upper_bound; lia]. }
  rewrite (land_byte (Z.shiftr x 8)) by exact Hhi.
  change 0xff with (Z.ones 8). rewrite <- Z.land_assoc, Z.land_diag.
  apply word_of_halves. exact Hx.
Qed.


Lemma parse_hw_setup (p : usbSetup) (s : state) :
  valid_setup p ->
  parseUSBSetupRegisters (hw EVENTS_EP0SETUP 0 (hw_setup p s)) =
  Done (p, hw EVENTS_EP0SETUP 0 (hw_setup p s)).
Proof.
  intros (H1 & H2 & H3 & H4 & H5 & H6).
  unfold parseUSBSetupRegisters, hw_setup, hw. run.
  cbn [reg_eqb reg_code fst snd Z.eqb Pos.eqb andb].
  rewrite !uint8_small by assumption.
  rewrite word_of_halves, word_of_masked_halves by assumption.
  destruct p; reflexivity.
Qed.

Section SetupFacts.

Variable P : platform.

Lemma regs_kept_enableEPIn keep ep :
  keep EPINEN = false -> frames (regs_kept keep) (enableEPIn P ep).
Proof.
  intros Hk. unfold enableEPIn. repeat frame_step.
  apply regs_kept_reg_set. exact Hk.
Qed.

Lemma regs_kept_enableEPOut keep ep :
  keep EPOUTEN = false -> frames (regs_kept keep) (enableEPOut P ep).
Proof.
  intros Hk. unfold enableEPOut. repeat frame_step.
  apply regs_kept_reg_set. exact Hk.
Qed.

Lemma data_event_config (r : reg) :
  data_event r = true ->
  match r with
  | EPIN_MAXCNT _ | EPOUT_MAXCNT _ | SIZE_EPOUT _
  | INTENSET | USBPULLUP | EPINEN | EPOUTEN => False
  | _ => True
  end.
Proof. destruct r; cbn; intros H; try exact I; discriminate. Qed.


Lemma data_event_initEndpoint ep config :
  frames (regs_kept data_event) (initEndpoint P ep config).
Proof.
  unfold initEndpoint, emit.
  repeat first [ frame_step
               | apply regs_kept_enableEPIn; reflexivity
               | apply regs_kept_enableEPOut; reflexivity ].
Qed.


Lemma data_event_sendDescriptor setup :
  frames (regs_kept data_event) (sendDescriptor P setup).
Proof.
  unfold sendDescriptor, sendConfiguration, emit.
  repeat first [ frame_step
               | apply regs_kept_sendUSBPacket; exact data_event_config ].
Qed.

Lemma data_event_handleStandardSetup setup :
  frames (regs_kept data_event) (handleStandardSetup P setup).
Proof.
  unfold handleStandardSetup, emit.
  repeat first [ frame_step
               | apply regs_kept_sendUSBPacket; exact data_event_config
               | apply data_event_sendDescriptor
               | apply data_event_initEndpoint ].
Qed.

Lemma data_event_cdcSetup setup :
  frames (regs_kept data_event) (cdcSetup setup).
Proof.
  unfold cdcSetup, checkShouldReset, emit.
  repeat first [ frame_step
               | apply regs_kept_sendUSBPacket; exact data_event_config ].
Qed.

Lemma data_event_on_EP0SETUP :
  frames (regs_kept data_event) (on_EP0SETUP P).
Proof.
  unfold on_EP0SETUP, parseUSBSetupRegisters, emit.
  repeat first [ frame_step
               | apply data_event_handleStandardSetup
               | apply data_event_cdcSetup ].
Qed.

(** An interrupt for a setup packet alone is the handling of that packet. *)
Lemma handleInterrupt_setup_only (s s1 : state) :
  regs s EVENTS_USBEVENT <> 1 ->
  regs s EVENTS_EP0DATADONE <> 1 ->
  regs s EVENTS_EPDATA <= 0 ->
  (forall i, regs s (EVENTS_ENDEPOUT i) <= 0) ->
  on_EP0SETUP P s = Done (tt, s1) ->
  handleInterrupt P s = Done (tt, s1).
Proof.
  intros H1 H2 H3 H4 Hrun.
  pose proof (data_event_on_EP0SETUP s tt s1 Hrun) as Hk.
  unfold handleInterrupt, bind at 1. rewrite on_USBEVENT_idle by exact H1.
  unfold bind at 1, reg_get. apply Z.eqb_neq in H2. rewrite H2.
  unfold bind at 1. rewrite Hrun.
  unfold bind at 1. rewrite on_EPDATA_idle.
  - apply on_ENDEPOUT_idle. intros i. rewrite Hk by reflexivity. apply H4.
  - rewrite Hk by reflexivity. exact H3.
Qed.

End SetupFacts.

(** ** Control requests *)

(** A response of at most one packet on the control endpoint goes out whole
    and leaves no continuation behind. *)
Lemma sendUSBPacket_ep0_short (s : state) (data : list Z) :
  well_formed s ->
  (length data <= 64)%nat ->
  exists s',
    sendUSBPacket 0 data s = Done (tt, s') /\
    effects s' =
      effects s ++
      [TASKS_STARTEPIN 0 (Some (in_cache 0 0)) (Z.of_nat (length data)) data] /\
    sendOnEP0DATADONE s' = sendOnEP0DATADONE s /\
    same_globals s s' /\
    well_formed s'.
Proof.
  intros [Hin Hout] Hn.
  destruct (cache_shape_head _ Hin) as (b0 & rest & Hm & Hb0 & _ & _).
  destruct (sendUSBPacket_ep0 s data b0 rest Hm Hb0)
    as (s' & Hrun & Hin' & Heff & Hpend & Hsame).
  exists s'. split; [exact Hrun|].
  replace (64 <? Z.of_nat (length data)) with false in Hpend
    by (symmetry; apply Z.ltb_ge; lia).
  rewrite Z.min_r in Heff by lia. rewrite firstn_all2 in Heff by lia.
  split; [exact Heff|]. split; [exact Hpend|]. split; [exact Hsame|].
  split.
  - rewrite Hin'. rewrite Hm in Hin.
    apply (cache_shape_cons b0); [exact Hin | apply copy_length].
  - destruct Hsame as (Ho & _). rewrite Ho. exact Hout.
Qed.

Section Requests.

Variable P : platform.

(** The dispatch of a setup packet that the peripheral has latched. *)
Lemma on_EP0SETUP_hw_setup (p : usbSetup) (s : state) :
  valid_setup p ->
  on_EP0SETUP P (hw_setup p s) =
  (ok <-
     (if Z.land (bmRequestType p) usb_REQUEST_TYPE =? usb_REQUEST_STANDARD
      then handleStandardSetup P p
      else if wIndex p =? usb_CDC_ACM_INTERFACE P
      then cdcSetup p
      else ret false) ;;
   when (negb ok) (emit TASKS_EP0STALL))
    (hw EVENTS_EP0SETUP 0 (hw_setup p s)).
Proof.
  intros Hp. unfold on_EP0SETUP.
  unfold bind at 1. unfold reg_get at 1.
  change (regs (hw_setup p s) EVENTS_EP0SETUP) with 1.
  change (1 =? 1) with true. unfold when at 1.
  unfold bind at 1. unfold reg_set at 1, modify at 1.
  change (with_regs
            (fun r' => if reg_eqb EVENTS_EP0SETUP r' then 0
                       else regs (hw_setup p s) r') (hw_setup p s))
    with (hw EVENTS_EP0SETUP 0 (hw_setup p s)).
  unfold bind at 1. rewrite parse_hw_setup by exact Hp. reflexivity.
Qed.

(** The registers that the other blocks of the handler poll, in a state where
    nothing but a setup packet is pending. *)
Lemma hw_setup_quiet (p : usbSetup) (s : state) :
  quiet s ->
  let s0 := hw_setup p s in
  regs s0 EVENTS_USBEVENT <> 1 /\
  regs s0 EVENTS_EP0DATADONE <> 1 /\
  regs s0 EVENTS_EPDATA <= 0 /\
  (forall i, regs s0 (EVENTS_ENDEPOUT i) <= 0).
Proof.
  intros (H1 & H2 & H3 & H4 & H5). cbv zeta.
  unfold hw_setup, hw. fields.
  cbn [reg_eqb reg_code fst snd Z.eqb Pos.eqb andb].
  rewrite H1, H2, H4. repeat split; try lia.
  intros i. rewrite H5. lia.
Qed.

(** GET_STATUS: two bytes, the first one 1 when the request type is not zero
    and the halt flag is set. *)
Lemma GET_STATUS_response (p : usbSetup) (s : state) :
  well_formed s ->
  bRequest p = usb_GET_STATUS ->
  exists s',
    handleStandardSetup P p s = Done (true, s') /\
    ep0_packets (effects s') =
      ep0_packets (effects s) ++
      [[if negb (bmRequestType p =? 0) && isEndpointHalt s then 1 else 0; 0]].
Proof.
  intros Hwf Hreq. unfold handleStandardSetup. rewrite Hreq.
  change (usb_GET_STATUS =? usb_GET_STATUS) with true. cbv iota.
  unfold bind at 1, get at 1.
  set (buf := if negb (bmRequestType p =? 0) && isEndpointHalt s
              then [1; 0] else [0; 0]).
  assert (Hlen : length buf = 2%nat).
  { unfold buf. destruct (negb (bmRequestType p =? 0) && isEndpointHalt s);
      reflexivity. }
  destruct (sendUSBPacket_ep0_short s buf Hwf) as (s' & Hrun & Heff & _);
    [lia|].
  exists s'. unfold bind, ret. rewrite Hrun. split; [reflexivity|].
  rewrite Heff, ep0_packets_app. cbn [ep0_packets].
  change (0 =? 0) with true. cbv iota. unfold buf.
  destruct (negb (bmRequestType p =? 0) && isEndpointHalt s); reflexivity.
Qed.

End Requests.

(** C9, at the input where the driver departs from it.  From boot, the host
    sets the halt feature and then asks for the status of the device
    (request type 0x80) and of interface 0 (request type 0x81): both answers
    are [1; 0], bit 0 of the first byte taken from the endpoint-halt flag,
    where a device or an interface is to report 0 there. *)
Theorem C9_GET_STATUS_of_device_reports_endpoint_halt :
  let set_halt := {| bmRequestType := 0x02; bRequest := usb_SET_FEATURE;
                     wValueL := 0; wValueH := 0; wIndex := 0x83; wLength := 0 |} in
  let get_status recipient :=
    {| bmRequestType := Z.lor usb_REQUEST_DEVICETOHOST recipient;
       bRequest := usb_GET_STATUS;
       wValueL := 0; wValueH := 0; wIndex := 0; wLength := 2 |} in
  let halted :=
    exec (handleInterrupt example_platform) (hw_setup set_halt boot) in
  let answer recipient :=
    option_map (fun s => ep0_packets (effects s))
      (and_then (meanwhile halted (hw_setup (get_status recipient)))
         (handleInterrupt example_platform)) in
  option_map isEndpointHalt halted = Some true /\
  answer usb_REQUEST_DEVICE = Some [[1; 0]] /\
  answer usb_REQUEST_INTERFACE = Some [[1; 0]] /\
  answer usb_REQUEST_ENDPOINT = Some [[1; 0]].
Proof. repeat split; vm_compute; reflexivity. Qed.


(** C3, as the driver has it.  A GET_DESCRIPTOR request for the device
    descriptor is answered, when wLength is 8, with the first 8 bytes of a
    descriptor of its own, of class 0xEF, subclass 0x02 and protocol 0x01, and
    otherwise with all 18 bytes of the descriptor of class 0x02, subclass 0 and
    protocol 0.  The 8 bytes agree with the first 8 bytes of the full
    descriptor at offsets 0 to 3 and 7 and differ at offsets 4 to 6. *)
Theorem C3_device_descriptor_of_8_bytes
    (P : platform) (p : usbSetup) (s : state) :
  well_formed s ->
  bRequest p = usb_GET_DESCRIPTOR ->
  wValueH p = usb_DEVICE_DESCRIPTOR_TYPE ->
  exists s',
    handleStandardSetup P p s = Done (true, s') /\
    (wLength p = 8 ->
       ep0_packets (effects s') =
         ep0_packets (effects s) ++
         [firstn 8 (DeviceDescriptor_Bytes (composite_device_descriptor P))]) /\
    (wLength p <> 8 ->
       ep0_packets (effects s') =
         ep0_packets (effects s) ++
         [DeviceDescriptor_Bytes (complete_device_descriptor P)]) /\
    firstn 8 (DeviceDescriptor_Bytes (composite_device_descriptor P)) =
      [18; 1; 0x00; 0x02; 0xEF; 0x02; 0x01; 64] /\
    firstn 8 (DeviceDescriptor_Bytes (complete_device_descriptor P)) =
      [18; 1; 0x00; 0x02; 0x02; 0x00; 0x00; 64].
Proof.
  intros Hwf Hreq Htype. unfold handleStandardSetup. rewrite Hreq.
  cbn [Z.eqb Pos.eqb usb_GET_DESCRIPTOR usb_GET_STATUS usb_CLEAR_FEATURE
       usb_SET_FEATURE usb_SET_ADDRESS].
  unfold sendDescriptor. rewrite Htype.
  cbn [Z.eqb Pos.eqb usb_DEVICE_DESCRIPTOR_TYPE
       usb_CONFIGURATION_DESCRIPTOR_TYPE].
  fold (composite_device_descriptor P). fold (complete_device_descriptor P).
  destruct (wLength p =? 8) eqn:E;
    [apply Z.eqb_eq in E | apply Z.eqb_neq in E].
  - destruct (sendUSBPacket_ep0_short s
                (firstn 8 (DeviceDescriptor_Bytes (composite_device_descriptor P)))
                Hwf) as (s' & Hrun & Heff & _); [cbn; lia|].
    exists s'. split.
    + unfold bind. change (slice_to _ 8 s) with
        (Done (firstn 8 (DeviceDescriptor_Bytes (composite_device_descriptor P)), s)).
      cbv iota. rewrite Hrun. reflexivity.
    + repeat split; try reflexivity; try contradiction.
      intros _. rewrite Heff, ep0_packets_app. reflexivity.
  - destruct (sendUSBPacket_ep0_short s
                (DeviceDescriptor_Bytes (complete_device_descriptor P))
                Hwf) as (s' & Hrun & Heff & _); [cbn; lia|].
    exists s'. split.
    + unfold bind. rewrite Hrun. reflexivity.
    + repeat split; try reflexivity; try contradiction.
      intros _. rewrite Heff, ep0_packets_app. reflexivity.
Qed.

Lemma C3_device_descriptor_of_8_bytes_witness :
  exists s',
    handleStandardSetup example_platform
      {| bmRequestType := 0x80; bRequest := usb_GET_DESCRIPTOR;
         wValueL := 0; wValueH := usb_DEVICE_DESCRIPTOR_TYPE;
         wIndex := 0; wLength := 8 |} boot = Done (true, s') /\
    ep0_packets (effects s') = [[18; 1; 0x00; 0x02; 0xEF; 0x02; 0x01; 64]].
Proof.
  destruct (C3_device_descriptor_of_8_bytes example_platform
              {| bmRequestType := 0x80; bRequest := usb_GET_DESCRIPTOR;
                 wValueL := 0; wValueH := usb_DEVICE_DESCRIPTOR_TYPE;
                 wIndex := 0; wLength := 8 |} boot well_formed_boot
              eq_refl eq_refl) as (s' & Hrun & Hshort & _).
  exists s'. split; [exact Hrun|]. exact (Hshort eq_refl).
Defined.

(** C3 as stated fails: from boot, the answer to GET_DESCRIPTOR(device) with
    wLength 8 is not the first 8 bytes of the answer with wLength 18. *)
Lemma C3_counterexample :
  let get_descriptor len :=
    {| bmRequestType := 0x80; bRequest := usb_GET_DESCRIPTOR;
       wValueL := 0; wValueH := usb_DEVICE_DESCRIPTOR_TYPE;
       wIndex := 0; wLength := len |} in
  let answer len :=
    option_map (fun s => concat (ep0_packets (effects s)))
      (exec (handleInterrupt example_platform)
         (hw_setup (get_descriptor len) boot)) in
  answer 8 = Some [18; 1; 0x00; 0x02; 0xEF; 0x02; 0x01; 64] /\
  option_map (firstn 8) (answer 18) =
    Some [18; 1; 0x00; 0x02; 0x02; 0x00; 0x00; 64] /\
  answer 8 <> option_map (firstn 8) (answer 18).
Proof.
  repeat split; try (vm_compute; reflexivity). vm_compute. discriminate.
Qed.


Lemma not_in_eqb (x : Z) (l : list Z) (y : Z) :
  ~ In x l -> In y l -> (x =? y) = false.
Proof. intros Hx Hy. apply Z.eqb_neq. intros ->. contradiction. Qed.

Ltac not_standard H :=
  rewrite ?(not_in_eqb _ _ usb_GET_STATUS H),
    ?(not_in_eqb _ _ usb_CLEAR_FEATURE H),
    ?(not_in_eqb _ _ usb_SET_FEATURE H),
    ?(not_in_eqb _ _ usb_SET_ADDRESS H),
    ?(not_in_eqb _ _ usb_GET_DESCRIPTOR H),
    ?(not_in_eqb _ _ usb_SET_DESCRIPTOR H),
    ?(not_in_eqb _ _ usb_GET_CONFIGURATION H),
    ?(not_in_eqb _ _ usb_SET_CONFIGURATION H),
    ?(not_in_eqb _ _ usb_GET_INTERFACE H),
    ?(not_in_eqb _ _ usb_SET_INTERFACE H),
    ?(not_in_eqb _ _ usb_CDC_SET_LINE_CODING H),
    ?(not_in_eqb _ _ usb_CDC_SET_CONTROL_LINE_STATE H),
    ?(not_in_eqb _ _ usb_CDC_SEND_BREAK H)
    by (cbv; tauto).

(** C4, as the driver has it.  Of the setup packets that no case matches,
    these end in a stall of endpoint 0: the standard requests SET_DESCRIPTOR
    and SET_CONFIGURATION for a recipient other than the device, and the
    requests that are not standard and are either addressed to another
    interface than the CDC one, or of a request type that is neither of the two
    class-interface types, or device-to-host class requests other than
    GET_LINE_CODING.  A standard request with a code outside the handled set,
    and a host-to-device class request to the CDC interface with a code that is
    not tested for, are accepted without any effect: no stall, no status stage,
    no data.  In every case the handler returns. *)
Theorem C4_unmatched_requests (P : platform) (p : usbSetup) (s : state) :
  quiet s ->
  valid_setup p ->
  let standard :=
    Z.land (bmRequestType p) usb_REQUEST_TYPE = usb_REQUEST_STANDARD in
  let stalled :=
    exists s', handleInterrupt P (hw_setup p s) = Done (tt, s') /\
               effects s' = effects s ++ [TASKS_EP0STALL] in
  let ignored :=
    exists s', handleInterrupt P (hw_setup p s) = Done (tt, s') /\
               effects s' = effects s in
  (standard -> bRequest p = usb_SET_DESCRIPTOR -> stalled) /\
  (standard -> bRequest p = usb_SET_CONFIGURATION ->
   Z.land (bmRequestType p) usb_REQUEST_RECIPIENT <> usb_REQUEST_DEVICE ->
   stalled) /\
  (standard -> ~ In (bRequest p) standard_requests -> ignored) /\
  (~ standard -> wIndex p <> usb_CDC_ACM_INTERFACE P -> stalled) /\
  (~ standard ->
   bmRequestType p <> usb_REQUEST_DEVICETOHOST_CLASS_INTERFACE ->
   bmRequestType p <> usb_REQUEST_HOSTTODEVICE_CLASS_INTERFACE -> stalled) /\
  (bmRequestType p = usb_REQUEST_DEVICETOHOST_CLASS_INTERFACE ->
   bRequest p <> usb_CDC_GET_LINE_CODING -> stalled) /\
  (bmRequestType p = usb_REQUEST_HOSTTODEVICE_CLASS_INTERFACE ->
   wIndex p = usb_CDC_ACM_INTERFACE P ->
   ~ In (bRequest p) class_out_requests -> ignored).
Proof.
  intros Hq Hp. cbv zeta.
  destruct (hw_setup_quiet p s Hq) as (H1 & H2 & H3 & H4).
  assert (Hrun : forall s1,
            on_EP0SETUP P (hw_setup p s) = Done (tt, s1) ->
            handleInterrupt P (hw_setup p s) = Done (tt, s1)).
  { intros s1. apply handleInterrupt_setup_only; assumption. }
  rewrite on_EP0SETUP_hw_setup in Hrun by exact Hp.
  repeat split.
  - intros Hstd Hreq. eexists. split.
    + apply Hrun. apply Z.eqb_eq in Hstd. rewrite Hstd.
      unfold handleStandardSetup. rewrite Hreq. reflexivity.
    + reflexivity.
  - intros Hstd Hreq Hrec. eexists. split.
    + apply Hrun. apply Z.eqb_eq in Hstd. rewrite Hstd.
      unfold handleStandardSetup. rewrite Hreq.
      cbn [Z.eqb Pos.eqb usb_SET_CONFIGURATION usb_GET_STATUS usb_CLEAR_FEATURE
           usb_SET_FEATURE usb_SET_ADDRESS usb_GET_DESCRIPTOR usb_SET_DESCRIPTOR
           usb_GET_CONFIGURATION].
      apply Z.eqb_neq in Hrec. rewrite Hrec. reflexivity.
    + reflexivity.
  - intros Hstd Hreq. eexists. split.
    + apply Hrun. apply Z.eqb_eq in Hstd. rewrite Hstd.
      unfold handleStandardSetup. not_standard Hreq. reflexivity.
    + reflexivity.
  - intros Hstd Hidx. eexists. split.
    + apply Hrun. apply Z.eqb_neq in Hstd. rewrite Hstd.
      apply Z.eqb_neq in Hidx. rewrite Hidx. reflexivity.
    + reflexivity.
  - intros Hstd Hin Hout. eexists. split.
    + apply Hrun. apply Z.eqb_neq in Hstd. rewrite Hstd.
      unfold cdcSetup.
      apply Z.eqb_neq in Hin. apply Z.eqb_neq in Hout. rewrite Hin, Hout.
      destruct (wIndex p =? usb_CDC_ACM_INTERFACE P); reflexivity.
    + reflexivity.
  - intros Hin Hreq. eexists. split.
    + apply Hrun. rewrite Hin.
      change (Z.land usb_REQUEST_DEVICETOHOST_CLASS_INTERFACE usb_REQUEST_TYPE
              =? usb_REQUEST_STANDARD) with false. cbv iota.
      unfold cdcSetup. rewrite Hin.
      apply Z.eqb_neq in Hreq. rewrite Hreq.
      destruct (wIndex p =? usb_CDC_ACM_INTERFACE P); reflexivity.
    + reflexivity.
  - intros Hout Hidx Hreq. eexists. split.
    + apply Hrun. rewrite Hout.
      change (Z.land usb_REQUEST_HOSTTODEVICE_CLASS_INTERFACE usb_REQUEST_TYPE
              =? usb_REQUEST_STANDARD) with false. cbv iota.
      apply Z.eqb_eq in Hidx. rewrite Hidx.
      unfold cdcSetup. rewrite Hout. not_standard Hreq. reflexivity.
    + reflexivity.
Qed.

Lemma quiet_boot : quiet boot.
Proof. repeat split. Qed.

Lemma C4_unmatched_requests_witness :
  exists s',
    handleInterrupt example_platform
      (hw_setup {| bmRequestType := 0x00; bRequest := usb_SET_DESCRIPTOR;
                   wValueL := 0; wValueH := 1; wIndex := 0; wLength := 18 |}
         boot) = Done (tt, s') /\
    effects s' = [TASKS_EP0STALL].
Proof.
  refine (proj1 (C4_unmatched_requests example_platform
                   {| bmRequestType := 0x00; bRequest := usb_SET_DESCRIPTOR;
                      wValueL := 0; wValueH := 1; wIndex := 0; wLength := 18 |}
                   boot quiet_boot _) eq_refl eq_refl).
  vm_compute. repeat split; first [reflexivity | discriminate].
Defined.

(** C4 as stated fails: SYNCH_FRAME, a standard request that the driver has
    no case for, and a host-to-device class request to the CDC interface with
    the unassigned code 0x7F are both accepted; the handler returns success
    and endpoint 0 is not stalled. *)
Lemma C4_counterexample :
  let synch_frame := {| bmRequestType := 0x82; bRequest := 12;
                        wValueL := 0; wValueH := 0; wIndex := 0x83;
                        wLength := 2 |} in
  let unknown_class := {| bmRequestType := 0x21; bRequest := 0x7F;
                          wValueL := 0; wValueH := 0; wIndex := 0;
                          wLength := 0 |} in
  let outcome p :=
    option_map effects
      (exec (handleInterrupt example_platform) (hw_setup p boot)) in
  (exists s', handleStandardSetup example_platform synch_frame boot =
              Done (true, s')) /\
  outcome synch_frame = Some [] /\
  (exists s', cdcSetup unknown_class boot = Done (true, s')) /\
  outcome unknown_class = Some [].
Proof.
  repeat split; try (vm_compute; reflexivity);
    eexists; vm_compute; reflexivity.
Qed.

(** ** Line coding *)

Lemma testbit_byte_high (b n : Z) :
  is_byte b -> 8 <= n -> Z.testbit b n = false.
Proof.
  intros Hb Hn. rewrite <- (Z.mod_small b (2 ^ 8)) by exact Hb.
  apply Z.mod_pow2_bits_high. lia.
Qed.

Lemma shl32_byte (b k : Z) :
  is_byte b -> 0 <= k <= 24 -> shl32 b k = Z.shiftl b k.
Proof.
  intros Hb Hk. unfold shl32. apply uint32_small.
  rewrite Z.shiftl_mul_pow2 by lia. unfold is_byte in Hb.
  assert (0 < 2 ^ k <= 2 ^ 24).
  { split; [apply Z.pow_pos_nonneg; lia|].
    apply Z.pow_le_mono_r; lia. }
  nia.
Qed.

(** The bits of the little-endian word of four bytes. *)
Lemma testbit_le32 (b0 b1 b2 b3 m : Z) :
  is_byte b0 -> is_byte b1 -> is_byte b2 -> is_byte b3 -> 0 <= m ->
  Z.testbit
    (Z.lor (Z.lor (Z.lor b0 (shl32 b1 8)) (shl32 b2 16)) (shl32 b3 24)) m =
  if m <? 8 then Z.testbit b0 m
  else if m <? 16 then Z.testbit b1 (m - 8)
  else if m <? 24 then Z.testbit b2 (m - 16)
  else Z.testbit b3 (m - 24).
Proof.
  intros H0 H1 H2 H3 Hm.
  rewrite !shl32_byte by (assumption || lia).
  rewrite !Z.lor_spec, !Z.shiftl_spec by exact Hm.
  destruct (m <? 8) eqn:E8; [apply Z.ltb_lt in E8 | apply Z.ltb_ge in E8].
  { rewrite !(Z.testbit_neg_r _ (m - _)) by lia.
    rewrite !Bool.orb_false_r. reflexivity. }
  rewrite (testbit_byte_high b0 m) by (assumption || lia).
  destruct (m <? 16) eqn:E16; [apply Z.ltb_lt in E16 | apply Z.ltb_ge in E16].
  { rewrite (Z.testbit_neg_r _ (m - 16)), (Z.testbit_neg_r _ (m - 24)) by lia.
    rewrite !Bool.orb_false_r. reflexivity. }
  rewrite (testbit_byte_high b1 (m - 8)) by (assumption || lia).
  destruct (m <? 24) eqn:E24; [apply Z.ltb_lt in E24 | apply Z.ltb_ge in E24].
  { rewrite (Z.testbit_neg_r _ (m - 24)) by lia.
    rewrite !Bool.orb_false_r. reflexivity. }
  rewrite (testbit_byte_high b2 (m - 16)) by (assumption || lia).
  reflexivity.
Qed.

Lemma uint8_testbit (x n : Z) :
  0 <= n -> Z.testbit (uint8 x) n = if n <? 8 then Z.testbit x n else false.
Proof.
  intros Hn. unfold uint8.
  destruct (n <? 8) eqn:E; [apply Z.ltb_lt in E | apply Z.ltb_ge in E].
  - apply Z.mod_pow2_bits_low. lia.
  - apply Z.mod_pow2_bits_high. lia.
Qed.

(** The encoding of GET_LINE_CODING undoes the parsing of SET_LINE_CODING. *)
Lemma lineCodingBytes_parse (b0 b1 b2 b3 b4 b5 b6 ls : Z) :
  Forall is_byte [b0; b1; b2; b3; b4; b5; b6] ->
  lineCodingBytes
    {| dwDTERate :=
         Z.lor (Z.lor (Z.lor b0 (shl32 b1 8)) (shl32 b2 16)) (shl32 b3 24);
       bCharFormat := b4; bParityType := b5; bDataBits := b6;
       lineState := ls |} =
  [b0; b1; b2; b3; b4; b5; b6].
Proof.
  intros Hb.
  repeat match goal with
         | H : Forall _ (_ :: _) |- _ => inversion H; subst; clear H
         end.
  unfold lineCodingBytes. cbn [dwDTERate bCharFormat bParityType bDataBits].
  rewrite (uint8_small b4), (uint8_small b5), (uint8_small b6) by assumption.
  repeat f_equal.
  - apply Z.bits_inj'. intros n Hn.
    rewrite uint8_testbit, testbit_le32 by (assumption || lia).
    destruct (n <? 8) eqn:E; [reflexivity|].
    apply Z.ltb_ge in E. symmetry. apply testbit_byte_high; assumption.
  - apply Z.bits_inj'. intros n Hn.
    rewrite uint8_testbit, Z.shiftr_spec, testbit_le32 by (assumption || lia).
    destruct (n <? 8) eqn:E; [apply Z.ltb_lt in E | apply Z.ltb_ge in E].
    + replace (n + 8 <? 8) with false by (symmetry; apply Z.ltb_ge; lia).
      replace (n + 8 <? 16) with true by (symmetry; apply Z.ltb_lt; lia).
      f_equal. lia.
    + symmetry. apply testbit_byte_high; assumption.
  - apply Z.bits_inj'. intros n Hn.
    rewrite uint8_testbit, Z.shiftr_spec, testbit_le32 by (assumption || lia).
    destruct (n <? 8) eqn:E; [apply Z.ltb_lt in E | apply Z.ltb_ge in E].
    + replace (n + 16 <? 8) with false by (symmetry; apply Z.ltb_ge; lia).
      replace (n + 16 <? 16) with false by (symmetry; apply Z.ltb_ge; lia).
      replace (n + 16 <? 24) with true by (symmetry; apply Z.ltb_lt; lia).
      f_equal. lia.
    + symmetry. apply testbit_byte_high; assumption.
  - apply Z.bits_inj'. intros n Hn.
    rewrite uint8_testbit, Z.shiftr_spec, testbit_le32 by (assumption || lia).
    destruct (n <? 8) eqn:E; [apply Z.ltb_lt in E | apply Z.ltb_ge in E].
    + replace (n + 24 <? 8) with false by (symmetry; apply Z.ltb_ge; lia).
      replace (n + 24 <? 16) with false by (symmetry; apply Z.ltb_ge; lia).
      replace (n + 24 <? 24) with false by (symmetry; apply Z.ltb_ge; lia).
      f_equal. lia.
    + symmetry. apply testbit_byte_high; assumption.
Qed.

(** C7.  In an interrupt for the end of the OUT transfer on endpoint 0, with
    the data phase of SET_LINE_CODING pending and a received size below 7, the
    line coding keeps every field, the data phase is over, the status stage is
    entered and nothing else happens: no stall, no call of the reset hook. *)
Theorem C7_short_line_coding_is_ignored (P : platform) (s : state) :
  regs s EVENTS_USBEVENT <> 1 ->
  regs s EVENTS_EP0DATADONE <> 1 ->
  regs s EVENTS_EP0SETUP <> 1 ->
  regs s EVENTS_EPDATA <= 0 ->
  0 < regs s (EVENTS_ENDEPOUT 0) ->
  (forall i, i <> 0 -> regs s (EVENTS_ENDEPOUT i) <= 0) ->
  epout0data_setlinecoding s = true ->
  int32 (regs s (SIZE_EPOUT 0)) < 7 ->
  exists s',
    handleInterrupt P s = Done (tt, s') /\
    usbLineInfo s' = usbLineInfo s /\
    effects s' = effects s ++ [TASKS_EP0STATUS] /\
    epout0data_setlinecoding s' = false.
Proof.
  intros H1 H2 H3 H4 H5 H6 Hflag Hsize. open_state s. subst slc.
  apply Z.eqb_neq in H1. apply Z.eqb_neq in H2. apply Z.eqb_neq in H3.
  apply Z.ltb_ge in H4. apply Z.ltb_lt in H5.
  assert (Hsize' : (7 <=? int32 (rg (SIZE_EPOUT 0))) = false)
    by (apply Z.leb_gt; exact Hsize).
  assert (E1 : (0 <? rg (EVENTS_ENDEPOUT 1)) = false)
    by (apply Z.ltb_ge, H6; discriminate).
  assert (E2 : (0 <? rg (EVENTS_ENDEPOUT 2)) = false)
    by (apply Z.ltb_ge, H6; discriminate).
  assert (E3 : (0 <? rg (EVENTS_ENDEPOUT 3)) = false)
    by (apply Z.ltb_ge, H6; discriminate).
  unfold handleInterrupt, on_USBEVENT, on_EP0SETUP, on_EPDATA, on_ENDEPOUT,
    exitCriticalSection.
  cbn [endPoints length upto for_each Z.add Pos.add Pos.succ]. run.
  rewrite H1, H2, H3, H4, H5. cbv iota.
  repeat progress
    (cbn [reg_eqb reg_code fst snd Z.eqb Pos.eqb andb usb_CDC_ENDPOINT_OUT];
     rewrite ?Hsize', ?E1, ?E2, ?E3; cbv iota).
  eexists. split; [reflexivity|]. repeat split.
Qed.

Lemma C7_short_line_coding_is_ignored_witness :
  let s := hw_ep0_out [0x80; 0x25; 0; 0; 1; 0]
             (with_epout0data_setlinecoding true boot) in
  exists s',
    handleInterrupt example_platform s = Done (tt, s') /\
    usbLineInfo s' = usbLineInfo boot.
Proof.
  destruct (C7_short_line_coding_is_ignored example_platform
              (hw_ep0_out [0x80; 0x25; 0; 0; 1; 0]
                 (with_epout0data_setlinecoding true boot)))
    as (s' & Hrun & Hli & _).
  - discriminate.
  - discriminate.
  - discriminate.
  - discriminate.
  - reflexivity.
  - intros i Hi. destruct i; [contradiction | discriminate | discriminate].
  - reflexivity.
  - reflexivity.
  - exists s'. split; [exact Hrun | exact Hli].
Defined.


(** An interrupt for nothing but the end of OUT transfers. *)
Lemma handleInterrupt_ENDEPOUT_only (P : platform) (s : state) :
  regs s EVENTS_USBEVENT <> 1 ->
  regs s EVENTS_EP0DATADONE <> 1 ->
  regs s EVENTS_EP0SETUP <> 1 ->
  regs s EVENTS_EPDATA <= 0 ->
  handleInterrupt P s = on_ENDEPOUT s.
Proof.
  intros H1 H2 H3 H4.
  unfold handleInterrupt, bind at 1. rewrite on_USBEVENT_idle by exact H1.
  unfold bind at 1, reg_get. apply Z.eqb_neq in H2. rewrite H2.
  unfold bind at 1. rewrite on_EP0SETUP_idle by exact H3.
  unfold bind at 1. rewrite on_EPDATA_idle by exact H4. reflexivity.
Qed.

(** The data phase of SET_LINE_CODING with a payload of seven bytes. *)
Lemma line_coding_data_phase
    (P : platform) (s : state) (b0 b1 b2 b3 b4 b5 b6 : Z) :
  well_formed s ->
  quiet s ->
  epout0data_setlinecoding s = true ->
  exists s1,
    handleInterrupt P (hw_ep0_out [b0; b1; b2; b3; b4; b5; b6] s) =
      Done (tt, s1) /\
    usbLineInfo s1 =
      {| dwDTERate :=
           Z.lor (Z.lor (Z.lor b0 (shl32 b1 8)) (shl32 b2 16)) (shl32 b3 24);
         bCharFormat := b4; bParityType := b5; bDataBits := b6;
         lineState := lineState (usbLineInfo s) |} /\
    effects s1 = effects s ++ [call_checkShouldReset; TASKS_EP0STATUS] /\
    epout0data_setlinecoding s1 = false /\
    well_formed s1 /\
    quiet s1.
Proof.
  intros [Hin Hout] (H1 & H2 & H3 & H4 & H5) Hflag.
  destruct (cache_shape_head _ Hout) as (o0 & orest & Ho & Ho0 & _ & _).
  open_state s. subst slc oc.
  assert (Hshape : cache_shape (copy o0 [b0; b1; b2; b3; b4; b5; b6] :: orest)).
  { apply (cache_shape_cons o0); [exact Hout | apply copy_length]. }
  rewrite handleInterrupt_ENDEPOUT_only
    by (unfold hw_ep0_out; run; cbn [reg_eqb reg_code fst snd Z.eqb Pos.eqb andb];
        lia).
  unfold on_ENDEPOUT, exitCriticalSection, hw_ep0_out, checkShouldReset,
    out_cache_buffer, slice_to.
  cbn [endPoints length upto for_each Z.add Pos.add Pos.succ].
  change (Z.of_nat 7) with 7. change (Z.to_nat 0) with 0%nat.
  repeat progress
    (run; numerals; change (int32 7) with 7;
     rewrite ?H5, ?nth_upd_0, ?copy_length, ?Ho0; cbn [nth_error];
     change (Z.of_nat 128) with 128).
  unfold copy at 1. rewrite Ho0. change (Z.to_nat 7) with 7%nat.
  cbn [firstn app length parseUSBLineInfo].
  repeat progress (run; numerals; rewrite ?H5).
  eexists. split; [reflexivity|]. unfold well_formed, quiet. run.
  split; [reflexivity|]. split; [rewrite <- app_assoc; reflexivity|].
  split; [reflexivity|]. split; [split; [exact Hin | exact Hshape]|].
  numerals. repeat split; try assumption.
  intros i.
  repeat match goal with
         | |- context [if ?c then _ else _] => destruct c
         | |- context [match ?c with _ => _ end] => destruct c
         end; first [reflexivity | apply H5].
Qed.

(** C6.  Once the data phase of SET_LINE_CODING has delivered seven bytes,
    GET_LINE_CODING sends exactly these seven bytes: the encoding in
    [cdcSetup] is the inverse of [parseUSBLineInfo].  For 9600 baud, one stop
    bit, no parity and 8 data bits they are 0x80 0x25 0 0, 1, 0, 8. *)
Theorem C6_line_coding_round_trip
    (P : platform) (s : state) (b0 b1 b2 b3 b4 b5 b6 : Z) :
  well_formed s ->
  quiet s ->
  epout0data_setlinecoding s = true ->
  Forall is_byte [b0; b1; b2; b3; b4; b5; b6] ->
  0 <= usb_CDC_ACM_INTERFACE P < 2 ^ 16 ->
  let b := [b0; b1; b2; b3; b4; b5; b6] in
  (exists s1 s2,
     handleInterrupt P (hw_ep0_out b s) = Done (tt, s1) /\
     lineCodingBytes (usbLineInfo s1) = b /\
     handleInterrupt P (hw_setup (get_line_coding P) s1) = Done (tt, s2) /\
     ep0_packets (effects s2) = ep0_packets (effects s) ++ [b]) /\
  (b = [0x80; 0x25; 0; 0; 1; 0; 8] ->
   exists s1,
     handleInterrupt P (hw_ep0_out b s) = Done (tt, s1) /\
     dwDTERate (usbLineInfo s1) = 9600 /\
     bCharFormat (usbLineInfo s1) = 1 /\
     bParityType (usbLineInfo s1) = 0 /\
     bDataBits (usbLineInfo s1) = 8).
Proof.
  intros Hwf Hq Hflag Hb Hacm b.
  destruct (line_coding_data_phase P s b0 b1 b2 b3 b4 b5 b6 Hwf Hq Hflag)
    as (s1 & Hrun1 & Hli & Heff1 & _ & Hwf1 & Hq1).
  assert (Hbytes : lineCodingBytes (usbLineInfo s1) = b).
  { rewrite Hli. apply lineCodingBytes_parse. exact Hb. }
  split.
  - exists s1.
    assert (Hp : valid_setup (get_line_coding P)).
    { unfold valid_setup, is_byte, get_line_coding.
      cbn [bmRequestType bRequest wValueL wValueH wIndex wLength].
      unfold usb_REQUEST_DEVICETOHOST_CLASS_INTERFACE, usb_CDC_GET_LINE_CODING.
      lia. }
    destruct (hw_setup_quiet (get_line_coding P) s1 Hq1) as (H1 & H2 & H3 & H4).
    set (s0 := hw EVENTS_EP0SETUP 0 (hw_setup (get_line_coding P) s1)).
    assert (Hwf0 : well_formed s0) by exact Hwf1.
    destruct (sendUSBPacket_ep0_short s0 b Hwf0) as (s2 & Hrun2 & Heff2 & _);
      [cbn; lia|].
    exists s2. split; [exact Hrun1|]. split; [exact Hbytes|]. split.
    + apply handleInterrupt_setup_only; try assumption.
      rewrite on_EP0SETUP_hw_setup by exact Hp. fold s0.
      cbn [get_line_coding bmRequestType wIndex].
      change (Z.land usb_REQUEST_DEVICETOHOST_CLASS_INTERFACE usb_REQUEST_TYPE
              =? usb_REQUEST_STANDARD) with false. cbv iota.
      rewrite Z.eqb_refl. unfold cdcSetup.
      cbn [get_line_coding bmRequestType bRequest].
      rewrite !Z.eqb_refl. cbn [andb].
      unfold bind at 1. unfold bind at 1. unfold get at 1.
      change (usbLineInfo s0) with (usbLineInfo s1). rewrite Hbytes.
      unfold bind at 1. rewrite Hrun2. reflexivity.
    + rewrite Heff2. change (effects s0) with (effects s1). rewrite Heff1.
      rewrite !ep0_packets_app. cbn [ep0_packets app].
      change (0 =? 0) with true. cbv iota. rewrite app_nil_r. reflexivity.
  - intros Hb9600. exists s1. split; [exact Hrun1|].
    rewrite Hli. unfold b in Hb9600. inversion Hb9600; subst.
    repeat split.
Qed.

Lemma C6_line_coding_round_trip_witness :
  let b := [0x80; 0x25; 0; 0; 1; 0; 8] in
  exists s1 s2,
    handleInterrupt example_platform
      (hw_ep0_out b (with_epout0data_setlinecoding true boot)) =
      Done (tt, s1) /\
    handleInterrupt example_platform
      (hw_setup (get_line_coding example_platform) s1) = Done (tt, s2) /\
    ep0_packets (effects s2) = [b].
Proof.
  destruct (C6_line_coding_round_trip example_platform
              (with_epout0data_setlinecoding true boot)
              0x80 0x25 0 0 1 0 8) as [(s1 & s2 & H1 & _ & H2 & H3) _].
  - split; exact cache_shape_boot.
  - repeat split.
  - reflexivity.
  - repeat constructor; discriminate.
  - split; [discriminate | reflexivity].
  - exists s1, s2. split; [exact H1|]. split; [exact H2 | exact H3].
Defined.

(** The same exchange from boot, the setup packets and the events in the
    order of a control transfer: SET_LINE_CODING, its data, the status stage
    and GET_LINE_CODING. *)
Lemma line_coding_9600_from_boot :
  let set_line_coding :=
    {| bmRequestType := usb_REQUEST_HOSTTODEVICE_CLASS_INTERFACE;
       bRequest := usb_CDC_SET_LINE_CODING;
       wValueL := 0; wValueH := 0; wIndex := 0; wLength := 7 |} in
  let irq := handleInterrupt example_platform in
  let s1 := exec irq (hw_setup set_line_coding boot) in
  let s2 := and_then (meanwhile s1 (hw EVENTS_EP0DATADONE 1)) irq in
  let s3 :=
    and_then (meanwhile s2 (hw_ep0_out [0x80; 0x25; 0; 0; 1; 0; 8])) irq in
  let s4 :=
    and_then (meanwhile s3 (hw_setup (get_line_coding example_platform)))
      irq in
  option_map usbLineInfo s3 =
    Some {| dwDTERate := 9600; bCharFormat := 1; bParityType := 0;
            bDataBits := 8; lineState := 0 |} /\
  option_map (fun s => ep0_packets (effects s)) s4 =
    Some [[0x80; 0x25; 0; 0; 1; 0; 8]].
Proof. split; vm_compute; reflexivity. Qed.

(** ** The serial interface *)

Lemma cache_shape_rows (m : list (list Z)) :
  cache_shape m ->
  exists r0 r1 r2 r3 r4 r5 r6,
    m = [r0; r1; r2; r3; r4; r5; r6] /\
    length r0 = 128%nat /\ length r1 = 128%nat /\ length r2 = 128%nat /\
    length r3 = 128%nat.
Proof.
  intros [Hlen Hall]. change (Z.to_nat cache_buffers) with 7%nat in Hlen.
  do 7 (destruct m as [|? m]; [discriminate|]).
  destruct m; [|discriminate].
  repeat match goal with
         | H : Forall _ (_ :: _) |- _ => inversion H; subst; clear H
         end.
  do 7 eexists. split; [reflexivity|]. repeat split; assumption.
Qed.

(** C5, as the driver has it.  [WriteByte] tests [lineState > 0].  With a
    line state of 0 it starts no DMA, changes nothing and returns nil.  With a
    line state above 0, which a set DTR bit implies, and the busy flag clear,
    it sets the flag, starts exactly one IN transfer, of that one byte on the
    bulk IN endpoint, and returns nil.  With the busy flag set it waits in
    [enterCriticalSection] for an interrupt to clear the flag. *)
Theorem C5_WriteByte_transmits_when_line_open (s : state) (c : Z) :
  well_formed s ->
  let open := lineState (usbLineInfo s) in
  (open <= 0 -> WriteByte c s = Done (None, s)) /\
  (0 < open -> HasBits (easyDMABusy s) 1 = false ->
   exists s',
     WriteByte c s = Done (None, s') /\
     effects s' =
       effects s ++
       [TASKS_STARTEPIN usb_CDC_ENDPOINT_IN
          (Some (in_cache usb_CDC_ENDPOINT_IN 0)) 1 [c]] /\
     HasBits (easyDMABusy s') 1 = true) /\
  (0 < open -> HasBits (easyDMABusy s) 1 = true -> WriteByte c s = Spin) /\
  (0 <= open -> 0 < Z.land open usb_CDC_LINESTATE_DTR -> 0 < open).
Proof.
  intros [Hin _]. cbv zeta.
  destruct (cache_shape_rows _ Hin)
    as (r0 & r1 & r2 & r3 & r4 & r5 & r6 & Hm & L0 & L1 & L2 & L3).
  open_state s. subst ic.
  unfold WriteByte, enterCriticalSection, waitForEasyDMA, in_cache_buffer,
    sendViaEPIn, check_ep, start_EPIN, dma_read.
  change usb_CDC_ENDPOINT_IN with 3.
  change ((0 <=? 3) && (3 <? cache_buffers)) with true.
  change ((0 <=? 3) && (3 <? 8)) with true.
  change (Z.to_nat 3) with 3%nat.
  change (Z.to_nat (cache_buffer_size * 3 + 0)) with 384%nat.
  repeat split.
  - intros Hls. apply Z.ltb_ge in Hls. run. rewrite Hls. reflexivity.
  - intros Hls Hbusy. apply Z.ltb_lt in Hls. run. rewrite Hls, Hbusy.
    repeat progress (run; numerals; cbn [nth_error]).
    eexists. split; [reflexivity|]. run. split; [|apply HasBits_SetBits].
    do 3 f_equal. change (uint32 1) with 1.
    destruct r3 as [|x r3]; [discriminate|].
    unfold nth_upd. change (Z.to_nat 3) with 3%nat.
    set (window := Z.to_nat 1).
    set (offset := Z.to_nat (cache_buffer_size * 3 + 0)).
    cbn [nth_error firstn skipn app]. cbn [concat].
    subst window offset.
    change (Z.to_nat (cache_buffer_size * 3 + 0)) with (128 + 128 + 128)%nat.
    rewrite <- !skipn_skipn.
    rewrite (skipn_app 128 r0), L0, Nat.sub_diag, skipn_O.
    rewrite (skipn_all2 (n := 128) r0) by lia.
    cbn [app].
    rewrite (skipn_app 128 r1), L1, Nat.sub_diag, skipn_O.
    rewrite (skipn_all2 (n := 128) r1) by lia.
    cbn [app].
    rewrite (skipn_app 128 r2), L2, Nat.sub_diag, skipn_O.
    rewrite (skipn_all2 (n := 128) r2) by lia.
    reflexivity.
  - intros Hls Hbusy. apply Z.ltb_lt in Hls. run. rewrite Hls, Hbusy.
    reflexivity.
  - intros Hnn Hdtr. destruct (Z.eq_dec (lineState li) 0) as [E|E]; [|lia].
    rewrite E in Hdtr. cbn in Hdtr. lia.
Qed.

Lemma C5_WriteByte_transmits_when_line_open_witness :
  let s := with_usbLineInfo
             {| dwDTERate := 115200; bCharFormat := 0; bParityType := 0;
                bDataBits := 8; lineState := usb_CDC_LINESTATE_DTR |} boot in
  exists s',
    WriteByte 0x41 s = Done (None, s') /\
    in_transfers (effects s') = [(usb_CDC_ENDPOINT_IN, [0x41])].
Proof.
  destruct (C5_WriteByte_transmits_when_line_open
              (with_usbLineInfo
                 {| dwDTERate := 115200; bCharFormat := 0; bParityType := 0;
                    bDataBits := 8; lineState := usb_CDC_LINESTATE_DTR |} boot)
              0x41 well_formed_boot) as (_ & Hopen & _).
  destruct Hopen as (s' & Hrun & Heff & _); [reflexivity | reflexivity |].
  exists s'. split; [exact Hrun|]. rewrite Heff. reflexivity.
Defined.

(** C5 as stated fails.  With a line state of 4, neither DTR nor RTS set,
    [WriteByte] starts a DMA transfer all the same.  With DTR set and the busy
    flag set, [WriteByte] does not return nil: it waits for the flag. *)
Lemma C5_counterexample :
  let line ls := with_usbLineInfo
                   {| dwDTERate := 115200; bCharFormat := 0; bParityType := 0;
                      bDataBits := 8; lineState := ls |} boot in
  (DTR (line 4) = Done (false, line 4) /\
   RTS (line 4) = Done (false, line 4) /\
   option_map (fun s => in_transfers (effects s))
     (exec (WriteByte 0x41) (line 4)) =
     Some [(usb_CDC_ENDPOINT_IN, [0x41])]) /\
  (DTR (line 1) = Done (true, line 1) /\
   WriteByte 0x41 (with_easyDMABusy 1 (line 1)) = Spin).
Proof. repeat split; vm_compute; reflexivity. Qed.

(** ** The continuation of a response is not sent early *)



#[export] Instance none_from_preorder p : PreOrder (none_from p).
Proof.
  split.
  - intros s. reflexivity.
  - intros s1 s2 s3 H1 H2. unfold none_from in *. congruence.
Qed.

#[export] Instance transfer_waits_preorder : PreOrder transfer_waits.
Proof.
  split.
  - intros s. repeat split. intros H. exact H.
  - intros s1 s2 s3 (A1 & B1 & C1 & D1) (A2 & B2 & C2 & D2).
    repeat split; try congruence. intros H. apply C2, C1, H.
Qed.





Section NotBefore.

Variable P : platform.

(** The bus-ready block, the transfer handlers of the data endpoints and the
    handlers of the ends of OUT transfers start no IN transfer, and leave a
    control transfer that waits for EP0DATADONE alone. *)







(** The responses to a setup packet start at the head of the staging
    buffer. *)

Section Responses.

Variables (ep off : Z).
Hypothesis off_not_0 : off <> 0.





End Responses.





End NotBefore.




(** ** The bus-ready event and a pending continuation *)





(** ** Two transfers under the busy flag *)

(** C2, at the input where the driver departs from it.  From boot the host
    opens the line (SET_CONTROL_LINE_STATE with DTR) and starts a
    SET_LINE_CODING transfer; at EP0DATADONE the handler starts the OUT
    transfer of the data phase on endpoint 0, without taking the critical
    section.  The foreground then writes a byte: [WriteByte] finds the flag
    clear, sets it and starts an IN transfer on endpoint 3.  A second
    [WriteByte] at this point would wait.  The data phase ends first: the
    handler, called for ENDEPOUT[0] alone, calls [exitCriticalSection] and
    the flag is clear, although no event has reported the end of the IN
    transfer.  The second [WriteByte] now goes through and starts a second IN
    transfer on endpoint 3.  The flag was set, cleared and set, never twice
    in a row, and two transfers started under it are in flight. *)
Theorem C2_second_transfer_starts_with_first_in_flight :
  let line_open :=
    {| bmRequestType := 0x21; bRequest := usb_CDC_SET_CONTROL_LINE_STATE;
       wValueL := 1; wValueH := 0; wIndex := 0; wLength := 0 |} in
  let set_coding :=
    {| bmRequestType := 0x21; bRequest := usb_CDC_SET_LINE_CODING;
       wValueL := 0; wValueH := 0; wIndex := 0; wLength := 7 |} in
  let interrupt := handleInterrupt example_platform in
  let flag := option_map (fun s => HasBits (easyDMABusy s) 1) in
  let opened := exec interrupt (hw_setup line_open boot) in
  let coding := and_then (meanwhile opened (hw_setup set_coding)) interrupt in
  let receiving :=
    and_then (meanwhile coding (hw EVENTS_EP0DATADONE 1)) interrupt in
  let first := and_then receiving (WriteByte 0x41) in
  let released :=
    and_then (meanwhile first (hw_ep0_out [0x80; 0x25; 0; 0; 0; 0; 8]))
      interrupt in
  let second := and_then released (WriteByte 0x42) in
  flag receiving = Some false /\
  flag first = Some true /\
  match first with
  | Some s => WriteByte 0x42 s = Spin
  | None => False
  end /\
  flag released = Some false /\
  flag second = Some true /\
  option_map effects second =
    Some [call_checkShouldReset; TASKS_EP0STATUS; TASKS_EP0RCVOUT;
          TASKS_STARTEPOUT 0 (Some (out_cache 0 0)) 64;
          TASKS_STARTEPIN 3 (Some (in_cache 3 0)) 1 [0x41];
          call_checkShouldReset; TASKS_EP0STATUS;
          TASKS_STARTEPIN 3 (Some (in_cache 3 0)) 1 [0x42]].
Proof. repeat split; vm_compute; reflexivity. Qed.

(** * Further properties of the driver *)

(** ** Standard requests *)

(** The state in which the handler of a setup packet starts. *)
Lemma setup_state_fields (p : usbSetup) (s : state) :
  let s0 := hw EVENTS_EP0SETUP 0 (hw_setup p s) in
  udd_ep_in_cache_buffer s0 = udd_ep_in_cache_buffer s /\
  udd_ep_out_cache_buffer s0 = udd_ep_out_cache_buffer s /\
  effects s0 = effects s /\
  usbConfiguration s0 = usbConfiguration s /\
  usbSetInterface s0 = usbSetInterface s /\
  usbLineInfo s0 = usbLineInfo s.
Proof. repeat split. Qed.

(** An interrupt for a standard setup packet alone. *)
Lemma standard_setup_interrupt
    (P : platform) (p : usbSetup) (s s1 : state) (ok : bool) :
  quiet s ->
  valid_setup p ->
  Z.land (bmRequestType p) usb_REQUEST_TYPE = usb_REQUEST_STANDARD ->
  handleStandardSetup P p (hw EVENTS_EP0SETUP 0 (hw_setup p s)) =
    Done (ok, s1) ->
  handleInterrupt P (hw_setup p s) =
    Done (tt, if ok then s1
              else with_effects (effects s1 ++ [TASKS_EP0STALL]) s1).
Proof.
  intros Hq Hp Hstd Hrun.
  destruct (hw_setup_quiet p s Hq) as (H1 & H2 & H3 & H4).
  apply handleInterrupt_setup_only; try assumption.
  rewrite on_EP0SETUP_hw_setup by exact Hp.
  apply Z.eqb_eq in Hstd. rewrite Hstd.
  unfold bind at 1. rewrite Hrun. destruct ok; reflexivity.
Qed.

(** An interrupt for a class setup packet to the CDC interface alone. *)
Lemma class_setup_interrupt
    (P : platform) (p : usbSetup) (s s1 : state) (ok : bool) :
  quiet s ->
  valid_setup p ->
  Z.land (bmRequestType p) usb_REQUEST_TYPE <> usb_REQUEST_STANDARD ->
  wIndex p = usb_CDC_ACM_INTERFACE P ->
  cdcSetup p (hw EVENTS_EP0SETUP 0 (hw_setup p s)) = Done (ok, s1) ->
  handleInterrupt P (hw_setup p s) =
    Done (tt, if ok then s1
              else with_effects (effects s1 ++ [TASKS_EP0STALL]) s1).
Proof.
  intros Hq Hp Hstd Hidx Hrun.
  destruct (hw_setup_quiet p s Hq) as (H1 & H2 & H3 & H4).
  apply handleInterrupt_setup_only; try assumption.
  rewrite on_EP0SETUP_hw_setup by exact Hp.
  apply Z.eqb_neq in Hstd. rewrite Hstd.
  apply Z.eqb_eq in Hidx. rewrite Hidx.
  unfold bind at 1. rewrite Hrun. destruct ok; reflexivity.
Qed.


Lemma event_reg_config (r : reg) :
  event_reg r = true ->
  match r with
  | EPIN_MAXCNT _ | EPOUT_MAXCNT _ | SIZE_EPOUT _
  | INTENSET | USBPULLUP | EPINEN | EPOUTEN => False
  | _ => True
  end.
Proof. destruct r; cbn; intros H; try exact I; discriminate. Qed.

Section EventFrames.

Variable P : platform.

Lemma event_reg_initEndpoint ep config :
  frames (regs_kept event_reg) (initEndpoint P ep config).
Proof.
  unfold initEndpoint, emit.
  repeat first [ frame_step
               | apply regs_kept_enableEPIn; reflexivity
               | apply regs_kept_enableEPOut; reflexivity ].
Qed.

Lemma event_reg_sendDescriptor setup :
  frames (regs_kept event_reg) (sendDescriptor P setup).
Proof.
  unfold sendDescriptor, sendConfiguration, emit.
  repeat first [ frame_step
               | apply regs_kept_sendUSBPacket; exact event_reg_config ].
Qed.

Lemma event_reg_handleStandardSetup setup :
  frames (regs_kept event_reg) (handleStandardSetup P setup).
Proof.
  unfold handleStandardSetup, emit.
  repeat first [ frame_step
               | apply regs_kept_sendUSBPacket; exact event_reg_config
               | apply event_reg_sendDescriptor
               | apply event_reg_initEndpoint ].
Qed.

Lemma event_reg_cdcSetup setup :
  frames (regs_kept event_reg) (cdcSetup setup).
Proof.
  unfold cdcSetup, checkShouldReset, emit.
  repeat first [ frame_step
               | apply regs_kept_sendUSBPacket; exact event_reg_config ].
Qed.

(** Handling a setup packet consumes its event and raises no other: when
    the handler returns from an interrupt for a setup packet alone, no event
    is pending. *)
Lemma quiet_after_setup (p : usbSetup) (s s1 : state) :
  quiet s ->
  valid_setup p ->
  handleInterrupt P (hw_setup p s) = Done (tt, s1) ->
  quiet s1.
Proof.
  intros Hq Hp Hrun.
  destruct (hw_setup_quiet p s Hq) as (H1 & H2 & H3 & H4).
  assert (Hsame : on_EP0SETUP P (hw_setup p s) = Done (tt, s1)).
  { destruct (on_EP0SETUP P (hw_setup p s)) as [[[] s']| |] eqn:E.
    - rewrite (handleInterrupt_setup_only P _ s' H1 H2 H3 H4 E) in Hrun.
      exact Hrun.
    - exfalso. revert Hrun. unfold handleInterrupt, bind at 1.
      rewrite on_USBEVENT_idle by exact H1.
      unfold bind at 1, reg_get. apply Z.eqb_neq in H2. rewrite H2.
      unfold bind at 1. rewrite E. discriminate.
    - exfalso. revert Hrun. unfold handleInterrupt, bind at 1.
      rewrite on_USBEVENT_idle by exact H1.
      unfold bind at 1, reg_get. apply Z.eqb_neq in H2. rewrite H2.
      unfold bind at 1. rewrite E. discriminate. }
  rewrite on_EP0SETUP_hw_setup in Hsame by exact Hp.
  set (s0 := hw EVENTS_EP0SETUP 0 (hw_setup p s)) in *.
  assert (Hq0 : quiet s0).
  { destruct Hq as (Q1 & Q2 & Q3 & Q4 & Q5).
    unfold s0, hw_setup, hw, quiet. fields. numerals.
    rewrite Q1, Q2, Q4. repeat split. intros i. apply Q5. }
  assert (Hk : regs_kept event_reg s0 s1).
  { revert Hsame.
    assert (F : frames (regs_kept event_reg)
                  (ok <-
                     (if Z.land (bmRequestType p) usb_REQUEST_TYPE
                         =? usb_REQUEST_STANDARD
                      then handleStandardSetup P p
                      else if wIndex p =? usb_CDC_ACM_INTERFACE P
                      then cdcSetup p else ret false) ;;
                   when (negb ok) (emit TASKS_EP0STALL))).
    { unfold emit.
      repeat first [ frame_step
                   | apply event_reg_handleStandardSetup
                   | apply event_reg_cdcSetup ]. }
    intros Hsame. exact (F s0 tt s1 Hsame). }
  destruct Hq0 as (Q1 & Q2 & Q3 & Q4 & Q5).
  repeat split; try (rewrite Hk by reflexivity; assumption).
  intros i. rewrite Hk by reflexivity. apply Q5.
Qed.

End EventFrames.

(** ** The shape of the staging buffers *)

#[export] Instance shape_kept_preorder : PreOrder shape_kept.
Proof.
  split.
  - intros s H. exact H.
  - intros s1 s2 s3 H1 H2 H. apply H2, H1, H.
Qed.

Lemma cache_shape_nth_upd_row
    (m : list (list Z)) (n : nat) (b row : list Z) :
  nth_error m n = Some b ->
  length row = length b ->
  cache_shape m -> cache_shape (nth_upd n (fun _ => row) m).
Proof.
  intros E Hrow [Hlen Hall]. unfold nth_upd. rewrite E.
  pose proof (nth_error_split m n E) as (l1 & l2 & Hm & Hn).
  subst m. rewrite <- Hn.
  rewrite firstn_app, firstn_all, Nat.sub_diag, firstn_O, app_nil_r.
  replace (S (length l1)) with (length l1 + 1)%nat by lia.
  rewrite skipn_app, skipn_all2, Nat.add_comm, Nat.add_sub by lia.
  cbn [app skipn].
  split.
  - rewrite <- Hlen. rewrite !length_app. reflexivity.
  - apply Forall_app in Hall. destruct Hall as [Ha Hb].
    inversion Hb; subst. apply Forall_app. split; [exact Ha|].
    constructor; [congruence | assumption].
Qed.

Ltac shape_step :=
  first
    [ frame_step
    | apply frames_modify; intros ? ?; assumption ].

Lemma shape_kept_sendViaEPIn ep p c :
  frames shape_kept (sendViaEPIn ep p c).
Proof.
  unfold sendViaEPIn, start_EPIN, ptr_reg_set, reg_set, emit.
  repeat shape_step.
Qed.

Lemma shape_kept_sendUSBPacket ep data :
  frames shape_kept (sendUSBPacket ep data).
Proof.
  intros s a s' Hrun [Hin Hout]. revert Hrun.
  unfold sendUSBPacket, bind at 1, in_cache_buffer.
  destruct ((0 <=? ep) && (ep <? cache_buffers)); [|discriminate].
  destruct (nth_error (udd_ep_in_cache_buffer s) (Z.to_nat ep)) as [buf|] eqn:E;
    [|discriminate].
  unfold bind at 1, in_cache_buffer_set, modify.
  set (s1 := with_udd_ep_in_cache_buffer _ s).
  assert (H1 : well_formed s1).
  { split; [|exact Hout]. unfold s1. fields.
    apply (cache_shape_nth_upd_row _ _ buf); [exact E | apply copy_length |
      exact Hin]. }
  intros Hrun. revert H1.
  assert (F : frames shape_kept
                (count <-
                   (if (ep =? 0) &&
                       (usbEndpointPacketSize <? Z.of_nat (length data))
                    then
                      modify
                        (with_sendOnEP0DATADONE
                           {| ptr := Some (in_cache ep usbEndpointPacketSize);
                              count := Z.of_nat (length data) -
                                       usbEndpointPacketSize |}) ;;
                      ret usbEndpointPacketSize
                    else ret (Z.of_nat (length data))) ;;
                 sendViaEPIn ep (in_cache ep 0) count)).
  { repeat first [apply shape_kept_sendViaEPIn | shape_step]. }
  exact (F s1 a s' Hrun).
Qed.

Section ShapeFrames.

Variable P : platform.

Lemma shape_kept_initEndpoint ep config :
  frames shape_kept (initEndpoint P ep config).
Proof.
  unfold initEndpoint, enableEPIn, enableEPOut, reg_set, emit.
  repeat shape_step.
Qed.

Lemma shape_kept_sendDescriptor setup :
  frames shape_kept (sendDescriptor P setup).
Proof.
  unfold sendDescriptor, sendConfiguration, emit.
  repeat first [ apply shape_kept_sendUSBPacket | shape_step ].
Qed.

Lemma shape_kept_handleStandardSetup setup :
  frames shape_kept (handleStandardSetup P setup).
Proof.
  unfold handleStandardSetup, emit.
  repeat first [ apply shape_kept_sendUSBPacket
               | apply shape_kept_sendDescriptor
               | apply shape_kept_initEndpoint
               | shape_step ].
Qed.

Lemma shape_kept_cdcSetup setup :
  frames shape_kept (cdcSetup setup).
Proof.
  unfold cdcSetup, checkShouldReset, emit.
  repeat first [ apply shape_kept_sendUSBPacket | shape_step ].
Qed.

Lemma shape_kept_handleInterrupt :
  frames shape_kept (handleInterrupt P).
Proof.
  unfold handleInterrupt, on_USBEVENT, on_EP0DATADONE, on_EP0SETUP, on_EPDATA,
    on_ENDEPOUT, handleEndpoint, parseUSBSetupRegisters, parseUSBLineInfo,
    checkShouldReset, Receive, enterCriticalSection, waitForEasyDMA,
    exitCriticalSection, start_EPOUT, ptr_reg_set, reg_set, emit.
  repeat first [ apply shape_kept_handleStandardSetup
               | apply shape_kept_cdcSetup
               | apply shape_kept_initEndpoint
               | apply shape_kept_sendViaEPIn
               | shape_step ].
Qed.

End ShapeFrames.

(** ** Configuration, interface and features *)

Section Configuration.

Variable P : platform.

Lemma initEndpoint_interrupt_in (ep : Z) :
  initEndpoint P ep (Z.lor usb_ENDPOINT_TYPE_INTERRUPT usbEndpointIn) =
  enableEPIn P ep.
Proof. reflexivity. Qed.

Lemma initEndpoint_bulk_in (ep : Z) :
  initEndpoint P ep (Z.lor usb_ENDPOINT_TYPE_BULK usbEndpointIn) =
  enableEPIn P ep.
Proof. reflexivity. Qed.

Lemma initEndpoint_bulk_out (ep : Z) :
  initEndpoint P ep (Z.lor usb_ENDPOINT_TYPE_BULK usbEndpointOut) =
  (reg_set INTENSET (shl32 (USBD_INTENSET_ENDEPOUT0 P) ep) ;;
   check_ep ep ;;
   reg_set (SIZE_EPOUT ep) 0 ;;
   enableEPOut P ep).
Proof. reflexivity. Qed.

(** SET_CONFIGURATION for the device, handled on its own: the status stage
    is entered, the three data endpoints are enabled on top of what was
    enabled, the size of the bulk OUT endpoint is reset, and the configuration
    value is the one requested. *)
Lemma SET_CONFIGURATION_run (p : usbSetup) (s : state) :
  bRequest p = usb_SET_CONFIGURATION ->
  Z.land (bmRequestType p) usb_REQUEST_RECIPIENT = usb_REQUEST_DEVICE ->
  exists s1,
    handleStandardSetup P p s = Done (true, s1) /\
    usbConfiguration s1 = wValueL p /\
    effects s1 = effects s ++ [TASKS_EP0STATUS] /\
    epinen s1 =
      uint32 (Z.lor (uint32 (Z.lor (epinen s) (shl32 (USBD_EPINEN_IN0 P) 1)))
                (shl32 (USBD_EPINEN_IN0 P) 3)) /\
    epouten s1 = uint32 (Z.lor (epouten s) (shl32 (USBD_EPOUTEN_OUT0 P) 2)) /\
    regs s1 EPINEN = epinen s1 /\
    regs s1 EPOUTEN = epouten s1 /\
    regs s1 (SIZE_EPOUT 2) = 0 /\
    regs s1 INTENSET = shl32 (USBD_INTENSET_ENDEPOUT0 P) 2 /\
    regs_kept event_reg s s1 /\
    udd_ep_in_cache_buffer s1 = udd_ep_in_cache_buffer s /\
    udd_ep_out_cache_buffer s1 = udd_ep_out_cache_buffer s /\
    usbLineInfo s1 = usbLineInfo s /\
    sendOnEP0DATADONE s1 = sendOnEP0DATADONE s.
Proof.
  intros Hreq Hrec. open_state s.
  unfold handleStandardSetup. rewrite Hreq.
  cbn [Z.eqb Pos.eqb usb_SET_CONFIGURATION usb_GET_STATUS usb_CLEAR_FEATURE
       usb_SET_FEATURE usb_SET_ADDRESS usb_GET_DESCRIPTOR usb_SET_DESCRIPTOR
       usb_GET_CONFIGURATION].
  apply Z.eqb_eq in Hrec. rewrite Hrec.
  change (upto 1 (length endPoints - 1)) with [1; 2; 3].
  cbn [for_each]. change (Z.to_nat 1) with 1%nat.
  change (Z.to_nat 2) with 2%nat. change (Z.to_nat 3) with 3%nat.
  cbn [nth_error endPoints].
  rewrite initEndpoint_interrupt_in, initEndpoint_bulk_in,
    initEndpoint_bulk_out.
  unfold enableEPIn, enableEPOut, check_ep.
  change ((0 <=? 2) && (2 <? 8)) with true.
  repeat progress (run; numerals).
  eexists. split; [reflexivity|]. run. numerals.
  repeat split.
  intros r Hr. destruct r; try discriminate Hr; reflexivity.
Qed.

End Configuration.

(** X1.  A SET_CONFIGURATION request addressed to the device enters the status
    stage, enables the interrupt IN endpoint 1, the bulk OUT endpoint 2 and
    the bulk IN endpoint 3 on top of what was enabled before, writes both
    enable masks to the peripheral, resets the size of the bulk OUT endpoint
    and stores the requested configuration value.  Endpoint 0 is not
    stalled and no event is left pending. *)
Theorem X1_SET_CONFIGURATION_enables_endpoints
    (P : platform) (p : usbSetup) (s : state) :
  quiet s ->
  valid_setup p ->
  Z.land (bmRequestType p) usb_REQUEST_TYPE = usb_REQUEST_STANDARD ->
  bRequest p = usb_SET_CONFIGURATION ->
  Z.land (bmRequestType p) usb_REQUEST_RECIPIENT = usb_REQUEST_DEVICE ->
  exists s1,
    handleInterrupt P (hw_setup p s) = Done (tt, s1) /\
    usbConfiguration s1 = wValueL p /\
    effects s1 = effects s ++ [TASKS_EP0STATUS] /\
    epinen s1 =
      uint32 (Z.lor (uint32 (Z.lor (epinen s) (shl32 (USBD_EPINEN_IN0 P) 1)))
                (shl32 (USBD_EPINEN_IN0 P) 3)) /\
    epouten s1 = uint32 (Z.lor (epouten s) (shl32 (USBD_EPOUTEN_OUT0 P) 2)) /\
    regs s1 EPINEN = epinen s1 /\
    regs s1 EPOUTEN = epouten s1 /\
    regs s1 (SIZE_EPOUT usb_CDC_ENDPOINT_OUT) = 0 /\
    quiet s1.
Proof.
  intros Hq Hp Hstd Hreq Hrec.
  destruct (SET_CONFIGURATION_run P p (hw EVENTS_EP0SETUP 0 (hw_setup p s))
              Hreq Hrec)
    as (s1 & Hrun & Hconf & Heff & Hin & Hout & Hrin & Hrout & Hsize & _).
  pose proof (standard_setup_interrupt P p s s1 true Hq Hp Hstd Hrun) as Hirq.
  exists s1. split; [exact Hirq|].
  repeat split; try assumption.
  all: try (apply (quiet_after_setup P p s s1 Hq Hp Hirq)).
Qed.

Lemma X1_SET_CONFIGURATION_enables_endpoints_witness :
  exists s1,
    handleInterrupt example_platform
      (hw_setup {| bmRequestType := 0x00; bRequest := usb_SET_CONFIGURATION;
                   wValueL := 1; wValueH := 0; wIndex := 0; wLength := 0 |}
         boot) = Done (tt, s1) /\
    usbConfiguration s1 = 1 /\
    epinen s1 = 10 /\
    epouten s1 = 4.
Proof.
  destruct (X1_SET_CONFIGURATION_enables_endpoints example_platform
              {| bmRequestType := 0x00; bRequest := usb_SET_CONFIGURATION;
                 wValueL := 1; wValueH := 0; wIndex := 0; wLength := 0 |}
              boot quiet_boot)
    as (s1 & Hrun & Hconf & _ & Hin & Hout & _).
  - vm_compute. repeat split; first [reflexivity | discriminate].
  - reflexivity.
  - reflexivity.
  - reflexivity.
  - exists s1. split; [exact Hrun|]. split; [exact Hconf|].
    split; [exact Hin | exact Hout].
Defined.

(** X2.  GET_CONFIGURATION after SET_CONFIGURATION for the device answers
    with one packet of one byte, the configuration value that was set. *)
Theorem X2_GET_CONFIGURATION_returns_what_was_set
    (P : platform) (p g : usbSetup) (s : state) :
  well_formed s ->
  quiet s ->
  valid_setup p ->
  Z.land (bmRequestType p) usb_REQUEST_TYPE = usb_REQUEST_STANDARD ->
  bRequest p = usb_SET_CONFIGURATION ->
  Z.land (bmRequestType p) usb_REQUEST_RECIPIENT = usb_REQUEST_DEVICE ->
  valid_setup g ->
  Z.land (bmRequestType g) usb_REQUEST_TYPE = usb_REQUEST_STANDARD ->
  bRequest g = usb_GET_CONFIGURATION ->
  exists s1 s2,
    handleInterrupt P (hw_setup p s) = Done (tt, s1) /\
    handleInterrupt P (hw_setup g s1) = Done (tt, s2) /\
    effects s2 =
      effects s ++
      [TASKS_EP0STATUS;
       TASKS_STARTEPIN 0 (Some (in_cache 0 0)) 1 [wValueL p]].
Proof.
  intros Hwf Hq Hp Hstd Hreq Hrec Hg Hgstd Hgreq.
  destruct (SET_CONFIGURATION_run P p (hw EVENTS_EP0SETUP 0 (hw_setup p s))
              Hreq Hrec)
    as (s1 & Hrun & Hconf & Heff & _).
  pose proof (standard_setup_interrupt P p s s1 true Hq Hp Hstd Hrun) as Hirq.
  assert (Hq1 : quiet s1) by exact (quiet_after_setup P p s s1 Hq Hp Hirq).
  assert (Hwf1 : well_formed s1)
    by exact (shape_kept_handleInterrupt P _ _ _ Hirq Hwf).
  set (s0 := hw EVENTS_EP0SETUP 0 (hw_setup g s1)).
  destruct (sendUSBPacket_ep0_short s0 [usbConfiguration s1] Hwf1)
    as (s2 & Hrun2 & Heff2 & _); [cbn; lia|].
  exists s1, s2. split; [exact Hirq|]. split.
  - apply (standard_setup_interrupt P g s1 s2 true Hq1 Hg Hgstd). fold s0.
    unfold handleStandardSetup. rewrite Hgreq.
    cbn [Z.eqb Pos.eqb usb_SET_CONFIGURATION usb_GET_STATUS usb_CLEAR_FEATURE
           usb_SET_FEATURE usb_SET_ADDRESS usb_GET_DESCRIPTOR usb_SET_DESCRIPTOR
           usb_GET_CONFIGURATION].
    unfold bind at 1, get at 1. change (usbConfiguration s0)
      with (usbConfiguration s1).
    unfold bind at 1. rewrite Hrun2. reflexivity.
  - rewrite Heff2. change (effects s0) with (effects s1).
    rewrite Heff, Hconf. change (effects (hw EVENTS_EP0SETUP 0 (hw_setup p s)))
      with (effects s). rewrite <- app_assoc. reflexivity.
Qed.

Lemma X2_GET_CONFIGURATION_returns_what_was_set_witness :
  exists s1 s2,
    handleInterrupt example_platform
      (hw_setup {| bmRequestType := 0x00; bRequest := usb_SET_CONFIGURATION;
                   wValueL := 1; wValueH := 0; wIndex := 0; wLength := 0 |}
         boot) = Done (tt, s1) /\
    handleInterrupt example_platform
      (hw_setup {| bmRequestType := 0x80; bRequest := usb_GET_CONFIGURATION;
                   wValueL := 0; wValueH := 0; wIndex := 0; wLength := 1 |}
         s1) = Done (tt, s2) /\
    ep0_packets (effects s2) = [[1]].
Proof.
  destruct (X2_GET_CONFIGURATION_returns_what_was_set example_platform
              {| bmRequestType := 0x00; bRequest := usb_SET_CONFIGURATION;
                 wValueL := 1; wValueH := 0; wIndex := 0; wLength := 0 |}
              {| bmRequestType := 0x80; bRequest := usb_GET_CONFIGURATION;
                 wValueL := 0; wValueH := 0; wIndex := 0; wLength := 1 |}
              boot well_formed_boot quiet_boot)
    as (s1 & s2 & H1 & H2 & Heff).
  - vm_compute. repeat split; first [reflexivity | discriminate].
  - reflexivity.
  - reflexivity.
  - reflexivity.
  - vm_compute. repeat split; first [reflexivity | discriminate].
  - reflexivity.
  - reflexivity.
  - exists s1, s2. split; [exact H1|]. split; [exact H2|].
    rewrite Heff. reflexivity.
Defined.

Lemma SET_INTERFACE_run (P : platform) (p : usbSetup) (s : state) :
  bRequest p = usb_SET_INTERFACE ->
  exists s1,
    handleStandardSetup P p s = Done (true, s1) /\
    usbSetInterface s1 = wValueL p /\
    effects s1 = effects s ++ [TASKS_EP0STATUS] /\
    usbConfiguration s1 = usbConfiguration s.
Proof.
  intros Hreq. open_state s. unfold handleStandardSetup. rewrite Hreq.
  cbn [Z.eqb Pos.eqb usb_SET_CONFIGURATION usb_GET_STATUS usb_CLEAR_FEATURE
       usb_SET_FEATURE usb_SET_ADDRESS usb_GET_DESCRIPTOR usb_SET_DESCRIPTOR
       usb_GET_CONFIGURATION usb_GET_INTERFACE usb_SET_INTERFACE].
  run. eexists. split; [reflexivity|]. run. repeat split.
Qed.

Lemma halt_feature_run (P : platform) (p : usbSetup) (s : state) :
  bRequest p = usb_SET_FEATURE \/ bRequest p = usb_CLEAR_FEATURE ->
  wValueL p = 0 ->
  exists s1,
    handleStandardSetup P p s = Done (true, s1) /\
    isEndpointHalt s1 = (bRequest p =? usb_SET_FEATURE) /\
    isRemoteWakeUpEnabled s1 = isRemoteWakeUpEnabled s /\
    effects s1 = effects s ++ [TASKS_EP0STATUS] /\
    usbConfiguration s1 = usbConfiguration s.
Proof.
  intros Hreq Hsel. open_state s. unfold handleStandardSetup. rewrite Hsel.
  destruct Hreq as [Hreq|Hreq]; rewrite Hreq;
    cbn [Z.eqb Pos.eqb usb_GET_STATUS usb_CLEAR_FEATURE usb_SET_FEATURE];
    run; (eexists; split; [reflexivity|]); run; repeat split.
Qed.

(** X3.  SET_INTERFACE stores the low byte of wValue, whatever the recipient
    and the interface addressed, and enters the status stage; GET_INTERFACE
    then answers with one packet of that one byte. *)
Theorem X3_GET_INTERFACE_returns_what_was_set
    (P : platform) (p g : usbSetup) (s : state) :
  well_formed s ->
  quiet s ->
  valid_setup p ->
  Z.land (bmRequestType p) usb_REQUEST_TYPE = usb_REQUEST_STANDARD ->
  bRequest p = usb_SET_INTERFACE ->
  valid_setup g ->
  Z.land (bmRequestType g) usb_REQUEST_TYPE = usb_REQUEST_STANDARD ->
  bRequest g = usb_GET_INTERFACE ->
  exists s1 s2,
    handleInterrupt P (hw_setup p s) = Done (tt, s1) /\
    usbSetInterface s1 = wValueL p /\
    handleInterrupt P (hw_setup g s1) = Done (tt, s2) /\
    effects s2 =
      effects s ++
      [TASKS_EP0STATUS;
       TASKS_STARTEPIN 0 (Some (in_cache 0 0)) 1 [wValueL p]].
Proof.
  intros Hwf Hq Hp Hstd Hreq Hg Hgstd Hgreq.
  destruct (SET_INTERFACE_run P p (hw EVENTS_EP0SETUP 0 (hw_setup p s)) Hreq)
    as (s1 & Hrun & Hintf & Heff & _).
  pose proof (standard_setup_interrupt P p s s1 true Hq Hp Hstd Hrun) as Hirq.
  assert (Hq1 : quiet s1) by exact (quiet_after_setup P p s s1 Hq Hp Hirq).
  assert (Hwf1 : well_formed s1)
    by exact (shape_kept_handleInterrupt P _ _ _ Hirq Hwf).
  set (s0 := hw EVENTS_EP0SETUP 0 (hw_setup g s1)).
  destruct (sendUSBPacket_ep0_short s0 [usbSetInterface s1] Hwf1)
    as (s2 & Hrun2 & Heff2 & _); [cbn; lia|].
  exists s1, s2. split; [exact Hirq|]. split; [exact Hintf|]. split.
  - apply (standard_setup_interrupt P g s1 s2 true Hq1 Hg Hgstd). fold s0.
    unfold handleStandardSetup. rewrite Hgreq.
    cbn [Z.eqb Pos.eqb usb_SET_CONFIGURATION usb_GET_STATUS usb_CLEAR_FEATURE
           usb_SET_FEATURE usb_SET_ADDRESS usb_GET_DESCRIPTOR usb_SET_DESCRIPTOR
           usb_GET_CONFIGURATION usb_GET_INTERFACE].
    unfold bind at 1, get at 1. change (usbSetInterface s0)
      with (usbSetInterface s1).
    unfold bind at 1. rewrite Hrun2. reflexivity.
  - rewrite Heff2. change (effects s0) with (effects s1).
    rewrite Heff, Hintf.
    change (effects (hw EVENTS_EP0SETUP 0 (hw_setup p s))) with (effects s).
    rewrite <- app_assoc. reflexivity.
Qed.

Lemma X3_GET_INTERFACE_returns_what_was_set_witness :
  exists s1 s2,
    handleInterrupt example_platform
      (hw_setup {| bmRequestType := 0x01; bRequest := usb_SET_INTERFACE;
                   wValueL := 5; wValueH := 0; wIndex := 1; wLength := 0 |}
         boot) = Done (tt, s1) /\
    handleInterrupt example_platform
      (hw_setup {| bmRequestType := 0x81; bRequest := usb_GET_INTERFACE;
                   wValueL := 0; wValueH := 0; wIndex := 1; wLength := 1 |}
         s1) = Done (tt, s2) /\
    ep0_packets (effects s2) = [[5]].
Proof.
  destruct (X3_GET_INTERFACE_returns_what_was_set example_platform
              {| bmRequestType := 0x01; bRequest := usb_SET_INTERFACE;
                 wValueL := 5; wValueH := 0; wIndex := 1; wLength := 0 |}
              {| bmRequestType := 0x81; bRequest := usb_GET_INTERFACE;
                 wValueL := 0; wValueH := 0; wIndex := 1; wLength := 1 |}
              boot well_formed_boot quiet_boot)
    as (s1 & s2 & H1 & _ & H2 & Heff).
  - vm_compute. repeat split; first [reflexivity | discriminate].
  - reflexivity.
  - reflexivity.
  - vm_compute. repeat split; first [reflexivity | discriminate].
  - reflexivity.
  - reflexivity.
  - exists s1, s2. split; [exact H1|]. split; [exact H2|].
    rewrite Heff. reflexivity.
Defined.

(** X4.  The endpoint-halt feature (selector 0) is one flag for all
    endpoints: SET_FEATURE sets it and CLEAR_FEATURE clears it whatever wIndex
    names, both entering the status stage, and a following GET_STATUS whose
    request type is not zero answers with [1; 0] after the one and [0; 0]
    after the other. *)
Theorem X4_GET_STATUS_follows_halt_feature
    (P : platform) (p g : usbSetup) (s : state) :
  well_formed s ->
  quiet s ->
  valid_setup p ->
  Z.land (bmRequestType p) usb_REQUEST_TYPE = usb_REQUEST_STANDARD ->
  bRequest p = usb_SET_FEATURE \/ bRequest p = usb_CLEAR_FEATURE ->
  wValueL p = 0 ->
  valid_setup g ->
  Z.land (bmRequestType g) usb_REQUEST_TYPE = usb_REQUEST_STANDARD ->
  bRequest g = usb_GET_STATUS ->
  bmRequestType g <> 0 ->
  exists s1 s2,
    handleInterrupt P (hw_setup p s) = Done (tt, s1) /\
    isEndpointHalt s1 = (bRequest p =? usb_SET_FEATURE) /\
    isRemoteWakeUpEnabled s1 = isRemoteWakeUpEnabled s /\
    handleInterrupt P (hw_setup g s1) = Done (tt, s2) /\
    effects s2 =
      effects s ++
      [TASKS_EP0STATUS;
       TASKS_STARTEPIN 0 (Some (in_cache 0 0)) 2
         [if bRequest p =? usb_SET_FEATURE then 1 else 0; 0]].
Proof.
  intros Hwf Hq Hp Hstd Hreq Hsel Hg Hgstd Hgreq Hgtype.
  destruct (halt_feature_run P p (hw EVENTS_EP0SETUP 0 (hw_setup p s))
              Hreq Hsel)
    as (s1 & Hrun & Hhalt & Hwake & Heff & _).
  pose proof (standard_setup_interrupt P p s s1 true Hq Hp Hstd Hrun) as Hirq.
  assert (Hq1 : quiet s1) by exact (quiet_after_setup P p s s1 Hq Hp Hirq).
  assert (Hwf1 : well_formed s1)
    by exact (shape_kept_handleInterrupt P _ _ _ Hirq Hwf).
  set (s0 := hw EVENTS_EP0SETUP 0 (hw_setup g s1)).
  set (buf := if negb (bmRequestType g =? 0) && isEndpointHalt s0
              then [1; 0] else [0; 0]).
  assert (Hbuf : buf = [if bRequest p =? usb_SET_FEATURE then 1 else 0; 0]).
  { unfold buf. apply Z.eqb_neq in Hgtype. rewrite Hgtype.
    change (isEndpointHalt s0) with (isEndpointHalt s1). rewrite Hhalt.
    destruct (bRequest p =? usb_SET_FEATURE); reflexivity. }
  destruct (sendUSBPacket_ep0_short s0 buf Hwf1) as (s2 & Hrun2 & Heff2 & _);
    [rewrite Hbuf; cbn; lia|].
  exists s1, s2. split; [exact Hirq|]. split; [exact Hhalt|].
  split; [exact Hwake|]. split.
  - apply (standard_setup_interrupt P g s1 s2 true Hq1 Hg Hgstd). fold s0.
    unfold handleStandardSetup. rewrite Hgreq.
    change (usb_GET_STATUS =? usb_GET_STATUS) with true. cbv iota.
    unfold bind at 1, get at 1. fold buf.
    unfold bind at 1. rewrite Hrun2. reflexivity.
  - rewrite Heff2, Hbuf. change (effects s0) with (effects s1). rewrite Heff.
    change (effects (hw EVENTS_EP0SETUP 0 (hw_setup p s))) with (effects s).
    rewrite Hbuf || idtac. rewrite <- app_assoc. reflexivity.
Qed.

Lemma X4_GET_STATUS_follows_halt_feature_witness :
  exists s1 s2,
    handleInterrupt example_platform
      (hw_setup {| bmRequestType := 0x02; bRequest := usb_CLEAR_FEATURE;
                   wValueL := 0; wValueH := 0; wIndex := 0x83; wLength := 0 |}
         (with_isEndpointHalt true boot)) = Done (tt, s1) /\
    handleInterrupt example_platform
      (hw_setup {| bmRequestType := 0x82; bRequest := usb_GET_STATUS;
                   wValueL := 0; wValueH := 0; wIndex := 0x83; wLength := 2 |}
         s1) = Done (tt, s2) /\
    ep0_packets (effects s2) = [[0; 0]].
Proof.
  destruct (X4_GET_STATUS_follows_halt_feature example_platform
              {| bmRequestType := 0x02; bRequest := usb_CLEAR_FEATURE;
                 wValueL := 0; wValueH := 0; wIndex := 0x83; wLength := 0 |}
              {| bmRequestType := 0x82; bRequest := usb_GET_STATUS;
                 wValueL := 0; wValueH := 0; wIndex := 0x83; wLength := 2 |}
              (with_isEndpointHalt true boot) well_formed_boot quiet_boot)
    as (s1 & s2 & H1 & _ & _ & H2 & Heff).
  - vm_compute. repeat split; first [reflexivity | discriminate].
  - reflexivity.
  - right. reflexivity.
  - reflexivity.
  - vm_compute. repeat split; first [reflexivity | discriminate].
  - reflexivity.
  - reflexivity.
  - discriminate.
  - exists s1, s2. split; [exact H1|]. split; [exact H2|].
    rewrite Heff. reflexivity.
Defined.

(** ** Descriptors *)

(** The first packet of any response on the control endpoint. *)
Lemma sendUSBPacket_ep0_first_packet (s : state) (data : list Z) :
  well_formed s ->
  exists s',
    sendUSBPacket 0 data s = Done (tt, s') /\
    ep0_packets (effects s') = ep0_packets (effects s) ++ [firstn 64 data] /\
    sendOnEP0DATADONE s' =
      (if 64 <? Z.of_nat (length data)
       then {| ptr := Some (in_cache 0 64);
               count := Z.of_nat (length data) - 64 |}
       else sendOnEP0DATADONE s).
Proof.
  intros [Hin _].
  destruct (cache_shape_head _ Hin) as (b0 & rest & Hm & Hb0 & _ & _).
  destruct (sendUSBPacket_ep0 s data b0 rest Hm Hb0)
    as (s' & Hrun & _ & Heff & Hpend & _).
  exists s'. split; [exact Hrun|]. split; [|exact Hpend].
  rewrite Heff, ep0_packets_app. reflexivity.
Qed.

(** X5.  A request for the product or the manufacturer string descriptor is
    answered with the first two bytes of the descriptor when wLength is 2, and
    otherwise with the descriptor from its start, whatever wLength says: the
    two-byte answer is a prefix of the other.  A descriptor of more than 64
    bytes leaves a continuation pending, the two-byte answer never does. *)
Theorem X5_string_descriptor_length_probe
    (P : platform) (p : usbSetup) (s : state) (d : list Z) :
  well_formed s ->
  wValueH p = usb_STRING_DESCRIPTOR_TYPE ->
  wValueL p <> 0 ->
  (wValueL p = usb_IPRODUCT P /\ d = product_descriptor P) \/
  (wValueL p <> usb_IPRODUCT P /\ wValueL p = usb_IMANUFACTURER P /\
   d = manufacturer_descriptor P) ->
  (2 <= length d)%nat ->
  exists s1,
    sendDescriptor P p s = Done (tt, s1) /\
    ep0_packets (effects s1) =
      ep0_packets (effects s) ++
      [if wLength p =? 2 then firstn 2 d else firstn 64 d] /\
    firstn 2 (firstn 64 d) = firstn 2 d /\
    (wLength p = 2 -> sendOnEP0DATADONE s1 = sendOnEP0DATADONE s) /\
    (wLength p <> 2 -> 64 < Z.of_nat (length d) ->
     sendOnEP0DATADONE s1 =
       {| ptr := Some (in_cache 0 64); count := Z.of_nat (length d) - 64 |}).
Proof.
  intros Hwf Htype Hidx Hwhich Hlen.
  assert (Hslice : forall t, slice_to d 2 t = Done (firstn 2 d, t)).
  { intros t. unfold slice_to.
    replace ((0 <=? 2) && (2 <=? Z.of_nat (length d))) with true; [reflexivity|].
    symmetry. apply andb_true_intro. split; [reflexivity|].
    apply Z.leb_le. lia. }
  assert (Hbody :
            sendDescriptor P p s =
            (if wLength p =? 2
             then b2 <- slice_to d 2 ;; sendUSBPacket 0 b2
             else sendUSBPacket 0 d) s).
  { unfold sendDescriptor. rewrite Htype.
    cbn [Z.eqb Pos.eqb usb_STRING_DESCRIPTOR_TYPE usb_DEVICE_DESCRIPTOR_TYPE
         usb_CONFIGURATION_DESCRIPTOR_TYPE].
    apply Z.eqb_neq in Hidx. rewrite Hidx.
    destruct Hwhich as [[Hp ->]|(Hnp & Hm & ->)].
    - apply Z.eqb_eq in Hp. rewrite Hp. reflexivity.
    - apply Z.eqb_neq in Hnp. apply Z.eqb_eq in Hm. rewrite Hnp, Hm.
      reflexivity. }
  rewrite Hbody.
  destruct (wLength p =? 2) eqn:E;
    [apply Z.eqb_eq in E | apply Z.eqb_neq in E].
  - destruct (sendUSBPacket_ep0_first_packet s (firstn 2 d) Hwf)
      as (s1 & Hrun & Hpk & Hpend).
    exists s1. unfold bind. rewrite Hslice, Hrun.
    split; [reflexivity|]. split.
    + rewrite Hpk. rewrite firstn_firstn. reflexivity.
    + split; [rewrite firstn_firstn; reflexivity|]. split.
      * intros _. rewrite Hpend.
        replace (64 <? Z.of_nat (length (firstn 2 d))) with false;
          [reflexivity|].
        symmetry. apply Z.ltb_ge. rewrite length_firstn. lia.
      * intros Hne. contradiction.
  - destruct (sendUSBPacket_ep0_first_packet s d Hwf)
      as (s1 & Hrun & Hpk & Hpend).
    exists s1. split; [exact Hrun|]. split; [exact Hpk|].
    split; [rewrite firstn_firstn; reflexivity|]. split.
    + intros He. contradiction.
    + intros _ Hlong. rewrite Hpend.
      replace (64 <? Z.of_nat (length d)) with true; [reflexivity|].
      symmetry. apply Z.ltb_lt. exact Hlong.
Qed.

Lemma X5_string_descriptor_length_probe_witness :
  exists s1,
    sendDescriptor example_platform
      {| bmRequestType := 0x80; bRequest := usb_GET_DESCRIPTOR;
         wValueL := 2; wValueH := usb_STRING_DESCRIPTOR_TYPE;
         wIndex := 0x0409; wLength := 2 |} boot = Done (tt, s1) /\
    ep0_packets (effects s1) = [[8; 3]].
Proof.
  destruct (X5_string_descriptor_length_probe example_platform
              {| bmRequestType := 0x80; bRequest := usb_GET_DESCRIPTOR;
                 wValueL := 2; wValueH := usb_STRING_DESCRIPTOR_TYPE;
                 wIndex := 0x0409; wLength := 2 |} boot
              (product_descriptor example_platform) well_formed_boot)
    as (s1 & Hrun & Hpk & _).
  - reflexivity.
  - discriminate.
  - left. split; reflexivity.
  - cbn. lia.
  - exists s1. split; [exact Hrun | exact Hpk].
Defined.

(** X6.  A request for the configuration descriptor is answered with the
    configuration descriptor alone when wLength is 9, and otherwise with the
    configuration descriptor followed by the CDC descriptors, whatever wLength
    says; at most 64 bytes go into the first packet. *)
Theorem X6_configuration_descriptor_length_probe
    (P : platform) (p : usbSetup) (s : state) :
  well_formed s ->
  wValueH p = usb_CONFIGURATION_DESCRIPTOR_TYPE ->
  exists s1,
    sendDescriptor P p s = Done (tt, s1) /\
    ep0_packets (effects s1) =
      ep0_packets (effects s) ++
      [firstn 64 (if wLength p =? 9 then config_descriptor P
                  else config_descriptor P ++ cdc_descriptor P)] /\
    ((length (config_descriptor P) <= 64)%nat ->
     firstn (length (config_descriptor P))
       (firstn 64 (config_descriptor P ++ cdc_descriptor P)) =
     config_descriptor P).
Proof.
  intros Hwf Htype.
  assert (Hbody : sendDescriptor P p s =
                  sendUSBPacket 0
                    (if wLength p =? 9 then config_descriptor P
                     else config_descriptor P ++ cdc_descriptor P) s).
  { unfold sendDescriptor, sendConfiguration. rewrite Htype.
    change (usb_CONFIGURATION_DESCRIPTOR_TYPE
            =? usb_CONFIGURATION_DESCRIPTOR_TYPE) with true. cbv iota.
    destruct (wLength p =? 9); reflexivity. }
  rewrite Hbody.
  destruct (sendUSBPacket_ep0_first_packet s
              (if wLength p =? 9 then config_descriptor P
               else config_descriptor P ++ cdc_descriptor P) Hwf)
    as (s1 & Hrun & Hpk & _).
  exists s1. split; [exact Hrun|]. split; [exact Hpk|].
  intros Hlen. rewrite firstn_firstn, Nat.min_l by exact Hlen.
  rewrite firstn_app, Nat.sub_diag, firstn_O, app_nil_r. apply firstn_all.
Qed.

Lemma X6_configuration_descriptor_length_probe_witness :
  exists s1,
    sendDescriptor example_platform
      {| bmRequestType := 0x80; bRequest := usb_GET_DESCRIPTOR;
         wValueL := 0; wValueH := usb_CONFIGURATION_DESCRIPTOR_TYPE;
         wIndex := 0; wLength := 9 |} boot = Done (tt, s1) /\
    ep0_packets (effects s1) = [[9; 2; 75; 0; 2; 1; 0; 0xA0; 50]].
Proof.
  destruct (X6_configuration_descriptor_length_probe example_platform
              {| bmRequestType := 0x80; bRequest := usb_GET_DESCRIPTOR;
                 wValueL := 0; wValueH := usb_CONFIGURATION_DESCRIPTOR_TYPE;
                 wIndex := 0; wLength := 9 |} boot well_formed_boot eq_refl)
    as (s1 & Hrun & Hpk & _).
  exists s1. split; [exact Hrun | exact Hpk].
Defined.

(** X7.  GET_DESCRIPTOR requests that get no data.  For a descriptor type
    other than device, configuration and string, and for the serial-number
    string, the handler enters the status stage and sends nothing.  For a
    string index that names no string the handler does nothing at all: no
    data, no status stage, no stall.  In each case it reports success. *)
Theorem X7_descriptor_requests_without_data
    (P : platform) (p : usbSetup) (s : state) :
  quiet s ->
  valid_setup p ->
  Z.land (bmRequestType p) usb_REQUEST_TYPE = usb_REQUEST_STANDARD ->
  bRequest p = usb_GET_DESCRIPTOR ->
  let status_only :=
    exists s1, handleInterrupt P (hw_setup p s) = Done (tt, s1) /\
               effects s1 = effects s ++ [TASKS_EP0STATUS] in
  let nothing :=
    exists s1, handleInterrupt P (hw_setup p s) = Done (tt, s1) /\
               effects s1 = effects s in
  (wValueH p <> usb_CONFIGURATION_DESCRIPTOR_TYPE ->
   wValueH p <> usb_DEVICE_DESCRIPTOR_TYPE ->
   wValueH p <> usb_STRING_DESCRIPTOR_TYPE -> status_only) /\
  (wValueH p = usb_STRING_DESCRIPTOR_TYPE ->
   wValueL p <> 0 -> wValueL p <> usb_IPRODUCT P ->
   wValueL p <> usb_IMANUFACTURER P ->
   (wValueL p = usb_ISERIAL P -> status_only) /\
   (wValueL p <> usb_ISERIAL P -> nothing)).
Proof.
  intros Hq Hp Hstd Hreq. cbv zeta.
  assert (Hhandle :
            handleStandardSetup P p =
            (sendDescriptor P p ;; ret true)).
  { unfold handleStandardSetup. rewrite Hreq. reflexivity. }
  split.
  - intros Hc Hd Hs.
    apply Z.eqb_neq in Hc. apply Z.eqb_neq in Hd. apply Z.eqb_neq in Hs.
    eexists. split.
    + eapply (standard_setup_interrupt P p s _ true Hq Hp Hstd).
      rewrite Hhandle. unfold sendDescriptor. rewrite Hc, Hd, Hs.
      reflexivity.
    + reflexivity.
  - intros Hs H0 Hprod Hman.
    apply Z.eqb_neq in H0. apply Z.eqb_neq in Hprod. apply Z.eqb_neq in Hman.
    split; intros Hser.
    + apply Z.eqb_eq in Hser. eexists. split.
      * eapply (standard_setup_interrupt P p s _ true Hq Hp Hstd).
        rewrite Hhandle. unfold sendDescriptor. rewrite Hs.
        cbn [Z.eqb Pos.eqb usb_STRING_DESCRIPTOR_TYPE
             usb_DEVICE_DESCRIPTOR_TYPE usb_CONFIGURATION_DESCRIPTOR_TYPE].
        rewrite H0, Hprod, Hman, Hser. reflexivity.
      * reflexivity.
    + apply Z.eqb_neq in Hser. eexists. split.
      * eapply (standard_setup_interrupt P p s _ true Hq Hp Hstd).
        rewrite Hhandle. unfold sendDescriptor. rewrite Hs.
        cbn [Z.eqb Pos.eqb usb_STRING_DESCRIPTOR_TYPE
             usb_DEVICE_DESCRIPTOR_TYPE usb_CONFIGURATION_DESCRIPTOR_TYPE].
        rewrite H0, Hprod, Hman, Hser. reflexivity.
      * reflexivity.
Qed.

Lemma X7_descriptor_requests_without_data_witness :
  exists s1,
    handleInterrupt example_platform
      (hw_setup {| bmRequestType := 0x80; bRequest := usb_GET_DESCRIPTOR;
                   wValueL := 7; wValueH := usb_STRING_DESCRIPTOR_TYPE;
                   wIndex := 0x0409; wLength := 255 |} boot) = Done (tt, s1) /\
    effects s1 = [].
Proof.
  refine (proj2 (proj2 (X7_descriptor_requests_without_data example_platform
                   {| bmRequestType := 0x80; bRequest := usb_GET_DESCRIPTOR;
                      wValueL := 7; wValueH := usb_STRING_DESCRIPTOR_TYPE;
                      wIndex := 0x0409; wLength := 255 |}
                   boot quiet_boot _ eq_refl eq_refl) eq_refl _ _ _) _).
  - vm_compute. repeat split; first [reflexivity | discriminate].
  - discriminate.
  - discriminate.
  - discriminate.
  - discriminate.
Defined.

(** ** Class requests *)

Lemma land_pow2_testbit (x k : Z) :
  0 <= k -> (0 <? Z.land x (2 ^ k)) = Z.testbit x k.
Proof.
  intros Hk.
  assert (H : Z.land x (2 ^ k) = if Z.testbit x k then 2 ^ k else 0).
  { apply Z.bits_inj'. intros n Hn. rewrite Z.land_spec, Z.pow2_bits_eqb by lia.
    destruct (Z.eqb_spec k n) as [->|Hne].
    - rewrite Bool.andb_true_r. destruct (Z.testbit x n) eqn:E.
      + rewrite Z.pow2_bits_true by lia. reflexivity.
      + rewrite Z.bits_0. reflexivity.
    - rewrite Bool.andb_false_r. destruct (Z.testbit x k).
      + rewrite Z.pow2_bits_false by lia. reflexivity.
      + rewrite Z.bits_0. reflexivity. }
  rewrite H. destruct (Z.testbit x k).
  - apply Z.ltb_lt. apply Z.pow_pos_nonneg; lia.
  - reflexivity.
Qed.

Lemma SET_CONTROL_LINE_STATE_run (p : usbSetup) (s : state) :
  bmRequestType p = usb_REQUEST_HOSTTODEVICE_CLASS_INTERFACE ->
  bRequest p = usb_CDC_SET_CONTROL_LINE_STATE ->
  exists s1,
    cdcSetup p s = Done (true, s1) /\
    usbLineInfo s1 =
      {| dwDTERate := dwDTERate (usbLineInfo s);
         bCharFormat := bCharFormat (usbLineInfo s);
         bParityType := bParityType (usbLineInfo s);
         bDataBits := bDataBits (usbLineInfo s);
         lineState := wValueL p |} /\
    effects s1 = effects s ++ [call_checkShouldReset; TASKS_EP0STATUS] /\
    epout0data_setlinecoding s1 = epout0data_setlinecoding s.
Proof.
  intros Htype Hreq. open_state s. unfold cdcSetup, checkShouldReset.
  rewrite Htype, Hreq.
  cbn [Z.eqb Pos.eqb andb usb_REQUEST_HOSTTODEVICE_CLASS_INTERFACE
       usb_REQUEST_DEVICETOHOST_CLASS_INTERFACE usb_CDC_GET_LINE_CODING
       usb_CDC_SET_LINE_CODING usb_CDC_SET_CONTROL_LINE_STATE
       usb_CDC_SEND_BREAK].
  run. eexists. split; [reflexivity|]. run.
  rewrite <- app_assoc. repeat split.
Qed.

(** X8.  SET_CONTROL_LINE_STATE to the CDC interface stores the low byte of
    wValue as the line state and leaves the line coding alone, calls the reset
    hook and enters the status stage.  From then on [DTR] reports bit 0 of
    that byte and [RTS] bit 1. *)
Theorem X8_SET_CONTROL_LINE_STATE_sets_DTR_and_RTS
    (P : platform) (p : usbSetup) (s : state) :
  quiet s ->
  valid_setup p ->
  bmRequestType p = usb_REQUEST_HOSTTODEVICE_CLASS_INTERFACE ->
  wIndex p = usb_CDC_ACM_INTERFACE P ->
  bRequest p = usb_CDC_SET_CONTROL_LINE_STATE ->
  exists s1,
    handleInterrupt P (hw_setup p s) = Done (tt, s1) /\
    lineState (usbLineInfo s1) = wValueL p /\
    lineCodingBytes (usbLineInfo s1) = lineCodingBytes (usbLineInfo s) /\
    effects s1 = effects s ++ [call_checkShouldReset; TASKS_EP0STATUS] /\
    DTR s1 = Done (Z.testbit (wValueL p) 0, s1) /\
    RTS s1 = Done (Z.testbit (wValueL p) 1, s1).
Proof.
  intros Hq Hp Htype Hidx Hreq.
  destruct (SET_CONTROL_LINE_STATE_run p (hw EVENTS_EP0SETUP 0 (hw_setup p s))
              Htype Hreq) as (s1 & Hrun & Hli & Heff & _).
  assert (Hstd : Z.land (bmRequestType p) usb_REQUEST_TYPE
                 <> usb_REQUEST_STANDARD) by (rewrite Htype; discriminate).
  pose proof (class_setup_interrupt P p s s1 true Hq Hp Hstd Hidx Hrun) as Hirq.
  exists s1. split; [exact Hirq|].
  assert (Hls : lineState (usbLineInfo s1) = wValueL p)
    by (rewrite Hli; reflexivity).
  split; [exact Hls|]. split; [rewrite Hli; reflexivity|].
  split; [exact Heff|].
  unfold DTR, RTS, bind, get, ret. rewrite Hls.
  change usb_CDC_LINESTATE_DTR with (2 ^ 0).
  change usb_CDC_LINESTATE_RTS with (2 ^ 1).
  rewrite !land_pow2_testbit by lia. split; reflexivity.
Qed.

Lemma X8_SET_CONTROL_LINE_STATE_sets_DTR_and_RTS_witness :
  exists s1,
    handleInterrupt example_platform
      (hw_setup {| bmRequestType := 0x21;
                   bRequest := usb_CDC_SET_CONTROL_LINE_STATE;
                   wValueL := 1; wValueH := 0; wIndex := 0; wLength := 0 |}
         boot) = Done (tt, s1) /\
    DTR s1 = Done (true, s1) /\
    RTS s1 = Done (false, s1).
Proof.
  destruct (X8_SET_CONTROL_LINE_STATE_sets_DTR_and_RTS example_platform
              {| bmRequestType := 0x21;
                 bRequest := usb_CDC_SET_CONTROL_LINE_STATE;
                 wValueL := 1; wValueH := 0; wIndex := 0; wLength := 0 |}
              boot quiet_boot)
    as (s1 & Hrun & _ & _ & _ & Hdtr & Hrts).
  - vm_compute. repeat split; first [reflexivity | discriminate].
  - reflexivity.
  - reflexivity.
  - reflexivity.
  - exists s1. split; [exact Hrun|]. split; [exact Hdtr | exact Hrts].
Defined.

Lemma SET_LINE_CODING_run (p : usbSetup) (s : state) :
  bmRequestType p = usb_REQUEST_HOSTTODEVICE_CLASS_INTERFACE ->
  bRequest p = usb_CDC_SET_LINE_CODING ->
  exists s1,
    cdcSetup p s = Done (true, s1) /\
    epout0data_setlinecoding s1 = true /\
    usbLineInfo s1 = usbLineInfo s /\
    effects s1 = effects s ++ [TASKS_EP0RCVOUT].
Proof.
  intros Htype Hreq. open_state s. unfold cdcSetup.
  rewrite Htype, Hreq.
  cbn [Z.eqb Pos.eqb andb usb_REQUEST_HOSTTODEVICE_CLASS_INTERFACE
       usb_REQUEST_DEVICETOHOST_CLASS_INTERFACE usb_CDC_GET_LINE_CODING
       usb_CDC_SET_LINE_CODING].
  run. eexists. split; [reflexivity|]. run. repeat split.
Qed.

(** EP0DATADONE, alone, while the data phase of SET_LINE_CODING is pending:
    the OUT transfer into the staging buffer of endpoint 0 is started. *)
Lemma data_phase_starts_on_EP0DATADONE (P : platform) (s : state) :
  quiet s ->
  epout0data_setlinecoding s = true ->
  exists s2,
    handleInterrupt P (hw EVENTS_EP0DATADONE 1 s) = Done (tt, s2) /\
    effects s2 =
      effects s ++ [TASKS_STARTEPOUT 0 (Some (out_cache 0 0)) 64] /\
    epout0data_setlinecoding s2 = true /\
    usbLineInfo s2 = usbLineInfo s /\
    sendOnEP0DATADONE s2 = sendOnEP0DATADONE s /\
    (well_formed s -> well_formed s2) /\
    quiet s2.
Proof.
  intros (H1 & H2 & H3 & H4 & H5) Hflag.
  unfold handleInterrupt, bind at 1.
  rewrite on_USBEVENT_idle by (unfold hw; fields; numerals; lia).
  open_state s. subst slc.
  unfold on_EP0DATADONE, start_EPOUT.
  repeat progress (run; numerals).
  eexists. split; [reflexivity|]. unfold quiet. run. numerals.
  split; [reflexivity|]. split; [reflexivity|]. split; [reflexivity|].
  split; [reflexivity|]. split; [exact (fun H => H)|].
  repeat split; try assumption.
Qed.

(** X9.  A whole SET_LINE_CODING control transfer.  The setup packet moves no
    data: it marks the data phase as pending and asks the peripheral to
    receive.  The next EP0DATADONE starts an OUT transfer of at most 64 bytes
    into the staging buffer of endpoint 0 instead of a status stage.  When
    that transfer has ended with seven bytes, they are the line coding that
    GET_LINE_CODING would report, the reset hook is called and the status
    stage is entered.  The line state is the same throughout. *)
Theorem X9_SET_LINE_CODING_transfer
    (P : platform) (p : usbSetup) (s : state) (b0 b1 b2 b3 b4 b5 b6 : Z) :
  well_formed s ->
  quiet s ->
  valid_setup p ->
  bmRequestType p = usb_REQUEST_HOSTTODEVICE_CLASS_INTERFACE ->
  wIndex p = usb_CDC_ACM_INTERFACE P ->
  bRequest p = usb_CDC_SET_LINE_CODING ->
  Forall is_byte [b0; b1; b2; b3; b4; b5; b6] ->
  exists s1 s2 s3,
    handleInterrupt P (hw_setup p s) = Done (tt, s1) /\
    usbLineInfo s1 = usbLineInfo s /\
    handleInterrupt P (hw EVENTS_EP0DATADONE 1 s1) = Done (tt, s2) /\
    usbLineInfo s2 = usbLineInfo s /\
    handleInterrupt P (hw_ep0_out [b0; b1; b2; b3; b4; b5; b6] s2) =
      Done (tt, s3) /\
    lineCodingBytes (usbLineInfo s3) = [b0; b1; b2; b3; b4; b5; b6] /\
    lineState (usbLineInfo s3) = lineState (usbLineInfo s) /\
    epout0data_setlinecoding s3 = false /\
    effects s3 =
      effects s ++
      [TASKS_EP0RCVOUT; TASKS_STARTEPOUT 0 (Some (out_cache 0 0)) 64;
       call_checkShouldReset; TASKS_EP0STATUS].
Proof.
  intros Hwf Hq Hp Htype Hidx Hreq Hb.
  destruct (SET_LINE_CODING_run p (hw EVENTS_EP0SETUP 0 (hw_setup p s))
              Htype Hreq) as (s1 & Hrun & Hflag1 & Hli1 & Heff1).
  assert (Hstd : Z.land (bmRequestType p) usb_REQUEST_TYPE
                 <> usb_REQUEST_STANDARD) by (rewrite Htype; discriminate).
  pose proof (class_setup_interrupt P p s s1 true Hq Hp Hstd Hidx Hrun) as Hirq.
  assert (Hq1 : quiet s1) by exact (quiet_after_setup P p s s1 Hq Hp Hirq).
  assert (Hwf1 : well_formed s1)
    by exact (shape_kept_handleInterrupt P _ _ _ Hirq Hwf).
  destruct (data_phase_starts_on_EP0DATADONE P s1 Hq1 Hflag1)
    as (s2 & Hrun2 & Heff2 & Hflag2 & Hli2 & _ & Hwf2 & Hq2).
  destruct (line_coding_data_phase P s2 b0 b1 b2 b3 b4 b5 b6
              (Hwf2 Hwf1) Hq2 Hflag2)
    as (s3 & Hrun3 & Hli3 & Heff3 & Hflag3 & _).
  change (usbLineInfo (hw EVENTS_EP0SETUP 0 (hw_setup p s)))
    with (usbLineInfo s) in Hli1.
  exists s1, s2, s3.
  split; [exact Hirq|]. split; [exact Hli1|]. split; [exact Hrun2|].
  split; [congruence|]. split; [exact Hrun3|].
  split; [rewrite Hli3; apply lineCodingBytes_parse; exact Hb|].
  split; [rewrite Hli3; cbn [lineState]; congruence|].
  split; [exact Hflag3|].
  rewrite Heff3, Heff2, Heff1.
  change (effects (hw EVENTS_EP0SETUP 0 (hw_setup p s))) with (effects s).
  rewrite <- !app_assoc. reflexivity.
Qed.

Lemma X9_SET_LINE_CODING_transfer_witness :
  exists s1 s2 s3,
    handleInterrupt example_platform
      (hw_setup {| bmRequestType := 0x21; bRequest := usb_CDC_SET_LINE_CODING;
                   wValueL := 0; wValueH := 0; wIndex := 0; wLength := 7 |}
         boot) = Done (tt, s1) /\
    handleInterrupt example_platform (hw EVENTS_EP0DATADONE 1 s1) =
      Done (tt, s2) /\
    handleInterrupt example_platform
      (hw_ep0_out [0x00; 0xC2; 0x01; 0x00; 0; 0; 8] s2) = Done (tt, s3) /\
    lineCodingBytes (usbLineInfo s3) = [0x00; 0xC2; 0x01; 0x00; 0; 0; 8].
Proof.
  destruct (X9_SET_LINE_CODING_transfer example_platform
              {| bmRequestType := 0x21; bRequest := usb_CDC_SET_LINE_CODING;
                 wValueL := 0; wValueH := 0; wIndex := 0; wLength := 7 |}
              boot 0x00 0xC2 0x01 0x00 0 0 8 well_formed_boot quiet_boot)
    as (s1 & s2 & s3 & H1 & _ & H2 & _ & H3 & Hbytes & _).
  - vm_compute. repeat split; first [reflexivity | discriminate].
  - reflexivity.
  - reflexivity.
  - reflexivity.
  - repeat constructor; discriminate.
  - exists s1, s2, s3. split; [exact H1|]. split; [exact H2|].
    split; [exact H3 | exact Hbytes].
Defined.

(** *** Bulk reception *)

Lemma with_USB_Buffer_twice (a b : list Z) (s : state) :
  with_USB_Buffer a (with_USB_Buffer b s) = with_USB_Buffer a s.
Proof. destruct s. reflexivity. Qed.

Lemma with_USB_Buffer_same (s : state) : with_USB_Buffer (USB_Buffer s) s = s.
Proof. destruct s. reflexivity. Qed.

(** The loop of [handleEndpoint] from index [from] on: the bytes go to the
    ring buffer in the order of the staging buffer. *)
Lemma receive_loop (ep : Z) (buf : list Z) (n from : nat) (s : state) :
  0 <= ep < cache_buffers ->
  nth_error (udd_ep_out_cache_buffer s) (Z.to_nat ep) = Some buf ->
  (from + n <= length buf)%nat ->
  for_each (upto (Z.of_nat from) n)
    (fun i =>
       buf <- out_cache_buffer ep ;;
       match nth_error buf (Z.to_nat i) with
       | Some b => Receive b
       | None => panic
       end) s =
  Done (tt, with_USB_Buffer (USB_Buffer s ++ firstn n (skipn from buf)) s).
Proof.
  intros Hep Hbuf. revert from s Hbuf.
  induction n as [|n IH]; intros from s Hbuf Hlen.
  - cbn [upto for_each firstn]. rewrite app_nil_r, with_USB_Buffer_same.
    reflexivity.
  - cbn [upto for_each]. unfold bind at 1. unfold bind at 1.
    unfold out_cache_buffer at 1.
    replace ((0 <=? ep) && (ep <? cache_buffers)) with true
      by (symmetry; apply andb_true_iff; split;
          [apply Z.leb_le | apply Z.ltb_lt]; lia).
    rewrite Hbuf, Nat2Z.id.
    destruct (nth_error buf from) as [b|] eqn:Hb;
      [|apply nth_error_None in Hb; lia].
    unfold Receive, modify.
    replace (Z.of_nat from + 1) with (Z.of_nat (S from)) by lia.
    rewrite IH by (destruct s; cbn in *; (exact Hbuf || lia)).
    rewrite with_USB_Buffer_twice. do 3 f_equal.
    replace (USB_Buffer (with_USB_Buffer (USB_Buffer s ++ [b]) s))
      with (USB_Buffer s ++ [b]) by (destruct s; reflexivity).
    rewrite <- app_assoc. f_equal.
    rewrite <- (firstn_skipn from buf) in Hb.
    rewrite nth_error_app2 in Hb by (rewrite length_firstn; lia).
    rewrite length_firstn, Nat.min_l, Nat.sub_diag in Hb by lia.
    destruct (skipn from buf) as [|x tl] eqn:Hsk; [discriminate|].
    cbn [nth_error] in Hb. injection Hb as ->.
    cbn [firstn app]. f_equal.
    replace (S from) with (1 + from)%nat by lia.
    rewrite <- skipn_skipn, Hsk. reflexivity.
Qed.

(** The loop of [handleEndpoint] indexes past the end of the staging buffer
    when it is asked for more bytes than the buffer holds. *)
Lemma receive_loop_overrun (ep : Z) (buf : list Z) (n from : nat) (s : state) :
  0 <= ep < cache_buffers ->
  nth_error (udd_ep_out_cache_buffer s) (Z.to_nat ep) = Some buf ->
  (from <= length buf < from + n)%nat ->
  for_each (upto (Z.of_nat from) n)
    (fun i =>
       buf <- out_cache_buffer ep ;;
       match nth_error buf (Z.to_nat i) with
       | Some b => Receive b
       | None => panic
       end) s = Panic.
Proof.
  intros Hep Hbuf. revert from s Hbuf.
  induction n as [|n IH]; intros from s Hbuf Hlen; [lia|].
  cbn [upto for_each]. unfold bind at 1. unfold bind at 1.
  unfold out_cache_buffer at 1.
  replace ((0 <=? ep) && (ep <? cache_buffers)) with true
    by (symmetry; apply andb_true_iff; split;
        [apply Z.leb_le | apply Z.ltb_lt]; lia).
  rewrite Hbuf, Nat2Z.id.
  destruct (nth_error buf from) as [b|] eqn:Hb; [|reflexivity].
  assert (from < length buf)%nat by (apply nth_error_Some; congruence).
  unfold Receive, modify.
  replace (Z.of_nat from + 1) with (Z.of_nat (S from)) by lia.
  apply IH; [destruct s; exact Hbuf | lia].
Qed.

Lemma int32_small (x : Z) : 0 <= x < 2 ^ 31 -> int32 x = x.
Proof.
  intros H. unfold int32. rewrite Z.mod_small; lia.
Qed.

Lemma cache_shape_row (m : list (list Z)) (ep : Z) :
  cache_shape m -> 0 <= ep < cache_buffers ->
  exists buf, nth_error m (Z.to_nat ep) = Some buf /\ length buf = 128%nat.
Proof.
  intros [Hlen Hall] Hep.
  destruct (nth_error m (Z.to_nat ep)) as [buf|] eqn:E.
  - exists buf. split; [reflexivity|].
    apply nth_error_In in E. rewrite Forall_forall in Hall.
    exact (Hall _ E).
  - apply nth_error_None in E. rewrite Hlen in E. unfold cache_buffers in *. lia.
Qed.

(** [handleEndpoint] after a transfer that fits the staging buffer. *)
Lemma handleEndpoint_run (ep : Z) (n : nat) (s : state) :
  well_formed s ->
  0 <= ep < cache_buffers ->
  regs s (EPOUT_AMOUNT ep) = Z.of_nat n ->
  (n <= 128)%nat ->
  handleEndpoint ep s =
  Done (tt,
        with_regs (fun r => if reg_eqb (SIZE_EPOUT ep) r then 0 else regs s r)
          (with_USB_Buffer
             (USB_Buffer s ++
              firstn n (nth (Z.to_nat ep) (udd_ep_out_cache_buffer s) []))
             s)).
Proof.
  intros [_ Hout] Hep Hamount Hn.
  destruct (cache_shape_row _ ep Hout Hep) as (buf & Hbuf & Hlen).
  rewrite (nth_error_nth _ _ [] Hbuf).
  unfold handleEndpoint, check_ep.
  replace ((0 <=? ep) && (ep <? 8)) with true
    by (symmetry; apply andb_true_iff; unfold cache_buffers in Hep; split;
        [apply Z.leb_le | apply Z.ltb_lt]; lia).
  unfold bind at 1, ret. unfold bind at 1, reg_get. rewrite Hamount.
  rewrite int32_small by lia. rewrite Nat2Z.id.
  unfold bind at 1.
  pose proof (receive_loop ep buf n 0 s Hep Hbuf) as Hloop.
  change (Z.of_nat 0) with 0 in Hloop.
  rewrite Hloop by (rewrite Hlen; lia).
  rewrite skipn_O. destruct s. reflexivity.
Qed.

(** X10.  [handleEndpoint] after an OUT transfer of [n] bytes, [n] at most the
    128 bytes of a staging buffer: exactly the first [n] bytes of the staging
    buffer of the endpoint are appended to the ring buffer, in their order,
    and the size register of the endpoint is reset to 0.  Nothing else
    changes: no transfer is started and the staging buffers are as before. *)
Theorem X10_handleEndpoint_moves_the_received_bytes
    (ep : Z) (n : nat) (s : state) :
  well_formed s ->
  0 <= ep < cache_buffers ->
  regs s (EPOUT_AMOUNT ep) = Z.of_nat n ->
  (n <= 128)%nat ->
  handleEndpoint ep s =
  Done (tt,
        with_regs (fun r => if reg_eqb (SIZE_EPOUT ep) r then 0 else regs s r)
          (with_USB_Buffer
             (USB_Buffer s ++
              firstn n (nth (Z.to_nat ep) (udd_ep_out_cache_buffer s) []))
             s)).
Proof.
  exact (handleEndpoint_run ep n s).
Qed.

Lemma X10_handleEndpoint_moves_the_received_bytes_witness :
  handleEndpoint 2 (hw (EPOUT_AMOUNT 2) 3 boot) =
  Done (tt,
        with_regs
          (fun r => if reg_eqb (SIZE_EPOUT 2) r then 0
                    else regs (hw (EPOUT_AMOUNT 2) 3 boot) r)
          (with_USB_Buffer [0; 0; 0] (hw (EPOUT_AMOUNT 2) 3 boot))).
Proof.
  apply (X10_handleEndpoint_moves_the_received_bytes 2 3
           (hw (EPOUT_AMOUNT 2) 3 boot)).
  - exact well_formed_boot.
  - split; [discriminate | reflexivity].
  - reflexivity.
  - repeat constructor.
Defined.

(** X11.  [handleEndpoint] has no bound of its own on the amount the
    peripheral reports: told of more bytes than the 128 of a staging buffer,
    the loop indexes past the end of the array and the driver panics, before
    the size register is reset. *)
Theorem X11_handleEndpoint_overrun_panics (ep amount : Z) (s : state) :
  well_formed s ->
  0 <= ep < cache_buffers ->
  regs s (EPOUT_AMOUNT ep) = amount ->
  128 < amount < 2 ^ 31 ->
  handleEndpoint ep s = Panic.
Proof.
  intros [_ Hout] Hep Hamount Hn.
  destruct (cache_shape_row _ ep Hout Hep) as (buf & Hbuf & Hlen).
  unfold handleEndpoint, check_ep.
  replace ((0 <=? ep) && (ep <? 8)) with true
    by (symmetry; apply andb_true_iff; unfold cache_buffers in Hep; split;
        [apply Z.leb_le | apply Z.ltb_lt]; lia).
  unfold bind at 1, ret. unfold bind at 1, reg_get. rewrite Hamount.
  rewrite int32_small by lia.
  unfold bind at 1.
  pose proof (receive_loop_overrun ep buf (Z.to_nat amount) 0 s Hep Hbuf)
    as Hloop.
  change (Z.of_nat 0) with 0 in Hloop.
  rewrite Hloop by (rewrite Hlen; lia).
  reflexivity.
Qed.

Lemma X11_handleEndpoint_overrun_panics_witness :
  handleEndpoint 2 (hw (EPOUT_AMOUNT 2) 129 boot) = Panic.
Proof.
  apply (X11_handleEndpoint_overrun_panics 2 129 (hw (EPOUT_AMOUNT 2) 129 boot)).
  - exact well_formed_boot.
  - split; [discriminate | reflexivity].
  - reflexivity.
  - split; reflexivity.
Defined.

(** The ENDEPOUT event of the bulk OUT endpoint, alone: the received bytes are
    in the ring buffer and the critical section is left. *)
Lemma bulk_out_run (P : platform) (s : state) (data : list Z) :
  well_formed s ->
  quiet s ->
  (length data <= 128)%nat ->
  exists s1,
    handleInterrupt P (hw_bulk_out data s) = Done (tt, s1) /\
    USB_Buffer s1 = USB_Buffer s ++ data /\
    regs s1 (SIZE_EPOUT usb_CDC_ENDPOINT_OUT) = 0 /\
    HasBits (easyDMABusy s1) 1 = false /\
    effects s1 = effects s /\
    usbLineInfo s1 = usbLineInfo s /\
    epout0data_setlinecoding s1 = epout0data_setlinecoding s /\
    well_formed s1 /\
    quiet s1.
Proof.
  intros [Hin Hout] (H1 & H2 & H3 & H4 & H5) Hlen.
  destruct (cache_shape_rows _ Hout)
    as (r0 & r1 & r2 & r3 & r4 & r5 & r6 & Hm & L0 & L1 & L2 & L3).
  assert (Hshape : cache_shape [r0; r1; copy r2 data; r3; r4; r5; r6]).
  { rewrite Hm in Hout.
    exact (cache_shape_nth_upd_row [r0; r1; r2; r3; r4; r5; r6] 2 r2
             (copy r2 data) eq_refl (copy_length _ _) Hout). }
  open_state s. subst oc.
  rewrite handleInterrupt_ENDEPOUT_only
    by (unfold hw_bulk_out; run;
        cbn [reg_eqb reg_code fst snd Z.eqb Pos.eqb andb usb_CDC_ENDPOINT_OUT];
        lia).
  unfold on_ENDEPOUT, exitCriticalSection, hw_bulk_out.
  cbn [endPoints length upto for_each Z.add Pos.add Pos.succ].
  change (Z.to_nat usb_CDC_ENDPOINT_OUT) with 2%nat.
  unfold nth_upd. cbn [nth_error firstn skipn app].
  repeat progress (run; numerals; rewrite ?H5).
  rewrite (handleEndpoint_run 2 (length data));
    [ | split; [exact Hin | exact Hshape]
      | split; [discriminate | reflexivity]
      | run; numerals; reflexivity
      | exact Hlen ].
  repeat progress (run; numerals; rewrite ?H5).
  eexists. split; [reflexivity|]. unfold well_formed, quiet. run. numerals.
  change (Z.to_nat 2) with 2%nat. cbn [nth app].
  split.
  { f_equal. rewrite copy_fits by lia.
    rewrite firstn_app, Nat.sub_diag, firstn_O, app_nil_r. apply firstn_all. }
  split; [reflexivity|]. split; [apply HasBits_ClearBits|].
  split; [reflexivity|]. split; [reflexivity|]. split; [reflexivity|].
  split; [split; [exact Hin | exact Hshape]|].
  repeat split; try assumption.
  intros i. destruct (match i with Z.pos q => (2 =? q)%positive | _ => false end);
    [reflexivity | apply H5].
Qed.

(** *** The data endpoints and the busy flag *)

Section DataEndpoints.

Variable P : platform.

(** [handleInterrupt] with EPDATA as the only event. *)
Lemma handleInterrupt_EPDATA_only (s : state) :
  regs s EVENTS_USBEVENT <> 1 ->
  regs s EVENTS_EP0DATADONE <> 1 ->
  regs s EVENTS_EP0SETUP <> 1 ->
  handleInterrupt P s = (on_EPDATA P ;; on_ENDEPOUT) s.
Proof.
  intros H1 H2 H3.
  unfold handleInterrupt, bind at 1. rewrite on_USBEVENT_idle by exact H1.
  unfold bind at 1, reg_get. apply Z.eqb_neq in H2. rewrite H2.
  unfold bind at 1. rewrite on_EP0SETUP_idle by exact H3. reflexivity.
Qed.

Ltac epdata_only :=
  rewrite handleInterrupt_EPDATA_only
    by (unfold hw_epdata; run;
        cbn [reg_eqb reg_code fst snd Z.eqb Pos.eqb andb]; lia).

Ltac epdata_loop :=
  unfold on_EPDATA, on_ENDEPOUT, hw_epdata, enterCriticalSection,
    waitForEasyDMA, exitCriticalSection, start_EPOUT;
  cbn [endPoints length Nat.sub upto for_each Z.add Pos.add Pos.succ];
  change (1 - 1) with 0; change (2 - 1) with 1; change (3 - 1) with 2.

(** Data has arrived on the bulk OUT endpoint and the easyDMA is free: the
    handler takes the critical section and starts the transfer into the
    staging buffer of the endpoint, for as many bytes as the peripheral
    reports in [SIZE.EPOUT]. *)
Lemma bulk_out_data_run (s : state) (status : Z) :
  quiet s ->
  0 < Z.land status (shl32 (USBD_EPDATASTATUS_EPOUT1 P) 1) ->
  Z.land status (shl32 (USBD_EPDATASTATUS_EPIN1 P) 2) <= 0 ->
  HasBits (easyDMABusy s) 1 = false ->
  exists s1,
    handleInterrupt P (hw_epdata status s) = Done (tt, s1) /\
    effects s1 =
      effects s ++
      [TASKS_STARTEPOUT usb_CDC_ENDPOINT_OUT
         (Some (out_cache usb_CDC_ENDPOINT_OUT 0))
         (regs s (SIZE_EPOUT usb_CDC_ENDPOINT_OUT))] /\
    HasBits (easyDMABusy s1) 1 = true /\
    USB_Buffer s1 = USB_Buffer s /\
    (well_formed s -> well_formed s1) /\
    quiet s1.
Proof.
  intros (H1 & H2 & H3 & H4 & H5) Hout Hin Hbusy.
  apply Z.ltb_lt in Hout. apply Z.ltb_ge in Hin.
  open_state s. epdata_only. epdata_loop.
  repeat progress (run; numerals; rewrite ?Hout, ?Hin, ?Hbusy, ?H5,
                     ?Bool.orb_true_r, ?Bool.orb_false_l).
  destruct (0 <? Z.land status (shl32 (USBD_EPDATASTATUS_EPIN1 P) 0)),
    (0 <? Z.land status (shl32 (USBD_EPDATASTATUS_EPOUT1 P) 0)),
    (0 <? Z.land status (shl32 (USBD_EPDATASTATUS_EPOUT1 P) 2));
    repeat progress (run; numerals; rewrite ?Hout, ?Hin, ?Hbusy, ?H5);
    (eexists; split; [reflexivity|]; unfold quiet; run; numerals;
     split; [reflexivity|]; split; [apply HasBits_SetBits|];
     split; [reflexivity|]; split; [exact (fun H => H)|];
     repeat split; assumption).
Qed.

(** Data has arrived on the bulk OUT endpoint while the busy flag is set: the
    handler waits in [waitForEasyDMA] for a flag that only the handler
    clears. *)
Lemma bulk_out_data_spins (s : state) (status : Z) :
  quiet s ->
  0 < Z.land status (shl32 (USBD_EPDATASTATUS_EPOUT1 P) 1) ->
  HasBits (easyDMABusy s) 1 = true ->
  handleInterrupt P (hw_epdata status s) = Spin.
Proof.
  intros (H1 & H2 & H3 & H4 & H5) Hout Hbusy.
  apply Z.ltb_lt in Hout.
  open_state s. epdata_only. epdata_loop.
  repeat progress (run; numerals; rewrite ?Hout, ?Hbusy, ?H5,
                     ?Bool.orb_true_r).
  destruct (0 <? Z.land status (shl32 (USBD_EPDATASTATUS_EPIN1 P) 0)),
    (0 <? Z.land status (shl32 (USBD_EPDATASTATUS_EPOUT1 P) 0));
    repeat progress (run; numerals; rewrite ?Hout, ?Hbusy, ?H5);
    reflexivity.
Qed.

(** The transfer on the bulk IN endpoint is over and no data has arrived:
    the handler leaves the critical section and starts nothing. *)
Lemma bulk_in_done_run (s : state) (status : Z) :
  quiet s ->
  0 < Z.land status (shl32 (USBD_EPDATASTATUS_EPIN1 P) 2) ->
  Z.land status (shl32 (USBD_EPDATASTATUS_EPOUT1 P) 1) <= 0 ->
  exists s1,
    handleInterrupt P (hw_epdata status s) = Done (tt, s1) /\
    effects s1 = effects s /\
    HasBits (easyDMABusy s1) 1 = false /\
    usbLineInfo s1 = usbLineInfo s /\
    USB_Buffer s1 = USB_Buffer s /\
    (well_formed s -> well_formed s1) /\
    quiet s1.
Proof.
  intros (H1 & H2 & H3 & H4 & H5) Hin Hout.
  apply Z.ltb_lt in Hin. apply Z.ltb_ge in Hout.
  open_state s. epdata_only. epdata_loop.
  repeat progress (run; numerals; rewrite ?Hout, ?Hin, ?H5,
                     ?Bool.orb_true_r, ?Bool.orb_false_l,
                     ?Bool.orb_false_r).
  destruct (0 <? Z.land status (shl32 (USBD_EPDATASTATUS_EPIN1 P) 0)),
    (0 <? Z.land status (shl32 (USBD_EPDATASTATUS_EPOUT1 P) 0)),
    (0 <? Z.land status (shl32 (USBD_EPDATASTATUS_EPIN1 P) 1)),
    (0 <? Z.land status (shl32 (USBD_EPDATASTATUS_EPOUT1 P) 2));
    repeat progress (run; numerals; rewrite ?Hout, ?Hin, ?H5);
    (eexists; split; [reflexivity|]; unfold quiet; run; numerals;
     split; [reflexivity|]; split; [apply HasBits_ClearBits|];
     split; [reflexivity|]; split; [reflexivity|];
     split; [exact (fun H => H)|];
     repeat split; assumption).
Qed.

End DataEndpoints.

Lemma in_transfers_app (es es' : list effect) :
  in_transfers (es ++ es') = in_transfers es ++ in_transfers es'.
Proof.
  induction es as [|e es IH]; [reflexivity|].
  destruct e; cbn [in_transfers app]; rewrite ?IH; reflexivity.
Qed.

(** [WriteByte] with the line open and the easyDMA free. *)
Lemma WriteByte_run (s : state) (c : Z) :
  well_formed s ->
  quiet s ->
  0 < lineState (usbLineInfo s) ->
  HasBits (easyDMABusy s) 1 = false ->
  exists s1,
    WriteByte c s = Done (None, s1) /\
    effects s1 =
      effects s ++
      [TASKS_STARTEPIN usb_CDC_ENDPOINT_IN
         (Some (in_cache usb_CDC_ENDPOINT_IN 0)) 1 [c]] /\
    HasBits (easyDMABusy s1) 1 = true /\
    usbLineInfo s1 = usbLineInfo s /\
    USB_Buffer s1 = USB_Buffer s /\
    epout0data_setlinecoding s1 = epout0data_setlinecoding s /\
    well_formed s1 /\
    quiet s1.
Proof.
  intros [Hin Hout] (H1 & H2 & H3 & H4 & H5) Hls Hbusy.
  destruct (cache_shape_rows _ Hin)
    as (r0 & r1 & r2 & r3 & r4 & r5 & r6 & Hm & L0 & L1 & L2 & L3).
  assert (Hshape : cache_shape
                     [r0; r1; r2; nth_upd 0 (fun _ => c) r3; r4; r5; r6]).
  { rewrite Hm in Hin.
    apply (cache_shape_nth_upd_row [r0; r1; r2; r3; r4; r5; r6] 3 r3
             (nth_upd 0 (fun _ => c) r3) eq_refl); [|exact Hin].
    destruct r3; [discriminate|]. reflexivity. }
  open_state s. subst ic.
  unfold WriteByte, enterCriticalSection, waitForEasyDMA, in_cache_buffer,
    sendViaEPIn, check_ep, start_EPIN, dma_read.
  change usb_CDC_ENDPOINT_IN with 3.
  change ((0 <=? 3) && (3 <? cache_buffers)) with true.
  change ((0 <=? 3) && (3 <? 8)) with true.
  change (Z.to_nat 3) with 3%nat.
  change (Z.to_nat (cache_buffer_size * 3 + 0)) with 384%nat.
  apply Z.ltb_lt in Hls. run. rewrite Hls, Hbusy.
  repeat progress (run; numerals; cbn [nth_error]).
  eexists. split; [reflexivity|]. unfold well_formed, quiet. run. numerals.
  change (uint32 1) with 1.
  change (nth_upd 3 (fun _ => nth_upd 0 (fun _ => c) r3)
            [r0; r1; r2; r3; r4; r5; r6])
    with [r0; r1; r2; nth_upd 0 (fun _ => c) r3; r4; r5; r6].
  split.
  { do 3 f_equal.
    destruct r3 as [|x r3]; [discriminate|].
    unfold nth_upd. change (Z.to_nat 3) with 3%nat.
    set (window := Z.to_nat 1).
    set (offset := Z.to_nat (cache_buffer_size * 3 + 0)).
    cbn [nth_error firstn skipn app]. cbn [concat].
    subst window offset.
    change (Z.to_nat (cache_buffer_size * 3 + 0)) with (128 + 128 + 128)%nat.
    rewrite <- !skipn_skipn.
    rewrite (skipn_app 128 r0), L0, Nat.sub_diag, skipn_O.
    rewrite (skipn_all2 (n := 128) r0) by lia.
    cbn [app].
    rewrite (skipn_app 128 r1), L1, Nat.sub_diag, skipn_O.
    rewrite (skipn_all2 (n := 128) r1) by lia.
    cbn [app].
    rewrite (skipn_app 128 r2), L2, Nat.sub_diag, skipn_O.
    rewrite (skipn_all2 (n := 128) r2) by lia.
    reflexivity. }
  split; [apply HasBits_SetBits|].
  split; [reflexivity|]. split; [reflexivity|]. split; [reflexivity|].
  split; [split; [exact Hshape | exact Hout]|].
  repeat split; assumption.
Qed.

Lemma WriteByte_busy (s : state) (c : Z) :
  0 < lineState (usbLineInfo s) ->
  HasBits (easyDMABusy s) 1 = true ->
  WriteByte c s = Spin.
Proof.
  intros Hls Hbusy. apply Z.ltb_lt in Hls. open_state s.
  unfold WriteByte, enterCriticalSection, waitForEasyDMA.
  run. rewrite Hls, Hbusy. reflexivity.
Qed.

(** X12.  Reception on the bulk OUT endpoint, from the EPDATA event to the
    ring buffer.  With the easyDMA free, the interrupt that reports data on
    the endpoint takes the critical section and starts one OUT transfer into
    the staging buffer of the endpoint, for the size the peripheral reports.
    The interrupt at the end of that transfer appends the received bytes, in
    their order, to the ring buffer, resets the size register, starts nothing
    and leaves the critical section. *)
Theorem X12_bulk_reception
    (P : platform) (s : state) (status : Z) (data : list Z) :
  well_formed s ->
  quiet s ->
  HasBits (easyDMABusy s) 1 = false ->
  0 < Z.land status (shl32 (USBD_EPDATASTATUS_EPOUT1 P) 1) ->
  Z.land status (shl32 (USBD_EPDATASTATUS_EPIN1 P) 2) <= 0 ->
  regs s (SIZE_EPOUT usb_CDC_ENDPOINT_OUT) = Z.of_nat (length data) ->
  (length data <= 128)%nat ->
  exists s1 s2,
    handleInterrupt P (hw_epdata status s) = Done (tt, s1) /\
    effects s1 =
      effects s ++
      [TASKS_STARTEPOUT usb_CDC_ENDPOINT_OUT
         (Some (out_cache usb_CDC_ENDPOINT_OUT 0))
         (Z.of_nat (length data))] /\
    HasBits (easyDMABusy s1) 1 = true /\
    handleInterrupt P (hw_bulk_out data s1) = Done (tt, s2) /\
    USB_Buffer s2 = USB_Buffer s ++ data /\
    regs s2 (SIZE_EPOUT usb_CDC_ENDPOINT_OUT) = 0 /\
    effects s2 = effects s1 /\
    HasBits (easyDMABusy s2) 1 = false.
Proof.
  intros Hwf Hq Hbusy Hout Hin Hsize Hlen.
  destruct (bulk_out_data_run P s status Hq Hout Hin Hbusy)
    as (s1 & Hrun1 & Heff1 & Hbusy1 & Hrx1 & Hwf1 & Hq1).
  destruct (bulk_out_run P s1 data (Hwf1 Hwf) Hq1 Hlen)
    as (s2 & Hrun2 & Hrx2 & Hsize2 & Hbusy2 & Heff2 & _).
  exists s1, s2.
  split; [exact Hrun1|]. split; [rewrite Heff1, Hsize; reflexivity|].
  split; [exact Hbusy1|]. split; [exact Hrun2|].
  split; [rewrite Hrx2, Hrx1; reflexivity|].
  split; [exact Hsize2|]. split; [exact Heff2 | exact Hbusy2].
Qed.

Lemma X12_bulk_reception_witness :
  exists s1 s2,
    handleInterrupt example_platform
      (hw_epdata 0x40000 (hw (SIZE_EPOUT 2) 3 boot)) = Done (tt, s1) /\
    handleInterrupt example_platform (hw_bulk_out [0x61; 0x62; 0x63] s1) =
      Done (tt, s2) /\
    USB_Buffer s2 = [0x61; 0x62; 0x63].
Proof.
  destruct (X12_bulk_reception example_platform (hw (SIZE_EPOUT 2) 3 boot)
              0x40000 [0x61; 0x62; 0x63] well_formed_boot)
    as (s1 & s2 & H1 & _ & _ & H2 & Hrx & _).
  - vm_compute. repeat split.
  - reflexivity.
  - reflexivity.
  - discriminate.
  - reflexivity.
  - repeat constructor.
  - exists s1, s2. split; [exact H1|]. split; [exact H2 | exact Hrx].
Defined.

(** X13.  Data that arrives on the bulk OUT endpoint while a byte written by
    [WriteByte] is still in flight hangs the driver: [WriteByte] has set the
    busy flag, and the handler, asked to receive, waits in [waitForEasyDMA]
    for the flag, which only a later part or a later run of the handler
    clears.  This holds whether or not the same interrupt also reports the
    end of the IN transfer. *)
Theorem X13_reception_during_WriteByte_hangs_the_handler
    (P : platform) (s : state) (c status : Z) :
  well_formed s ->
  quiet s ->
  0 < lineState (usbLineInfo s) ->
  HasBits (easyDMABusy s) 1 = false ->
  0 < Z.land status (shl32 (USBD_EPDATASTATUS_EPOUT1 P) 1) ->
  exists s1,
    WriteByte c s = Done (None, s1) /\
    handleInterrupt P (hw_epdata status s1) = Spin.
Proof.
  intros Hwf Hq Hls Hbusy Hout.
  destruct (WriteByte_run s c Hwf Hq Hls Hbusy)
    as (s1 & Hrun & _ & Hbusy1 & _ & _ & _ & _ & Hq1).
  exists s1. split; [exact Hrun|].
  exact (bulk_out_data_spins P s1 status Hq1 Hout Hbusy1).
Qed.

Lemma X13_reception_during_WriteByte_hangs_the_handler_witness :
  let s := with_usbLineInfo
             {| dwDTERate := 115200; bCharFormat := 0; bParityType := 0;
                bDataBits := 8; lineState := usb_CDC_LINESTATE_DTR |} boot in
  exists s1,
    WriteByte 0x41 s = Done (None, s1) /\
    handleInterrupt example_platform (hw_epdata 0x40008 s1) = Spin.
Proof.
  apply (X13_reception_during_WriteByte_hangs_the_handler example_platform
           (with_usbLineInfo
              {| dwDTERate := 115200; bCharFormat := 0; bParityType := 0;
                 bDataBits := 8; lineState := usb_CDC_LINESTATE_DTR |} boot)
           0x41 0x40008 well_formed_boot).
  - vm_compute. repeat split.
  - reflexivity.
  - reflexivity.
  - reflexivity.
Defined.

(** X14.  Two bytes written one after the other.  The first [WriteByte]
    starts its transfer and returns with the busy flag set; a second one
    would wait.  Once the interrupt that reports the end of the transfer on
    the bulk IN endpoint has run, the second [WriteByte] starts its transfer:
    the two bytes leave in the order written, one transfer of one byte
    each. *)
Theorem X14_WriteByte_resumes_after_IN_completion
    (P : platform) (s : state) (c1 c2 status : Z) :
  well_formed s ->
  quiet s ->
  0 < lineState (usbLineInfo s) ->
  HasBits (easyDMABusy s) 1 = false ->
  0 < Z.land status (shl32 (USBD_EPDATASTATUS_EPIN1 P) 2) ->
  Z.land status (shl32 (USBD_EPDATASTATUS_EPOUT1 P) 1) <= 0 ->
  exists s1 s2 s3,
    WriteByte c1 s = Done (None, s1) /\
    WriteByte c2 s1 = Spin /\
    handleInterrupt P (hw_epdata status s1) = Done (tt, s2) /\
    WriteByte c2 s2 = Done (None, s3) /\
    in_transfers (effects s3) =
      in_transfers (effects s) ++
      [(usb_CDC_ENDPOINT_IN, [c1]); (usb_CDC_ENDPOINT_IN, [c2])].
Proof.
  intros Hwf Hq Hls Hbusy Hin Hout.
  destruct (WriteByte_run s c1 Hwf Hq Hls Hbusy)
    as (s1 & Hrun1 & Heff1 & Hbusy1 & Hli1 & _ & _ & Hwf1 & Hq1).
  destruct (bulk_in_done_run P s1 status Hq1 Hin Hout)
    as (s2 & Hrun2 & Heff2 & Hbusy2 & Hli2 & _ & Hwf2 & Hq2).
  assert (Hls2 : 0 < lineState (usbLineInfo s2)) by (rewrite Hli2, Hli1; exact Hls).
  destruct (WriteByte_run s2 c2 (Hwf2 Hwf1) Hq2 Hls2 Hbusy2)
    as (s3 & Hrun3 & Heff3 & _).
  exists s1, s2, s3.
  split; [exact Hrun1|].
  split; [apply WriteByte_busy; [rewrite Hli1; exact Hls | exact Hbusy1]|].
  split; [exact Hrun2|]. split; [exact Hrun3|].
  rewrite Heff3, Heff2, Heff1, <- app_assoc, in_transfers_app. reflexivity.
Qed.

Lemma X14_WriteByte_resumes_after_IN_completion_witness :
  let s := with_usbLineInfo
             {| dwDTERate := 115200; bCharFormat := 0; bParityType := 0;
                bDataBits := 8; lineState := usb_CDC_LINESTATE_DTR |} boot in
  exists s1 s2 s3,
    WriteByte 0x41 s = Done (None, s1) /\
    WriteByte 0x42 s1 = Spin /\
    handleInterrupt example_platform (hw_epdata 0x8 s1) = Done (tt, s2) /\
    WriteByte 0x42 s2 = Done (None, s3) /\
    in_transfers (effects s3) =
      [(usb_CDC_ENDPOINT_IN, [0x41]); (usb_CDC_ENDPOINT_IN, [0x42])].
Proof.
  apply (X14_WriteByte_resumes_after_IN_completion example_platform
           (with_usbLineInfo
              {| dwDTERate := 115200; bCharFormat := 0; bParityType := 0;
                 bDataBits := 8; lineState := usb_CDC_LINESTATE_DTR |} boot)
           0x41 0x42 0x8 well_formed_boot).
  - vm_compute. repeat split.
  - reflexivity.
  - reflexivity.
  - reflexivity.
  - discriminate.
Defined.

(** The data phase of SET_LINE_CODING ends with the critical section left,
    whoever holds it. *)
Lemma line_coding_data_phase_releases
    (P : platform) (s : state) (b0 b1 b2 b3 b4 b5 b6 : Z) :
  well_formed s ->
  quiet s ->
  epout0data_setlinecoding s = true ->
  exists s1,
    handleInterrupt P (hw_ep0_out [b0; b1; b2; b3; b4; b5; b6] s) =
      Done (tt, s1) /\
    HasBits (easyDMABusy s1) 1 = false /\
    lineState (usbLineInfo s1) = lineState (usbLineInfo s) /\
    effects s1 = effects s ++ [call_checkShouldReset; TASKS_EP0STATUS] /\
    well_formed s1 /\
    quiet s1.
Proof.
  intros [Hin Hout] (H1 & H2 & H3 & H4 & H5) Hflag.
  destruct (cache_shape_head _ Hout) as (o0 & orest & Ho & Ho0 & _ & _).
  open_state s. subst slc oc.
  assert (Hshape : cache_shape (copy o0 [b0; b1; b2; b3; b4; b5; b6] :: orest)).
  { apply (cache_shape_cons o0); [exact Hout | apply copy_length]. }
  rewrite handleInterrupt_ENDEPOUT_only
    by (unfold hw_ep0_out; run; cbn [reg_eqb reg_code fst snd Z.eqb Pos.eqb andb];
        lia).
  unfold on_ENDEPOUT, exitCriticalSection, hw_ep0_out, checkShouldReset,
    out_cache_buffer, slice_to.
  cbn [endPoints length upto for_each Z.add Pos.add Pos.succ].
  change (Z.of_nat 7) with 7. change (Z.to_nat 0) with 0%nat.
  repeat progress
    (run; numerals; change (int32 7) with 7;
     rewrite ?H5, ?nth_upd_0, ?copy_length, ?Ho0; cbn [nth_error];
     change (Z.of_nat 128) with 128).
  unfold copy at 1. rewrite Ho0. change (Z.to_nat 7) with 7%nat.
  cbn [firstn app length parseUSBLineInfo].
  repeat progress (run; numerals; rewrite ?H5).
  eexists. split; [reflexivity|]. unfold well_formed, quiet. run.
  split; [apply HasBits_ClearBits|].
  split; [reflexivity|]. split; [rewrite <- app_assoc; reflexivity|].
  split; [split; [exact Hin | exact Hshape]|].
  numerals. repeat split; try assumption.
  intros i. destruct i; [reflexivity | apply H5 | apply H5].
Qed.

(** X15.  The end of an OUT transfer on the control endpoint releases the
    critical section even when [WriteByte] holds it.  With the data phase of
    SET_LINE_CODING pending, a byte is written: the busy flag is set and the
    IN transfer is started.  The interrupt at the end of the data phase
    clears the flag, so that a second [WriteByte] starts a second IN transfer
    on the bulk endpoint although no interrupt has reported the end of the
    first. *)
Theorem X15_control_transfer_releases_the_critical_section
    (P : platform) (s : state) (c1 c2 b0 b1 b2 b3 b4 b5 b6 : Z) :
  well_formed s ->
  quiet s ->
  0 < lineState (usbLineInfo s) ->
  HasBits (easyDMABusy s) 1 = false ->
  epout0data_setlinecoding s = true ->
  exists s1 s2 s3,
    WriteByte c1 s = Done (None, s1) /\
    HasBits (easyDMABusy s1) 1 = true /\
    handleInterrupt P (hw_ep0_out [b0; b1; b2; b3; b4; b5; b6] s1) =
      Done (tt, s2) /\
    HasBits (easyDMABusy s2) 1 = false /\
    WriteByte c2 s2 = Done (None, s3) /\
    in_transfers (effects s3) =
      in_transfers (effects s) ++
      [(usb_CDC_ENDPOINT_IN, [c1]); (usb_CDC_ENDPOINT_IN, [c2])].
Proof.
  intros Hwf Hq Hls Hbusy Hflag.
  destruct (WriteByte_run s c1 Hwf Hq Hls Hbusy)
    as (s1 & Hrun1 & Heff1 & Hbusy1 & Hli1 & _ & Hflag1 & Hwf1 & Hq1).
  rewrite <- Hflag1 in Hflag.
  destruct (line_coding_data_phase_releases P s1 b0 b1 b2 b3 b4 b5 b6
              Hwf1 Hq1 Hflag)
    as (s2 & Hrun2 & Hbusy2 & Hls2 & Heff2 & Hwf2 & Hq2).
  assert (Hopen : 0 < lineState (usbLineInfo s2))
    by (rewrite Hls2, Hli1; exact Hls).
  destruct (WriteByte_run s2 c2 Hwf2 Hq2 Hopen Hbusy2)
    as (s3 & Hrun3 & Heff3 & _).
  exists s1, s2, s3.
  split; [exact Hrun1|]. split; [exact Hbusy1|]. split; [exact Hrun2|].
  split; [exact Hbusy2|]. split; [exact Hrun3|].
  rewrite Heff3, Heff2, Heff1, !in_transfers_app.
  cbn [in_transfers]. rewrite app_nil_r, <- app_assoc. reflexivity.
Qed.

Lemma X15_control_transfer_releases_the_critical_section_witness :
  let s := with_epout0data_setlinecoding true
             (with_usbLineInfo
                {| dwDTERate := 115200; bCharFormat := 0; bParityType := 0;
                   bDataBits := 8; lineState := usb_CDC_LINESTATE_DTR |} boot) in
  exists s1 s2 s3,
    WriteByte 0x41 s = Done (None, s1) /\
    HasBits (easyDMABusy s1) 1 = true /\
    handleInterrupt example_platform
      (hw_ep0_out [0x80; 0x25; 0; 0; 0; 0; 8] s1) = Done (tt, s2) /\
    HasBits (easyDMABusy s2) 1 = false /\
    WriteByte 0x42 s2 = Done (None, s3) /\
    in_transfers (effects s3) =
      [(usb_CDC_ENDPOINT_IN, [0x41]); (usb_CDC_ENDPOINT_IN, [0x42])].
Proof.
  apply (X15_control_transfer_releases_the_critical_section example_platform
           (with_epout0data_setlinecoding true
              (with_usbLineInfo
                 {| dwDTERate := 115200; bCharFormat := 0; bParityType := 0;
                    bDataBits := 8; lineState := usb_CDC_LINESTATE_DTR |} boot))
           0x41 0x42 0x80 0x25 0 0 0 0 8 well_formed_boot).
  - vm_compute. repeat split.
  - reflexivity.
  - reflexivity.
  - reflexivity.
Defined.

(** X16.  EP0DATADONE ends the handler.  Whatever else is pending, a run that
    finds EP0DATADONE set acknowledges it and returns: it always finishes,
    and a setup packet, a data endpoint event or the end of an OUT transfer
    latched at the same time is neither handled nor acknowledged; the busy
    flag, the ring buffer and the line settings are as before. *)
Theorem X16_EP0DATADONE_ends_the_handler (P : platform) (s : state) :
  regs s EVENTS_EP0DATADONE = 1 ->
  exists s',
    handleInterrupt P s = Done (tt, s') /\
    regs s' EVENTS_EP0DATADONE = 0 /\
    regs s' EVENTS_EP0SETUP = regs s EVENTS_EP0SETUP /\
    regs_kept data_event s s' /\
    easyDMABusy s' = easyDMABusy s /\
    USB_Buffer s' = USB_Buffer s /\
    usbLineInfo s' = usbLineInfo s.
Proof.
  intros Hev. open_state s.
  unfold handleInterrupt, on_USBEVENT, on_EP0DATADONE, sendViaEPIn, check_ep,
    start_EPIN, start_EPOUT, regs_kept.
  change ((0 <=? 0) && (0 <? 8)) with true.
  run.
  destruct (rg EVENTS_USBEVENT =? 1);
    [change (reg_eqb EVENTS_USBEVENT EVENTCAUSE) with false; cbv iota;
     destruct (0 <? Z.land (rg EVENTCAUSE) (USBD_EVENTCAUSE_READY P));
     [rewrite initEndpoint_control; unfold enableEPIn, enableEPOut|]|];
    repeat progress (run; numerals; rewrite ?Hev);
    (destruct slc; [|destruct pend as [[p|] c]];
     repeat progress (run; numerals; rewrite ?Hev);
     (eexists; split; [reflexivity|]; run; numerals;
      repeat split;
      intros r Hr; destruct r; try discriminate Hr; reflexivity)).
Qed.

Lemma X16_EP0DATADONE_ends_the_handler_witness :
  exists s',
    handleInterrupt example_platform
      (hw EVENTS_EP0DATADONE 1 (hw EVENTS_EP0SETUP 1 boot)) = Done (tt, s') /\
    regs s' EVENTS_EP0SETUP = 1.
Proof.
  destruct (X16_EP0DATADONE_ends_the_handler example_platform
              (hw EVENTS_EP0DATADONE 1 (hw EVENTS_EP0SETUP 1 boot)))
    as (s' & Hrun & _ & Hsetup & _).
  - reflexivity.
  - exists s'. split; [exact Hrun | exact Hsetup].
Defined.

(** ** Setup packets are handled to the end *)

Lemma finishes_ret {A} (a : A) : finishes (ret a).
Proof. intros s _. exists a, s. reflexivity. Qed.

Lemma finishes_get : finishes get.
Proof. intros s _. exists s, s. reflexivity. Qed.

Lemma finishes_modify (f : state -> state) : finishes (modify f).
Proof. intros s _. exists tt, (f s). reflexivity. Qed.

Lemma finishes_bind {A B} (m : M A) (k : A -> M B) :
  finishes m -> frames shape_kept m -> (forall a, finishes (k a)) ->
  finishes (bind m k).
Proof.
  intros Hm Hshape Hk s Hwf.
  destruct (Hm s Hwf) as (a & s1 & Hrun).
  destruct (Hk a s1 (Hshape s a s1 Hrun Hwf)) as (b & s2 & Hrun2).
  exists b, s2. unfold bind. rewrite Hrun. exact Hrun2.
Qed.

Lemma finishes_if {A} (b : bool) (m1 m2 : M A) :
  finishes m1 -> finishes m2 -> finishes (if b then m1 else m2).
Proof. intros H1 H2. destruct b; assumption. Qed.

Lemma finishes_check_ep (ep : Z) : 0 <= ep < 8 -> finishes (check_ep ep).
Proof.
  intros Hep. unfold check_ep.
  replace ((0 <=? ep) && (ep <? 8)) with true; [apply finishes_ret|].
  symmetry. apply andb_true_intro.
  split; [apply Z.leb_le | apply Z.ltb_lt]; lia.
Qed.

Lemma finishes_slice_to (b : list Z) (n : Z) :
  0 <= n <= Z.of_nat (length b) -> finishes (slice_to b n).
Proof.
  intros Hn. unfold slice_to.
  replace ((0 <=? n) && (n <=? Z.of_nat (length b))) with true;
    [apply finishes_ret|].
  symmetry. apply andb_true_intro. split; apply Z.leb_le; lia.
Qed.

Ltac shape_frames :=
  repeat first [ apply shape_kept_sendUSBPacket
               | apply shape_kept_sendViaEPIn
               | shape_step ].

Ltac finish_step :=
  first
    [ apply finishes_ret | apply finishes_get | apply finishes_modify
    | apply finishes_check_ep; lia
    | apply finishes_bind; [ | shape_frames | intros ? ]
    | apply finishes_if
    | match goal with |- finishes (let _ := _ in _) => cbv zeta end ].

Lemma finishes_sendViaEPIn (ep : Z) (p : pointer) (c : Z) :
  0 <= ep < 8 -> finishes (sendViaEPIn ep p c).
Proof.
  intros Hep. unfold sendViaEPIn, start_EPIN, ptr_reg_set, reg_set, emit.
  repeat finish_step.
Qed.

Lemma finishes_sendUSBPacket (ep : Z) (data : list Z) :
  0 <= ep < cache_buffers -> finishes (sendUSBPacket ep data).
Proof.
  intros Hep s Hwf.
  destruct (cache_shape_row _ ep (proj1 Hwf) Hep) as (buf & Hbuf & Hlen).
  assert (Hrest :
            finishes
              (in_cache_buffer_set ep (copy buf data) ;;
               count <-
                 (if (ep =? 0) &&
                     (usbEndpointPacketSize <? Z.of_nat (length data))
                  then
                    modify
                      (with_sendOnEP0DATADONE
                         {| ptr := Some (in_cache ep usbEndpointPacketSize);
                            count := Z.of_nat (length data) -
                                     usbEndpointPacketSize |}) ;;
                    ret usbEndpointPacketSize
                  else ret (Z.of_nat (length data))) ;;
               sendViaEPIn ep (in_cache ep 0) count)).
  { unfold in_cache_buffer_set.
    apply finishes_bind; [apply finishes_modify | | intros _].
    - intros s0 a s1 E [Hin Hout]. inversion E; subst. split; [|exact Hout].
      fields. destruct (cache_shape_row _ ep Hin Hep) as (b0 & Hb0 & Hl0).
      apply (cache_shape_nth_upd_row _ _ b0);
        [exact Hb0 | rewrite copy_length; congruence | exact Hin].
    - apply finishes_bind; [ | shape_frames | intros c ].
      + apply finishes_if; repeat finish_step.
      + apply finishes_sendViaEPIn. unfold cache_buffers in Hep. lia. }
  destruct (Hrest s Hwf) as (a & s' & Hrun).
  exists a, s'. rewrite <- Hrun.
  unfold sendUSBPacket, bind at 1, in_cache_buffer.
  replace ((0 <=? ep) && (ep <? cache_buffers)) with true
    by (symmetry; apply andb_true_intro;
        split; [apply Z.leb_le | apply Z.ltb_lt]; lia).
  rewrite Hbuf. reflexivity.
Qed.

Section SetupFinishes.

Variable P : platform.
Hypothesis product_header : (2 <= length (product_descriptor P))%nat.
Hypothesis manufacturer_header : (2 <= length (manufacturer_descriptor P))%nat.

Ltac finish :=
  repeat first
    [ apply finishes_sendUSBPacket; split; [discriminate | reflexivity]
    | apply finishes_slice_to
    | finish_step ].

Lemma finishes_initEndpoint (ep config : Z) :
  0 <= ep < 8 -> finishes (initEndpoint P ep config).
Proof.
  intros Hep. unfold initEndpoint, enableEPIn, enableEPOut, reg_set, emit.
  repeat finish_step.
Qed.

Lemma finishes_sendDescriptor (setup : usbSetup) :
  finishes (sendDescriptor P setup).
Proof.
  unfold sendDescriptor, sendConfiguration, emit. finish; lia.
Qed.

Lemma finishes_handleStandardSetup (setup : usbSetup) :
  finishes (handleStandardSetup P setup).
Proof.
  unfold handleStandardSetup, emit.
  cbn [endPoints length Nat.sub upto for_each Z.add Pos.add Pos.succ
       nth_error Z.to_nat Pos.to_nat Pos.iter_op Nat.add].
  repeat first
    [ apply finishes_sendDescriptor
    | apply finishes_initEndpoint; lia
    | apply finishes_sendUSBPacket; split; [discriminate | reflexivity]
    | apply finishes_bind;
        [ | repeat first [ apply shape_kept_sendDescriptor
                         | apply shape_kept_initEndpoint
                         | apply shape_kept_sendUSBPacket
                         | shape_step ]
          | intros ? ]
    | finish_step ].
Qed.

Lemma finishes_cdcSetup (setup : usbSetup) : finishes (cdcSetup setup).
Proof.
  unfold cdcSetup, checkShouldReset, emit. finish.
Qed.

End SetupFinishes.

(** An interrupt for a setup packet that is neither standard nor addressed to
    the CDC interface. *)
Lemma other_setup_interrupt (P : platform) (p : usbSetup) (s : state) :
  quiet s ->
  valid_setup p ->
  Z.land (bmRequestType p) usb_REQUEST_TYPE <> usb_REQUEST_STANDARD ->
  wIndex p <> usb_CDC_ACM_INTERFACE P ->
  handleInterrupt P (hw_setup p s) =
    Done (tt, with_effects (effects s ++ [TASKS_EP0STALL])
                (hw EVENTS_EP0SETUP 0 (hw_setup p s))).
Proof.
  intros Hq Hp Hstd Hidx.
  destruct (hw_setup_quiet p s Hq) as (H1 & H2 & H3 & H4).
  apply handleInterrupt_setup_only; try assumption.
  rewrite on_EP0SETUP_hw_setup by exact Hp.
  apply Z.eqb_neq in Hstd. rewrite Hstd.
  apply Z.eqb_neq in Hidx. rewrite Hidx.
  reflexivity.
Qed.

(** X23.  No setup packet stops the handler.  Whatever the eight bytes of a
    setup packet are, the interrupt that delivers it to a driver with no
    other event pending runs to its end: it neither panics on an index or a
    slice nor waits.  It leaves the staging buffers in their shape and no
    event pending, so that the next setup packet is handled as well.  The
    product and manufacturer string descriptors are at least their two-byte
    header long. *)
Theorem X23_no_setup_packet_stops_the_handler
    (P : platform) (p : usbSetup) (s : state) :
  (2 <= length (product_descriptor P))%nat ->
  (2 <= length (manufacturer_descriptor P))%nat ->
  well_formed s ->
  quiet s ->
  valid_setup p ->
  exists s1,
    handleInterrupt P (hw_setup p s) = Done (tt, s1) /\
    well_formed s1 /\
    quiet s1.
Proof.
  intros Hprod Hman Hwf Hq Hp.
  assert (Hrun : exists s1, handleInterrupt P (hw_setup p s) = Done (tt, s1)).
  { destruct (Z.eq_dec (Z.land (bmRequestType p) usb_REQUEST_TYPE)
                usb_REQUEST_STANDARD) as [Hstd|Hstd].
    - destruct (finishes_handleStandardSetup P Hprod Hman p
                  (hw EVENTS_EP0SETUP 0 (hw_setup p s)) Hwf)
        as (ok & s1 & Hrun).
      eexists. exact (standard_setup_interrupt P p s s1 ok Hq Hp Hstd Hrun).
    - destruct (Z.eq_dec (wIndex p) (usb_CDC_ACM_INTERFACE P)) as [Hidx|Hidx].
      + destruct (finishes_cdcSetup p (hw EVENTS_EP0SETUP 0 (hw_setup p s)) Hwf)
          as (ok & s1 & Hrun).
        eexists. exact (class_setup_interrupt P p s s1 ok Hq Hp Hstd Hidx Hrun).
      + eexists. exact (other_setup_interrupt P p s Hq Hp Hstd Hidx). }
  destruct Hrun as (s1 & Hrun). exists s1. split; [exact Hrun|]. split.
  - exact (shape_kept_handleInterrupt P _ _ _ Hrun Hwf).
  - exact (quiet_after_setup P p s s1 Hq Hp Hrun).
Qed.

Lemma X23_no_setup_packet_stops_the_handler_witness :
  exists s1,
    handleInterrupt example_platform
      (hw_setup {| bmRequestType := 0xFF; bRequest := 0xFF; wValueL := 0xFF;
                   wValueH := 0xFF; wIndex := 0xFFFF; wLength := 0xFFFF |}
         boot) = Done (tt, s1) /\
    well_formed s1 /\
    quiet s1.
Proof.
  apply (X23_no_setup_packet_stops_the_handler example_platform
           {| bmRequestType := 0xFF; bRequest := 0xFF; wValueL := 0xFF;
              wValueH := 0xFF; wIndex := 0xFFFF; wLength := 0xFFFF |} boot).
  - cbn. lia.
  - cbn. lia.
  - exact well_formed_boot.
  - exact quiet_boot.
  - vm_compute. repeat split; first [reflexivity | discriminate].
Defined.

(** * Properties of the FE310 drivers *)

Module fe310_facts.

Import fe310.

(** ** Bits of a register *)

Lemma testbit_pin_bit (p q : Z) :
  0 <= q < 32 -> Z.testbit (pin_bit p) q = (uint8 p =? q).
Proof.
  intros Hq. unfold pin_bit, shl32, uint32.
  assert (Hp : 0 <= uint8 p) by (unfold uint8; apply Z.mod_pos_bound; lia).
  rewrite Z.mod_pow2_bits_low by lia.
  rewrite Z.shiftl_1_l. apply Z.pow2_bits_eqb. exact Hp.
Qed.

Lemma testbit_SetBits (r v q : Z) :
  0 <= q < 32 ->
  Z.testbit (Register32.SetBits r v) q = Z.testbit r q || Z.testbit v q.
Proof.
  intros Hq. unfold Register32.SetBits, uint32.
  rewrite Z.mod_pow2_bits_low by lia. apply Z.lor_spec.
Qed.

Lemma testbit_ClearBits (r v q : Z) :
  0 <= q < 32 ->
  Z.testbit (Register32.ClearBits r v) q =
  Z.testbit r q && negb (Z.testbit v q).
Proof.
  intros Hq. unfold Register32.ClearBits, uint32.
  rewrite Z.mod_pow2_bits_low by lia.
  rewrite Z.land_spec, Z.lnot_spec by lia. reflexivity.
Qed.

Lemma gpio_reg_eqb_eq (a b : gpio_reg) : gpio_reg_eqb a b = true <-> a = b.
Proof.
  split; [|intros ->; apply Z.eqb_refl].
  destruct a, b; intros H; first [reflexivity | discriminate H].
Qed.

Lemma gpio_SetBits_bit (r r' : gpio_reg) (v q : Z) (m : machine) :
  0 <= q < 32 ->
  Z.testbit (gpio (gpio_SetBits r v m) r') q =
  Z.testbit (gpio m r') q || (gpio_reg_eqb r r' && Z.testbit v q).
Proof.
  intros Hq. unfold gpio_SetBits. cbn [gpio with_gpio].
  destruct (gpio_reg_eqb r r') eqn:E.
  - apply gpio_reg_eqb_eq in E. subst r'. rewrite testbit_SetBits by exact Hq.
    reflexivity.
  - rewrite Bool.orb_false_r. reflexivity.
Qed.

Lemma gpio_ClearBits_bit (r r' : gpio_reg) (v q : Z) (m : machine) :
  0 <= q < 32 ->
  Z.testbit (gpio (gpio_ClearBits r v m) r') q =
  Z.testbit (gpio m r') q && negb (gpio_reg_eqb r r' && Z.testbit v q).
Proof.
  intros Hq. unfold gpio_ClearBits. cbn [gpio with_gpio].
  destruct (gpio_reg_eqb r r') eqn:E.
  - apply gpio_reg_eqb_eq in E. subst r'. rewrite testbit_ClearBits by exact Hq.
    reflexivity.
  - rewrite Bool.andb_true_r. reflexivity.
Qed.

Ltac gpio_bits Hq :=
  repeat first [ rewrite gpio_SetBits_bit by exact Hq
               | rewrite gpio_ClearBits_bit by exact Hq
               | rewrite testbit_pin_bit by exact Hq ].

(** X17.  [Pin.Configure] works on one bit.  In the six GPIO registers it
    writes, every bit of another pin is as before, whatever the mode; a pin
    number of 32 or more, as that of [NoPin], changes no bit at all.  And it
    only ever adds: apart from [IOF_SEL], which the SPI mode clears, no bit
    that was set is cleared, so that a pin configured as an input with
    pull-up and then as an output keeps its input and pull-up enabled.  The
    SPI registers are not touched. *)
Theorem X17_Pin_Configure_changes_one_bit_and_clears_none
    (p mode : Z) (m : machine) (r : gpio_reg) (q : Z) :
  0 <= q < 32 ->
  (q <> uint8 p ->
   Z.testbit (gpio (Pin_Configure p mode m) r) q = Z.testbit (gpio m r) q) /\
  (r <> IOF_SEL -> Z.testbit (gpio m r) q = true ->
   Z.testbit (gpio (Pin_Configure p mode m) r) q = true) /\
  bus (Pin_Configure p mode m) = bus m.
Proof.
  intros Hq. unfold Pin_Configure.
  repeat split.
  - intros Hp. apply Z.eqb_neq in Hp. rewrite Z.eqb_sym in Hp.
    repeat match goal with
           | |- context [if ?c then _ else _] => destruct c
           end;
      gpio_bits Hq; rewrite ?Hp, ?Bool.andb_false_r, ?Bool.orb_false_r,
                      ?Bool.andb_true_r; reflexivity.
  - intros Hr Hset.
    repeat match goal with
           | |- context [if ?c then _ else _] => destruct c
           end;
      gpio_bits Hq; rewrite ?Hset; cbn [orb andb];
      try reflexivity.
    destruct r; try reflexivity. contradiction Hr. reflexivity.
  - repeat match goal with
           | |- context [if ?c then _ else _] => destruct c
           end; reflexivity.
Qed.

Lemma X17_Pin_Configure_changes_one_bit_and_clears_none_witness :
  let m := Pin_Configure 3 PinInputPullup example_machine in
  Z.testbit (gpio (Pin_Configure 3 PinOutput m) PULLUP) 3 = true.
Proof.
  apply (X17_Pin_Configure_changes_one_bit_and_clears_none 3 PinOutput
           (Pin_Configure 3 PinInputPullup example_machine) PULLUP 3).
  - split; [discriminate | reflexivity].
  - discriminate.
  - reflexivity.
Defined.

(** X18.  [Pin.Set] and [Pin.Get] address the bit of their pin.  After
    [Set], the bit of the pin in [PORT] is the value asked for and every
    other bit of [PORT] is as before; [Get] is the bit of the pin in
    [VALUE].  For a pin number of 32 or more [Set] changes no bit and [Get]
    is false. *)
Theorem X18_Pin_Set_and_Get_address_one_bit
    (p : Z) (high : bool) (m : machine) (q : Z) :
  0 <= q < 32 ->
  0 <= gpio m VALUE ->
  Z.testbit (gpio (Pin_Set p high m) PORT) q =
    (if uint8 p =? q then high else Z.testbit (gpio m PORT) q) /\
  Pin_Get p m = (uint8 p <? 32) && Z.testbit (gpio m VALUE) (uint8 p).
Proof.
  intros Hq Hv. split.
  - unfold Pin_Set. destruct high; gpio_bits Hq; cbn [gpio_reg_eqb gpio_code];
      change (6 =? 6) with true; cbn [andb]; destruct (uint8 p =? q);
      rewrite ?Bool.orb_true_r, ?Bool.orb_false_r, ?Bool.andb_true_r,
        ?Bool.andb_false_r; reflexivity.
  - unfold Pin_Get.
    assert (Hp : 0 <= uint8 p) by (unfold uint8; apply Z.mod_pos_bound; lia).
    destruct (uint8 p <? 32) eqn:E.
    + apply Z.ltb_lt in E. unfold pin_bit, shl32, uint32.
      rewrite Z.shiftl_1_l, Z.mod_small
        by (split; [lia | apply Z.pow_lt_mono_r; lia]).
      cbn [andb]. destruct (Z.testbit (gpio m VALUE) (uint8 p)) eqn:B.
      * apply Z.ltb_lt.
        assert (Hne : Z.land (gpio m VALUE) (2 ^ uint8 p) <> 0).
        { intros H0.
          pose proof (f_equal (fun x => Z.testbit x (uint8 p)) H0) as Hb.
          cbn beta in Hb.
          rewrite Z.land_spec, B, Z.pow2_bits_true, Z.bits_0 in Hb by lia.
          discriminate Hb. }
        assert (0 <= Z.land (gpio m VALUE) (2 ^ uint8 p))
          by (apply Z.land_nonneg; left; exact Hv).
        lia.
      * apply Z.ltb_ge.
        replace (Z.land (gpio m VALUE) (2 ^ uint8 p)) with 0; [lia|].
        symmetry. apply Z.bits_inj'. intros n Hn.
        rewrite Z.land_spec, Z.bits_0.
        destruct (Z.eq_dec n (uint8 p)) as [->|Hne].
        -- rewrite B. reflexivity.
        -- rewrite Z.pow2_bits_false by lia. apply Bool.andb_false_r.
    + apply Z.ltb_ge in E. unfold pin_bit, shl32, uint32.
      rewrite Z.shiftl_1_l.
      replace (2 ^ uint8 p mod 2 ^ 32) with 0.
      * rewrite Z.land_0_r. reflexivity.
      * symmetry. apply Z.mod_divide; [lia|].
        exists (2 ^ (uint8 p - 32)). rewrite <- Z.pow_add_r by lia.
        f_equal. lia.
Qed.

Lemma X18_Pin_Set_and_Get_address_one_bit_witness :
  Z.testbit (gpio (Pin_Set 19 true example_machine) PORT) 19 = true /\
  Pin_Get (-1) example_machine = false.
Proof.
  destruct (X18_Pin_Set_and_Get_address_one_bit 19 true example_machine 19)
    as [Hset _].
  - split; [discriminate | reflexivity].
  - discriminate.
  - split; [exact Hset|].
    destruct (X18_Pin_Set_and_Get_address_one_bit (-1) true example_machine 0)
      as [_ Hget].
    + split; [discriminate | reflexivity].
    + discriminate.
    + exact Hget.
Defined.

End fe310_facts.

Module fe310_spi_facts.

Import fe310.

Section SPI.

Variable D : device.

Lemma bus_Pin_Configure (p mode : Z) (m : machine) :
  bus (Pin_Configure p mode m) = bus m.
Proof.
  unfold Pin_Configure.
  repeat match goal with
         | |- context [if ?c then _ else _] => destruct c
         end; reflexivity.
Qed.

Lemma bus_set_mode_other (mode : Z) (m : machine) (r : qspi_reg) :
  r <> MODE -> bus (set_mode D mode m) r = bus m r.
Proof.
  intros Hr. unfold set_mode.
  repeat match goal with
         | |- context [if ?c then _ else _] => destruct c
         end;
    destruct r; first [reflexivity | contradiction Hr; reflexivity].
Qed.

(** What [Configure] leaves in [DIV], for a frequency whose double does not
    wrap around to 0. *)
Lemma SPI_Configure_DIV (config : SPIConfig) (m : machine) :
  let frequency :=
    if Frequency config =? 0 then 4000000 else Frequency config in
  uint32 (2 * frequency) <> 0 ->
  exists m',
    SPI_Configure D config m = Done (None, m') /\
    bus m' DIV = uint32 (CPU_FREQUENCY / uint32 (2 * frequency) - 1) /\
    bus m' MODE =
      bus (set_mode D (Mode config)
             (bus_Set MODE (bus m MODE) m)) MODE.
Proof.
  intros frequency Hf. apply Z.eqb_neq in Hf.
  unfold SPI_Configure. fold frequency. cbv zeta. rewrite Hf.
  eexists. split; [reflexivity|]. split.
  - destruct (LSBFirst config); cbn [bus bus_SetBits bus_ClearBits bus_Set
      with_bus qspi_reg_eqb qspi_code Z.eqb Pos.eqb].
    all: rewrite bus_set_mode_other by discriminate; reflexivity.
  - destruct (LSBFirst config); cbn [bus bus_SetBits bus_ClearBits bus_Set
      with_bus qspi_reg_eqb qspi_code Z.eqb Pos.eqb].
    all: unfold set_mode;
      repeat match goal with
             | |- context [if ?c then _ else _] => destruct c
             end;
      cbn [bus bus_SetBits bus_ClearBits bus_Set with_bus qspi_reg_eqb
           qspi_code Z.eqb Pos.eqb];
      rewrite ?bus_Pin_Configure; reflexivity.
Qed.

End SPI.

(** X19.  The SPI clock is never below the one asked for.  For a frequency
    of at most 8 MHz, [Configure] succeeds and leaves in [DIV] the largest
    divider [d] for which the clock [CPU_FREQUENCY / (2 * (d + 1))] is still
    at least the frequency asked for: the quotient is rounded down, so the
    bus runs at the frequency asked for or faster, never slower. *)
Theorem X19_SPI_clock_is_not_below_the_request
    (D : device) (config : SPIConfig) (m : machine) :
  0 < Frequency config <= 8000000 ->
  exists m',
    SPI_Configure D config m = Done (None, m') /\
    0 <= bus m' DIV < 2 ^ 32 /\
    2 * Frequency config * (bus m' DIV + 1) <= CPU_FREQUENCY /\
    CPU_FREQUENCY < 2 * Frequency config * (bus m' DIV + 2).
Proof.
  intros Hf.
  destruct (SPI_Configure_DIV D config m) as (m' & Hrun & Hdiv & _).
  - replace (Frequency config =? 0) with false by (symmetry; apply Z.eqb_neq; lia).
    unfold uint32. rewrite Z.mod_small by lia. lia.
  - exists m'. split; [exact Hrun|]. rewrite Hdiv.
    replace (Frequency config =? 0) with false by (symmetry; apply Z.eqb_neq; lia).
    unfold CPU_FREQUENCY.
    rewrite (uint32_small (2 * Frequency config)) by lia.
    set (f2 := 2 * Frequency config).
    assert (Hq : 1 <= 16000000 / f2).
    { apply Z.div_le_lower_bound; subst f2; lia. }
    assert (Hq' : 16000000 / f2 <= 16000000).
    { apply Z.div_le_upper_bound; subst f2; nia. }
    rewrite uint32_small by lia.
    pose proof (Z.mul_div_le 16000000 f2 ltac:(subst f2; lia)) as Hlo.
    pose proof (Z.mul_succ_div_gt 16000000 f2 ltac:(subst f2; lia)) as Hhi.
    split; [lia|]. split; [|]; nia.
Qed.

Lemma X19_SPI_clock_is_not_below_the_request_witness :
  exists m',
    SPI_Configure example_device (example_config 3000000 0) example_machine =
      Done (None, m') /\
    2 * 3000000 * (bus m' DIV + 1) <= CPU_FREQUENCY.
Proof.
  destruct (X19_SPI_clock_is_not_below_the_request example_device
              (example_config 3000000 0) example_machine)
    as (m' & Hrun & _ & Hle & _).
  - split; [reflexivity | discriminate].
  - exists m'. split; [exact Hrun | exact Hle].
Defined.

(** X20.  The divider at the ends of the range.  A frequency of 0 stands for
    4 MHz and gives a divider of 1.  A frequency above 8 MHz and below 2^31
    makes the quotient 0, and the subtraction of 1 wraps around: [DIV] is
    written with 2^32 - 1.  A frequency of 2^31 makes the divisor
    [2*config.Frequency] wrap around to 0, and [Configure] panics on the
    division. *)
Theorem X20_SPI_divider_at_the_ends_of_the_range
    (D : device) (config : SPIConfig) (m : machine) :
  (Frequency config = 0 ->
   exists m', SPI_Configure D config m = Done (None, m') /\ bus m' DIV = 1) /\
  (8000000 < Frequency config < 2 ^ 31 ->
   exists m', SPI_Configure D config m = Done (None, m') /\
              bus m' DIV = 2 ^ 32 - 1) /\
  (Frequency config = 2 ^ 31 -> SPI_Configure D config m = Panic).
Proof.
  repeat split.
  - intros Hf.
    destruct (SPI_Configure_DIV D config m) as (m' & Hrun & Hdiv & _).
    + rewrite Hf. discriminate.
    + exists m'. split; [exact Hrun|]. rewrite Hdiv, Hf. reflexivity.
  - intros Hf.
    assert (Hz : (Frequency config =? 0) = false) by (apply Z.eqb_neq; lia).
    destruct (SPI_Configure_DIV D config m) as (m' & Hrun & Hdiv & _).
    + rewrite Hz. rewrite uint32_small by lia. lia.
    + exists m'. split; [exact Hrun|]. rewrite Hdiv, Hz.
      rewrite (uint32_small (2 * Frequency config)) by lia.
      unfold CPU_FREQUENCY. rewrite Z.div_small by lia. reflexivity.
  - intros Hf. unfold SPI_Configure. rewrite Hf. reflexivity.
Qed.

Lemma X20_SPI_divider_at_the_ends_of_the_range_witness :
  exists m',
    SPI_Configure example_device (example_config 10000000 0) example_machine =
      Done (None, m') /\
    bus m' DIV = 4294967295.
Proof.
  apply (X20_SPI_divider_at_the_ends_of_the_range example_device
           (example_config 10000000 0) example_machine).
  split; reflexivity.
Defined.

End fe310_spi_facts.

Module fe310_transfer_facts.

Import fe310.

Section Transfer.

Variable D : device.

Lemma land_disjoint_bits (a b q : Z) :
  Z.land a b = 0 -> Z.testbit a q = true -> Z.testbit b q = false.
Proof.
  intros H Ha.
  pose proof (f_equal (fun x => Z.testbit x q) H) as Hq. cbn beta in Hq.
  rewrite Z.land_spec, Ha, Z.bits_0 in Hq. exact Hq.
Qed.

(** The transmit loop ends at the first read without the full flag. *)
Lemma wait_tx_ready (busy : list Z) (ready : Z) (rest : list Z) (current : Z) :
  Forall (fun v => Register32.HasBits v (QSPI_TXDATA_FULL D) = true) busy ->
  Register32.HasBits ready (QSPI_TXDATA_FULL D) = false ->
  wait_tx D (busy ++ ready :: rest) current = Done (rest, ready).
Proof.
  intros Hbusy Hready. revert current.
  induction Hbusy as [|v busy Hv _ IH]; intros current; cbn [app wait_tx].
  - rewrite Hready. reflexivity.
  - rewrite Hv. apply IH.
Qed.

(** A transmit queue that stays full keeps the loop going. *)
Lemma wait_tx_stuck (reads : list Z) (current : Z) :
  Forall (fun v => Register32.HasBits v (QSPI_TXDATA_FULL D) = true) reads ->
  Register32.HasBits current (QSPI_TXDATA_FULL D) = true ->
  wait_tx D reads current = Spin.
Proof.
  intros Hreads. revert current.
  induction Hreads as [|v reads Hv _ IH]; intros current Hc; cbn [wait_tx].
  - rewrite Hc. reflexivity.
  - rewrite Hv. apply IH. exact Hv.
Qed.

(** The receive loop ends at the first read without the empty flag. *)
Lemma wait_rx_ready (waiting : list Z) (val : Z) (rest : list Z) (current : Z) :
  Forall (fun v => 0 < Z.land v (QSPI_RXDATA_EMPTY D)) waiting ->
  Z.land val (QSPI_RXDATA_EMPTY D) <= 0 ->
  wait_rx D (waiting ++ val :: rest) current = Done (rest, val).
Proof.
  intros Hwait Hval. apply Z.ltb_ge in Hval. revert current.
  induction Hwait as [|v waiting Hv _ IH]; intros current; cbn [app wait_rx].
  - rewrite Hval. reflexivity.
  - apply Z.ltb_lt in Hv. rewrite Hv. apply IH.
Qed.

End Transfer.

(** X21.  The SPI mode is written to the two mode bits and to nothing else.
    With the phase and polarity masks disjoint and a frequency below 2^31,
    [Configure] succeeds, and in [MODE] the phase bits are set exactly for the
    modes 1 and 3, the polarity bits exactly for the modes 2 and 3, and every
    other bit is as before; a mode above 3 is configured as mode 0. *)
Theorem X21_SPI_mode_bits
    (D : device) (config : SPIConfig) (m : machine) (q : Z) :
  0 <= q < 32 ->
  Z.land (QSPI_MODE_PHASE D) (QSPI_MODE_POLARITY D) = 0 ->
  0 <= Frequency config < 2 ^ 31 ->
  exists m',
    SPI_Configure D config m = Done (None, m') /\
    Z.testbit (bus m' MODE) q =
      if Z.testbit (QSPI_MODE_PHASE D) q then
        (Mode config =? 1) || (Mode config =? 3)
      else if Z.testbit (QSPI_MODE_POLARITY D) q then
        (Mode config =? 2) || (Mode config =? 3)
      else Z.testbit (bus m MODE) q.
Proof.
  intros Hq Hdisjoint Hf.
  destruct (fe310_spi_facts.SPI_Configure_DIV D config m)
    as (m' & Hrun & _ & Hmode).
  - destruct (Frequency config =? 0) eqn:E; [discriminate|].
    apply Z.eqb_neq in E. rewrite uint32_small by lia. lia.
  - exists m'. split; [exact Hrun|]. rewrite Hmode. unfold set_mode.
    pose proof (land_disjoint_bits _ _ q Hdisjoint) as Hd.
    destruct (Mode config =? 0) eqn:E0; destruct (Mode config =? 1) eqn:E1;
      destruct (Mode config =? 2) eqn:E2; destruct (Mode config =? 3) eqn:E3;
      try (apply Z.eqb_eq in E0); try (apply Z.eqb_eq in E1);
      try (apply Z.eqb_eq in E2); try (apply Z.eqb_eq in E3);
      try (exfalso; lia);
      cbn [bus bus_SetBits bus_ClearBits bus_Set with_bus qspi_reg_eqb
           qspi_code Z.eqb Pos.eqb orb];
      repeat first [ rewrite fe310_facts.testbit_SetBits by exact Hq
                   | rewrite fe310_facts.testbit_ClearBits by exact Hq
                   | rewrite Z.lor_spec ];
      (destruct (Z.testbit (QSPI_MODE_PHASE D) q) eqn:Hp;
       [rewrite (Hd eq_refl)|]);
      destruct (Z.testbit (QSPI_MODE_POLARITY D) q);
      destruct (Z.testbit (bus m MODE) q); reflexivity.
Qed.

Lemma X21_SPI_mode_bits_witness :
  exists m',
    SPI_Configure example_device (example_config 4000000 3) example_machine =
      Done (None, m') /\
    Z.testbit (bus m' MODE) 1 = true.
Proof.
  destruct (X21_SPI_mode_bits example_device (example_config 4000000 3)
              example_machine 1) as (m' & Hrun & Hbit).
  - split; [discriminate | reflexivity].
  - reflexivity.
  - split; [discriminate | reflexivity].
  - exists m'. split; [exact Hrun | exact Hbit].
Defined.

(** X22.  [SPI.Transfer] sends its byte once and returns the first byte
    received.  When the transmit queue is full for some reads and then not,
    and the receive queue empty for some reads and then not, [Transfer]
    finishes: it has written the byte to [TXDATA] once, after the first read
    that showed room, and returns the low byte of the first value read from
    [RXDATA] without the empty flag, with a nil error.  When the transmit
    queue stays full, [Transfer] never returns and nothing is written. *)
Theorem X22_SPI_Transfer_returns_the_first_byte_received
    (D : device) (w : Z) (m : machine)
    (busy : list Z) (ready : Z) (tx_rest : list Z)
    (waiting : list Z) (val : Z) (rx_rest : list Z) :
  Forall (fun v => Register32.HasBits v (QSPI_TXDATA_FULL D) = true) busy ->
  (Register32.HasBits ready (QSPI_TXDATA_FULL D) = false ->
   txdata_reads m = busy ++ ready :: tx_rest ->
   Forall (fun v => 0 < Z.land v (QSPI_RXDATA_EMPTY D)) waiting ->
   Z.land val (QSPI_RXDATA_EMPTY D) <= 0 ->
   rxdata_reads m = waiting ++ val :: rx_rest ->
   exists m',
     SPI_Transfer D w m = Done ((uint8 val, None), m') /\
     sent m' = sent m ++ [uint32 w] /\
     txdata_reads m' = tx_rest /\
     rxdata_reads m' = rx_rest /\
     gpio m' = gpio m /\ bus m' = bus m) /\
  (Register32.HasBits (txdata m) (QSPI_TXDATA_FULL D) = true ->
   txdata_reads m = busy ->
   SPI_Transfer D w m = Spin).
Proof.
  intros Hbusy. split.
  - intros Hready Htx Hwait Hval Hrx. unfold SPI_Transfer.
    rewrite Htx, Hrx.
    rewrite (wait_tx_ready D busy ready tx_rest _ Hbusy Hready).
    rewrite (wait_rx_ready D waiting val rx_rest _ Hwait Hval).
    eexists. split; [reflexivity|]. repeat split.
  - intros Hfull Htx. unfold SPI_Transfer. rewrite Htx.
    rewrite (wait_tx_stuck D busy _ Hbusy Hfull). reflexivity.
Qed.

Lemma X22_SPI_Transfer_returns_the_first_byte_received_witness :
  let m := {| gpio := fun _ => 0; bus := fun _ => 0;
              txdata := 0; txdata_reads := [0x80000000; 0];
              rxdata := 0; rxdata_reads := [0x80000000; 0x80000000; 0x1A5];
              sent := [] |} in
  exists m',
    SPI_Transfer example_device 0x3C m = Done ((0xA5, None), m') /\
    sent m' = [0x3C].
Proof.
  destruct
    (X22_SPI_Transfer_returns_the_first_byte_received example_device 0x3C
       {| gpio := fun _ => 0; bus := fun _ => 0;
          txdata := 0; txdata_reads := [0x80000000; 0];
          rxdata := 0; rxdata_reads := [0x80000000; 0x80000000; 0x1A5];
          sent := [] |}
       [0x80000000] 0 [] [0x80000000; 0x80000000] 0x1A5 [])
    as [Hdone _].
  - repeat constructor.
  - destruct Hdone as (m' & Hrun & Hsent & _).
    + reflexivity.
    + reflexivity.
    + repeat constructor.
    + discriminate.
    + reflexivity.
    + exists m'. split; [exact Hrun | exact Hsent].
Defined.

End fe310_transfer_facts.
